(** * StockFlow: low-stock alerts and product creation

    A shallow embedding of [low_stock_alerts.py], [fixed_create_product.py]
    and the part of [models.py] they read, followed by the properties
    proved about them.

    Conventions of the embedding:
    - Python [int] is [Z]; Python [float] is IEEE binary64, taken from
      [SpecFloat] with precision 53 and maximal exponent 1024;
    - Python [str] is [string]: characters are code points below 256;
    - a Python expression that can raise is a value of [Py.res];
    - a table is the list of its rows in storage order, which is also the
      order in which a query without ORDER BY yields them;
    - a DateTime is the number of microseconds since 0001-01-01T00:00:00
      ([datetime.min]);
    - a [Decimal(10, 2)] column holds a number of hundredths; a row has
      it as the [float] that Python's [float] makes of it. *)

From Stdlib Require Import ZArith List String Ascii Bool Lia Permutation Sorted.
From Stdlib Require Import Floats.SpecFloat.
From Stdlib Require Import DecimalString.
Import ListNotations.
Local Open Scope string_scope.
Local Open Scope list_scope.
Local Open Scope Z_scope.

(** ** Python values and built-ins used by the handlers *)

Module Py.

(** The exception classes the handlers can meet.  [ValueError] and
    [IntegrityError] carry their text because the handlers read
    [str(e)]. *)
Inductive exn : Type :=
| ValueError (msg : string)
| TypeError
| OverflowError
| ZeroDivisionError
| AttributeError
| KeyError
| BadRequest
| IntegrityError (msg : string)
| OperationalError (msg : string).

Inductive res (A : Type) : Type :=
| Ok (a : A)
| Raise (e : exn).
Arguments Ok {A} a.
Arguments Raise {A} e.

Definition bind {A B : Type} (m : res A) (k : A -> res B) : res B :=
  match m with
  | Ok a => k a
  | Raise e => Raise e
  end.

(** *** Strings *)

(** [str.isspace] on one character (code points below 256). *)
Definition isspace (c : ascii) : bool :=
  let n := N.of_nat (nat_of_ascii c) in
  (((9 <=? n) && (n <=? 13)) || ((28 <=? n) && (n <=? 32))
   || (n =? 133) || (n =? 160))%N.

Fixpoint lstrip (s : string) : string :=
  match s with
  | EmptyString => EmptyString
  | String c s' => if isspace c then lstrip s' else s
  end.

(** [rstrip] keeps a character when something that is not white space
    follows it or it is not white space itself. *)
Fixpoint rstrip (s : string) : string :=
  match s with
  | EmptyString => EmptyString
  | String c s' =>
      match rstrip s' with
      | EmptyString => if isspace c then EmptyString else String c EmptyString
      | r => String c r
      end
  end.

(** [s.strip()] *)
Definition strip (s : string) : string := rstrip (lstrip s).

Definition lower_char (c : ascii) : ascii :=
  let n := N.of_nat (nat_of_ascii c) in
  if (((65 <=? n) && (n <=? 90)) || ((192 <=? n) && (n <=? 214))
      || ((216 <=? n) && (n <=? 222)))%N
  then ascii_of_nat (nat_of_ascii c + 32)
  else c.

(** [s.lower()] *)
Fixpoint lower (s : string) : string :=
  match s with
  | EmptyString => EmptyString
  | String c s' => String (lower_char c) (lower s')
  end.

(** [sub in s] for strings. *)
Fixpoint contains (sub s : string) : bool :=
  if prefix sub s then true
  else match s with
       | EmptyString => false
       | String _ s' => contains sub s'
       end.

(** [sep.join(l)] *)
Fixpoint join (sep : string) (l : list string) : string :=
  match l with
  | [] => ""
  | [x] => x
  | x :: rest => (x ++ sep ++ join sep rest)%string
  end.

(** [str(n)] for an [int]. *)
Definition str_of_int (z : Z) : string := NilZero.string_of_int (Z.to_int z).

(** *** Floats *)

Definition prec : Z := 53.
Definition emax : Z := 1024.
Definition float : Type := spec_float.

(** An [int] as an exact, not normalised, binary number. *)
Definition exact_of_int (z : Z) : spec_float :=
  match z with
  | Z0 => S754_zero false
  | Zpos p => S754_finite false p 0
  | Zneg p => S754_finite true p 0
  end.

(** [float(z)]: round to nearest even; too large raises. *)
Definition float_of_int (z : Z) : res float :=
  match binary_normalize prec emax z 0 false with
  | S754_infinity _ => Raise OverflowError
  | f => Ok f
  end.

(** [a / b] on two [int]s: the correctly rounded quotient. *)
Definition int_truediv (a b : Z) : res float :=
  if b =? 0 then Raise ZeroDivisionError
  else match SFdiv prec emax (exact_of_int a) (exact_of_int b) with
       | S754_infinity _ => Raise OverflowError
       | f => Ok f
       end.

Definition float_is_zero (x : float) : bool :=
  match x with
  | S754_zero _ => true
  | _ => false
  end.

(** [x / y] on two [float]s: only a zero divisor raises. *)
Definition float_truediv (x y : float) : res float :=
  if float_is_zero y then Raise ZeroDivisionError
  else Ok (SFdiv prec emax x y).

(** [a / y] with [a] an [int] and [y] a [float]. *)
Definition int_div_float (a : Z) (y : float) : res float :=
  bind (float_of_int a) (fun x => float_truediv x y).

(** [x > 0] on a [float]; false on NaN. *)
Definition float_gt0 (x : float) : bool := SFltb (S754_zero false) x.

(** [x < 0] on a [float]; false on NaN. *)
Definition float_lt0 (x : float) : bool := SFltb x (S754_zero false).

(** [int(x)] on a [float]: truncation towards zero. *)
Definition int_of_float (x : float) : res Z :=
  match x with
  | S754_zero _ => Ok 0
  | S754_infinity _ => Raise OverflowError
  | S754_nan => Raise (ValueError "cannot convert float NaN to integer")
  | S754_finite s m e => Ok (cond_Zopp s (Z.shiftl (Zpos m) e))
  end.


(** [float(d)] for a [Decimal] [d] that has two fractional digits,
    given by its sign and its number of hundredths: the binary64 number
    nearest to it. *)
Definition float_of_hundredths (negative : bool) (n : N) : float :=
  match n with
  | N0 => S754_zero negative
  | Npos p =>
      SFdiv prec emax (S754_finite negative p 0) (S754_finite false 100 0)
  end.

(** A number as a query hands it to Python. *)
Inductive num : Type :=
| Int (z : Z)
| Float (f : float).

(** [bool(x)] on a number: zero is false, NaN is true. *)
Definition num_truthy (x : num) : bool :=
  match x with
  | Int z => negb (z =? 0)
  | Float f => negb (float_is_zero f)
  end.

(** [x > 0] on a number. *)
Definition num_gt0 (x : num) : bool :=
  match x with
  | Int z => 0 <? z
  | Float f => float_gt0 f
  end.

(** [a / x] with [a] an [int]. *)
Definition int_div_num (a : Z) (x : num) : res float :=
  match x with
  | Int z => int_truediv a z
  | Float f => int_div_float a f
  end.

End Py.

Notation "x <- m ;; k" := (Py.bind m (fun x => k))
  (at level 61, m at next level, right associativity).

(** ** The schema ([models.py])

    One module per mapped class, with the columns the handlers read or
    write.  A nullable column is an [option].  [ProductType]'s
    [default_low_stock_threshold] is declared NOT NULL; it is kept
    nullable here because both alert handlers test it against NULL, and a
    product without a type yields NULL for it in the outer join. *)

Module Company.
Record t : Type := { id : Z; name : string }.
End Company.

Module Warehouse.
Record t : Type := { id : Z; company_id : Z; name : string }.
End Warehouse.

Module Supplier.
Record t : Type :=
  { id : Z; name : string; contact_email : option string }.
End Supplier.

Module ProductType.
Record t : Type :=
  { id : Z; name : string; default_low_stock_threshold : option Z }.
End ProductType.

(** [price] is a [Decimal(10, 2)] column; the record has it as the
    [float] that [float(product.price)] gives. *)
Module Product.
Record t : Type :=
  { id : Z;
    sku : string;
    name : string;
    description : option string;
    price : Py.float;
    product_type_id : option Z;
    supplier_id : option Z;
    created_at : Z;
    updated_at : Z }.
End Product.

Module Inventory.
Record t : Type :=
  { id : Z;
    product_id : Z;
    warehouse_id : Z;
    quantity : Z;
    low_stock_threshold : option Z;
    created_at : Z;
    updated_at : Z }.
End Inventory.

Module InventoryTransaction.
Record t : Type :=
  { id : Z;
    product_id : Z;
    warehouse_id : Z;
    transaction_type : string;
    quantity_change : Z;
    quantity_before : Z;
    quantity_after : Z;
    notes : option string;
    created_at : Z }.
End InventoryTransaction.

(** The class is [Sale] in [models.py]; the alert handlers call it
    [Sales]. *)
Module Sale.
Record t : Type :=
  { id : Z;
    product_id : Z;
    warehouse_id : Z;
    quantity : Z;
    sale_date : Z }.
End Sale.

(** The committed contents of the data store. *)
Record DB : Type :=
  { companies : list Company.t;
    warehouses : list Warehouse.t;
    suppliers : list Supplier.t;
    product_types : list ProductType.t;
    products : list Product.t;
    inventory : list Inventory.t;
    inventory_transactions : list InventoryTransaction.t;
    sales : list Sale.t }.

(** ** Query building blocks *)

Module Sql.

(** A SQL truth value: [None] is UNKNOWN. *)
Definition tv : Type := option bool.

Definition and_ (a b : tv) : tv :=
  match a, b with
  | Some false, _ | _, Some false => Some false
  | Some true, Some true => Some true
  | _, _ => None
  end.

Definition or_ (a b : tv) : tv :=
  match a, b with
  | Some true, _ | _, Some true => Some true
  | Some false, Some false => Some false
  | _, _ => None
  end.

(** [a < b] on nullable integers. *)
Definition lt (a b : option Z) : tv :=
  match a, b with
  | Some x, Some y => Some (x <? y)
  | _, _ => None
  end.

Definition is_ {A : Type} (a : option A) : tv :=
  match a with
  | None => Some true
  | Some _ => Some false
  end.

Definition isnot {A : Type} (a : option A) : tv :=
  match a with
  | None => Some false
  | Some _ => Some true
  end.

(** A WHERE clause keeps a row only when its condition is TRUE. *)
Definition holds (c : tv) : bool :=
  match c with
  | Some true => true
  | _ => false
  end.

(** [coalesce(a, b, c)] with a literal last. *)
Definition coalesce3 (a b : option Z) (c : Z) : Z :=
  match a with
  | Some x => x
  | None => match b with
            | Some y => y
            | None => c
            end
  end.

(** [not x] for a value that is [None] or an object. *)
Definition is_none {A : Type} (a : option A) : bool :=
  match a with
  | None => true
  | Some _ => false
  end.

(** [x.in_(ids)] for a NOT NULL column and a list of integers. *)
Definition in_ (x : Z) (ids : list Z) : bool := existsb (Z.eqb x) ids.

(** The rows of [rows] an inner join attaches. *)
Definition join {A : Type} (on : A -> bool) (rows : list A) : list A :=
  filter on rows.

(** The rows a LEFT OUTER JOIN attaches: the matches, or one NULL row. *)
Definition outerjoin {A : Type} (on : A -> bool) (rows : list A)
  : list (option A) :=
  match filter on rows with
  | [] => [None]
  | l => map Some l
  end.

(** [fk == pk] for a nullable foreign key. *)
Definition fk_eq (fk : option Z) (pk : Z) : bool :=
  match fk with
  | Some x => x =? pk
  | None => false
  end.

(** [Model.query.get(id)] *)
Definition get {A : Type} (pk : A -> Z) (rows : list A) (k : Z) : option A :=
  find (fun r => pk r =? k) rows.

End Sql.

(** ** [low_stock_alerts.py] *)

Module LowStockAlerts.
Import Py.

Definition RECENT_SALES_DAYS : Z := 30.
Definition MIN_SALES_FOR_CALCULATION : Z := 1.

(** *** Responses *)

Record SupplierInfo : Type :=
  { id : Z; name : string; contact_email : option string }.

Record Alert : Type :=
  { product_id : Z;
    product_name : string;
    sku : string;
    warehouse_id : Z;
    warehouse_name : string;
    current_stock : Z;
    threshold : Z;
    days_until_stockout : option Z;
    supplier : option SupplierInfo }.

(** The JSON object of a response: an error, or the alert list with its
    count and, in one place, a message. *)
Inductive Body : Type :=
| ErrorBody (error : string) (details : option string)
| AlertsBody (alerts : list Alert) (total_alerts : Z)
             (message : option string).

(** A response is its body and its status code. *)
Definition Response : Type := (Body * Z)%type.

(** *** Query parameters *)

(** [request.args]: [days] is the integer the query string carries
    under that name, if it carries one that [int] accepts;
    [include_no_sales] is the raw text. *)
Record Args : Type :=
  { days : option Z; include_no_sales : option string }.

(** [request.args.get('days', type=int, default=RECENT_SALES_DAYS)] *)
Definition arg_days (args : Args) : Z :=
  match days args with
  | Some d => d
  | None => RECENT_SALES_DAYS
  end.

(** [request.args.get('include_no_sales', type=bool, default=False)]:
    [bool] of a string is true unless the string is empty. *)
Definition arg_include_no_sales (args : Args) : bool :=
  match include_no_sales args with
  | Some s => negb (s =? "")%string
  | None => false
  end.

(** *** The sales window *)

Definition MICROSECONDS_PER_DAY : Z := 86400000000.

(** [datetime.max], 9999-12-31T23:59:59.999999. *)
Definition DATETIME_MAX : Z := 3652059 * MICROSECONDS_PER_DAY - 1.

(** [now - timedelta(days=days)]: a [timedelta] holds at most 999999999
    days, and the difference must be a [datetime]. *)
Definition sales_threshold_date (now days : Z) : res Z :=
  if (days <? -999999999) || (999999999 <? days) then Raise OverflowError
  else
    let t := now - days * MICROSECONDS_PER_DAY in
    if (t <? 0) || (DATETIME_MAX <? t) then Raise OverflowError
    else Ok t.

(** *** The low-stock query *)

(** One result row: [(Inventory, Product, Warehouse, ProductType,
    Supplier)], the last two NULL when the outer join finds nothing. *)
Definition Item : Type :=
  (Inventory.t * Product.t * Warehouse.t
   * option ProductType.t * option Supplier.t)%type.

Definition joined (db : DB) : list Item :=
  flat_map (fun inv =>
    flat_map (fun p =>
      flat_map (fun w =>
        flat_map (fun pt =>
          map (fun s => (inv, p, w, pt, s))
            (Sql.outerjoin
               (fun s => Sql.fk_eq (Product.supplier_id p) (Supplier.id s))
               (suppliers db)))
          (Sql.outerjoin
             (fun t =>
                Sql.fk_eq (Product.product_type_id p) (ProductType.id t))
             (product_types db)))
        (Sql.join
           (fun w => Inventory.warehouse_id inv =? Warehouse.id w)
           (warehouses db)))
      (Sql.join
         (fun p => Inventory.product_id inv =? Product.id p)
         (products db)))
    (inventory db).

(** The column [ProductType.default_low_stock_threshold] of a row. *)
Definition type_default (pt : option ProductType.t) : option Z :=
  match pt with
  | Some t => ProductType.default_low_stock_threshold t
  | None => None
  end.

(** The [or_(and_(...), and_(...), and_(...))] of the filter. *)
Definition low_stock_condition (inv : Inventory.t)
  (pt : option ProductType.t) : Sql.tv :=
  let q := Some (Inventory.quantity inv) in
  let own := Inventory.low_stock_threshold inv in
  let dflt := type_default pt in
  Sql.or_
    (Sql.or_
       (Sql.and_ (Sql.isnot own) (Sql.lt q own))
       (Sql.and_ (Sql.and_ (Sql.is_ own) (Sql.isnot dflt)) (Sql.lt q dflt)))
    (Sql.and_ (Sql.and_ (Sql.is_ own) (Sql.is_ dflt)) (Sql.lt q (Some 10))).

Definition is_low_stock (warehouse_ids : list Z) (it : Item) : bool :=
  let '(inv, _, _, pt, _) := it in
  Sql.in_ (Inventory.warehouse_id inv) warehouse_ids
  && Sql.holds (low_stock_condition inv pt).

Definition low_stock_items (db : DB) (warehouse_ids : list Z) : list Item :=
  filter (is_low_stock warehouse_ids) (joined db).

(** *** The sales subquery *)

Record SalesRow : Type :=
  { sr_product_id : Z;
    sr_warehouse_id : Z;
    total_sold : Z;
    days_with_sales : Z }.

Definition sale_key (s : Sale.t) : Z * Z :=
  (Sale.product_id s, Sale.warehouse_id s).

Definition key_eq_dec (a b : Z * Z) : {a = b} + {a <> b}.
Proof. decide equality; apply Z.eq_dec. Defined.

Definition in_group (k : Z * Z) (s : Sale.t) : bool :=
  (Sale.product_id s =? fst k) && (Sale.warehouse_id s =? snd k).

(** The groups of GROUP BY product_id, warehouse_id. *)
Definition group_keys (rows : list Sale.t) : list (Z * Z) :=
  nodup key_eq_dec (map sale_key rows).

(** [func.sum(Sales.quantity)] *)
Definition sum_quantity (rows : list Sale.t) : Z :=
  fold_right (fun s acc => Sale.quantity s + acc) 0 rows.

(** [func.date(Sales.sale_date)] *)
Definition sale_day (s : Sale.t) : Z :=
  Sale.sale_date s / MICROSECONDS_PER_DAY.

(** [func.count(func.distinct(...))] *)
Definition count_distinct (l : list Z) : Z :=
  Z.of_nat (List.length (nodup Z.eq_dec l)).

Definition sales_subquery (db : DB) (sales_threshold_date : Z)
  (product_ids : list Z) : list SalesRow :=
  let rows :=
    filter (fun s => (sales_threshold_date <=? Sale.sale_date s)
                     && Sql.in_ (Sale.product_id s) product_ids)
           (sales db) in
  map (fun k =>
         let g := filter (in_group k) rows in
         {| sr_product_id := fst k;
            sr_warehouse_id := snd k;
            total_sold := sum_quantity g;
            days_with_sales := count_distinct (map sale_day g) |})
      (group_keys rows).

(** [db.session.query(sales_subquery).filter(...).first()] *)
Definition recent_sales_of (subq : list SalesRow)
  (product : Product.t) (warehouse : Warehouse.t) : option SalesRow :=
  find (fun r => (sr_product_id r =? Product.id product)
                 && (sr_warehouse_id r =? Warehouse.id warehouse))
       subq.

(** *** One alert *)

(** The [threshold] of the loop body. *)
Definition threshold_of (inventory : Inventory.t)
  (product_type : option ProductType.t) : Z :=
  match Inventory.low_stock_threshold inventory with
  | Some t => t
  | None =>
      match product_type with
      | Some pt =>
          match ProductType.default_low_stock_threshold pt with
          | Some d => d
          | None => 10
          end
      | None => 10
      end
  end.

(** [average_daily_sales], when the loop body computes it: there are
    recent sales and [days_with_sales > 0]. *)
Definition average_daily_sales (days : Z) (recent_sales : option SalesRow)
  : res (option float) :=
  match recent_sales with
  | Some r =>
      if 0 <? days_with_sales r
      then a <- int_truediv (total_sold r) days ;; Ok (Some a)
      else Ok None
  | None => Ok None
  end.

(** [days_until_stockout] from the stock and the average, if any. *)
Definition stockout (quantity : Z) (average : option float)
  : res (option Z) :=
  match average with
  | Some a =>
      if float_gt0 a
      then x <- int_div_float quantity a ;;
           d <- int_of_float x ;;
           Ok (Some d)
      else Ok None
  | None => Ok None
  end.

Definition supplier_info (supplier : option Supplier.t)
  : option SupplierInfo :=
  match supplier with
  | Some s =>
      Some {| id := Supplier.id s;
              name := Supplier.name s;
              contact_email := Supplier.contact_email s |}
  | None => None
  end.

(** The loop body: [None] is [continue]. *)
Definition alert_of (days : Z) (include_no_sales : bool)
  (subq : list SalesRow) (it : Item) : res (option Alert) :=
  let '(inventory, product, warehouse, product_type, supplier) := it in
  let threshold := threshold_of inventory product_type in
  let recent_sales := recent_sales_of subq product warehouse in
  if Sql.is_none recent_sales && negb include_no_sales then Ok None
  else
    a <- average_daily_sales days recent_sales ;;
    d <- stockout (Inventory.quantity inventory) a ;;
    Ok (Some {| product_id := Product.id product;
                product_name := Product.name product;
                sku := Product.sku product;
                warehouse_id := Warehouse.id warehouse;
                warehouse_name := Warehouse.name warehouse;
                current_stock := Inventory.quantity inventory;
                threshold := threshold;
                days_until_stockout := d;
                supplier := supplier_info supplier |}).

(** The [for] loop over the result rows. *)
Fixpoint build_alerts (body : Item -> res (option Alert))
  (items : list Item) : res (list Alert) :=
  match items with
  | [] => Ok []
  | it :: rest =>
      a <- body it ;;
      alerts <- build_alerts body rest ;;
      Ok (match a with
          | Some x => x :: alerts
          | None => alerts
          end)
  end.

(** *** The sort *)

(** The second component of the sort key: a number of days, or
    [float('inf')]. *)
Inductive ext : Type :=
| Fin (d : Z)
| Inf.

(** [key=lambda x: (x[...] is None, x[...] if ... else float('inf'))] *)
Definition sort_key (x : Alert) : bool * ext :=
  match days_until_stockout x with
  | None => (true, Inf)
  | Some d => (false, Fin d)
  end.

Definition ext_eqb (a b : ext) : bool :=
  match a, b with
  | Fin x, Fin y => x =? y
  | Inf, Inf => true
  | _, _ => false
  end.

Definition ext_ltb (a b : ext) : bool :=
  match a, b with
  | Fin x, Fin y => x <? y
  | Fin _, Inf => true
  | Inf, _ => false
  end.

(** [k1 < k2] on the key tuples: the first components decide unless
    they are equal ([False < True]). *)
Definition key_ltb (k1 k2 : bool * ext) : bool :=
  if Bool.eqb (fst k1) (fst k2) then ext_ltb (snd k1) (snd k2)
  else negb (fst k1) && fst k2.

(** Where a stable sort puts [x] in front of an already sorted tail
    whose elements all came after [x]: before the first element that is
    not smaller. *)
Fixpoint insert (x : Alert) (l : list Alert) : list Alert :=
  match l with
  | [] => [x]
  | y :: r =>
      if key_ltb (sort_key y) (sort_key x) then y :: insert x r
      else x :: l
  end.

(** [alerts.sort(key=...)]: [list.sort] is stable and compares keys
    with [<] only. *)
Fixpoint sort (l : list Alert) : list Alert :=
  match l with
  | [] => []
  | x :: r => insert x (sort r)
  end.

(** *** The handler *)

(** [[item[1].id for item in low_stock_items]] *)
Definition product_ids_of (items : list Item) : list Z :=
  map (fun it : Item => let '(_, p, _, _, _) := it in Product.id p) items.

(** The body of the [try]. *)
Definition get_low_stock_alerts_try (db : DB) (now : Z) (args : Args)
  (company_id : Z) : res Response :=
  match Sql.get Company.id (companies db) company_id with
  | None =>
      Ok (ErrorBody ("Company with ID " ++ str_of_int company_id
                     ++ " does not exist") None, 404)
  | Some _ =>
      let days := arg_days args in
      let include_no_sales := arg_include_no_sales args in
      if days <=? 0
      then Ok (ErrorBody "Days parameter must be positive" None, 400)
      else
        threshold_date <- sales_threshold_date now days ;;
        let warehouses :=
          filter (fun w => Warehouse.company_id w =? company_id)
                 (warehouses db) in
        match warehouses with
        | [] =>
            Ok (AlertsBody [] 0
                  (Some "No warehouses found for this company"), 200)
        | _ =>
            let warehouse_ids := map Warehouse.id warehouses in
            let items := low_stock_items db warehouse_ids in
            match items with
            | [] => Ok (AlertsBody [] 0 None, 200)
            | _ =>
                let product_ids := product_ids_of items in
                let subq := sales_subquery db threshold_date product_ids in
                alerts <- build_alerts
                            (alert_of days include_no_sales subq) items ;;
                let alerts := sort alerts in
                Ok (AlertsBody alerts (Z.of_nat (List.length alerts)) None,
                    200)
            end
        end
  end.

(** [GET /api/companies/<int:company_id>/alerts/low-stock]: [now] is
    what [datetime.utcnow()] returns. *)
Definition get_low_stock_alerts (db : DB) (now : Z) (args : Args)
  (company_id : Z) : Response :=
  match get_low_stock_alerts_try db now args company_id with
  | Ok r => r
  | Raise (ValueError msg) =>
      (ErrorBody "Invalid parameter value" (Some msg), 400)
  | Raise _ =>
      (ErrorBody "Failed to fetch low stock alerts"
                 (Some "Internal server error"), 500)
  end.

(** *** The variant with one query *)

Section Optimized.

(** [func.sum(Sales.quantity) / days] is evaluated by the data store:
    [sql_div total days] is the number the store hands back for it.
    Whether that division truncates, and whether its result reaches
    Python as an [int] or a [float], is the store's choice and is not
    fixed by the source. *)
Variable sql_div : Z -> Z -> num.

Definition avg_daily_sales_subq (db : DB) (sales_threshold_date days : Z)
  : list (Z * Z * num) :=
  let rows :=
    filter (fun s => sales_threshold_date <=? Sale.sale_date s)
           (sales db) in
  map (fun k =>
         (fst k, snd k,
          sql_div (sum_quantity (filter (in_group k) rows)) days))
      (group_keys rows).

(** One result row of the main query: the joined entities and the
    column [avg_daily_sales], NULL when the outer join to the
    subquery finds no group.  The row's attributes are read off the
    entities; of the two columns labelled [product_id] and of the two
    labelled [supplier_id] the handler sees the labelled ones,
    [Product.id] and [Supplier.id]. *)
Definition Row : Type := (Item * option num)%type.

Definition with_avg (subq : list (Z * Z * num)) (it : Item) : list Row :=
  let '(inv, _, _, _, _) := it in
  map (fun g => (it, option_map snd g))
      (Sql.outerjoin
         (fun g : Z * Z * num =>
            (fst (fst g) =? Inventory.product_id inv)
            && (snd (fst g) =? Inventory.warehouse_id inv))
         subq).

(** The WHERE clause of the main query. *)
Definition is_low_stock_row (warehouse_ids : list Z) (row : Row) : bool :=
  let '((inv, _, _, pt, _), _) := row in
  Sql.in_ (Inventory.warehouse_id inv) warehouse_ids
  && (Inventory.quantity inv
      <? Sql.coalesce3 (Inventory.low_stock_threshold inv)
                       (type_default pt) 10).

Definition main_query (db : DB) (company_id : Z)
  (subq : list (Z * Z * num)) : list Row :=
  let warehouse_ids :=
    map Warehouse.id
        (filter (fun w => Warehouse.company_id w =? company_id)
                (warehouses db)) in
  filter (is_low_stock_row warehouse_ids)
         (flat_map (with_avg subq) (joined db)).

(** [avg_daily_sales.isnot(None)] *)
Definition has_avg (row : Row) : bool := negb (Sql.is_none (snd row)).

(** [days_until_stockout] in the loop of the variant. *)
Definition stockout_row (quantity : Z) (avg_daily_sales : option num)
  : res (option Z) :=
  match avg_daily_sales with
  | Some a =>
      if num_truthy a && num_gt0 a
      then x <- int_div_num quantity a ;;
           d <- int_of_float x ;;
           Ok (Some d)
      else Ok None
  | None => Ok None
  end.

(** [if row.supplier_id:] is false on NULL and on 0. *)
Definition supplier_info_row (supplier : option Supplier.t)
  : option SupplierInfo :=
  match supplier with
  | Some s =>
      if Supplier.id s =? 0 then None
      else Some {| id := Supplier.id s;
                   name := Supplier.name s;
                   contact_email := Supplier.contact_email s |}
  | None => None
  end.

(** The loop body of the variant. *)
Definition alert_of_row (row : Row) : res Alert :=
  let '((inventory, product, warehouse, product_type, supplier), avg) :=
    row in
  let threshold :=
    match Inventory.low_stock_threshold inventory with
    | Some t => t
    | None =>
        match type_default product_type with
        | Some d => d
        | None => 10
        end
    end in
  d <- stockout_row (Inventory.quantity inventory) avg ;;
  Ok {| product_id := Product.id product;
        product_name := Product.name product;
        sku := Product.sku product;
        warehouse_id := Inventory.warehouse_id inventory;
        warehouse_name := Warehouse.name warehouse;
        current_stock := Inventory.quantity inventory;
        threshold := threshold;
        days_until_stockout := d;
        supplier := supplier_info_row supplier |}.

Fixpoint build_alerts_rows (rows : list Row) : res (list Alert) :=
  match rows with
  | [] => Ok []
  | row :: rest =>
      a <- alert_of_row row ;;
      alerts <- build_alerts_rows rest ;;
      Ok (a :: alerts)
  end.

Definition get_low_stock_alerts_optimized_try (db : DB) (now : Z)
  (args : Args) (company_id : Z) : res Response :=
  match Sql.get Company.id (companies db) company_id with
  | None =>
      Ok (ErrorBody ("Company with ID " ++ str_of_int company_id
                     ++ " does not exist") None, 404)
  | Some _ =>
      let days := arg_days args in
      let include_no_sales := arg_include_no_sales args in
      if days <=? 0
      then Ok (ErrorBody "Days parameter must be positive" None, 400)
      else
        threshold_date <- sales_threshold_date now days ;;
        let subq := avg_daily_sales_subq db threshold_date days in
        let query := main_query db company_id subq in
        let results :=
          if negb include_no_sales then filter has_avg query
          else query in
        alerts <- build_alerts_rows results ;;
        let alerts := sort alerts in
        Ok (AlertsBody alerts (Z.of_nat (List.length alerts)) None, 200)
  end.

(** [GET /api/companies/<int:company_id>/alerts/low-stock-optimized] *)
Definition get_low_stock_alerts_optimized (db : DB) (now : Z)
  (args : Args) (company_id : Z) : Response :=
  match get_low_stock_alerts_optimized_try db now args company_id with
  | Ok r => r
  | Raise _ =>
      (ErrorBody "Failed to fetch low stock alerts"
                 (Some "Internal server error"), 500)
  end.

End Optimized.

End LowStockAlerts.

(** ** JSON request bodies *)

Module Json.
Import Py.

(** A parsed JSON document, that is the Python object [request.json]
    returns: [None], a [bool], an [int], a [float], a [str], a [list] or
    a [dict] (its items, one per key). *)
#[warnings="-register-all"]
Inductive t : Type :=
| Null
| Bool (b : bool)
| Int (z : Z)
| Float (f : float)
| Str (s : string)
| Arr (l : list t)
| Obj (items : list (string * t)).

(** [bool(x)] *)
Definition truthy (x : t) : bool :=
  match x with
  | Null => false
  | Bool b => b
  | Int z => negb (z =? 0)
  | Float f => negb (float_is_zero f)
  | Str s => negb (s =? "")%string
  | Arr l => negb (Sql.is_none (hd_error l))
  | Obj items => negb (Sql.is_none (hd_error items))
  end.

(** [d.get(key)] on the items of a [dict]. *)
Fixpoint lookup (key : string) (items : list (string * t)) : option t :=
  match items with
  | [] => None
  | (k, v) :: rest => if (k =? key)%string then Some v else lookup key rest
  end.

Definition is_str (s : string) (x : t) : bool :=
  match x with
  | Str s' => (s' =? s)%string
  | _ => false
  end.

(** [field in data] with [field] a [str]. *)
Definition contains_field (field : string) (data : t) : res bool :=
  match data with
  | Obj items => Ok (negb (Sql.is_none (lookup field items)))
  | Arr l => Ok (existsb (is_str field) l)
  | Str s => Ok (contains field s)
  | _ => Raise TypeError
  end.

(** [data[field]] with [field] a [str] that [data] holds if it is a
    [dict]. *)
Definition getitem (data : t) (field : string) : res t :=
  match data with
  | Obj items =>
      match lookup field items with
      | Some v => Ok v
      | None => Raise KeyError
      end
  | _ => Raise TypeError
  end.

(** [data.get(field)]; a missing key and a JSON [null] both give
    [None]. *)
Definition get (data : t) (field : string) : res (option t) :=
  match data with
  | Obj items =>
      match lookup field items with
      | Some Null => Ok None
      | r => Ok r
      end
  | _ => Raise AttributeError
  end.

(** The conversions of Python whose results depend on text the source
    does not fix: how a float, a list or a dict prints, and which
    strings [int] and [float] accept. *)
Record Builtins : Type :=
  { repr : t -> string;
    int_of_str : string -> option Z;
    float_of_str : string -> option float }.

Section Conversions.
Variable py : Builtins.

(** [str(x)] *)
Definition str (x : t) : string :=
  match x with
  | Str s => s
  | Null => "None"
  | Bool true => "True"
  | Bool false => "False"
  | Int z => str_of_int z
  | _ => repr py x
  end.

(** [float(x)]; the text of the [ValueError] is never read. *)
Definition to_float (x : t) : res float :=
  match x with
  | Float f => Ok f
  | Int z => float_of_int z
  | Bool b => float_of_int (if b then 1 else 0)
  | Str s =>
      match float_of_str py s with
      | Some f => Ok f
      | None => Raise (ValueError "could not convert string to float")
      end
  | _ => Raise TypeError
  end.

(** [int(x)] *)
Definition to_int (x : t) : res Z :=
  match x with
  | Int z => Ok z
  | Bool b => Ok (if b then 1 else 0)
  | Float f => int_of_float f
  | Str s =>
      match int_of_str py s with
      | Some z => Ok z
      | None => Raise (ValueError "invalid literal for int() with base 10")
      end
  | _ => Raise TypeError
  end.

(** [x.strip()]: only a [str] has the method. *)
Definition strip_method (x : t) : res string :=
  match x with
  | Str s => Ok (strip s)
  | _ => Raise AttributeError
  end.

End Conversions.

End Json.

(** ** [fixed_create_product.py] *)

Module CreateProduct.
Import Py.

(** *** Requests and responses *)

(** [is_json] is what the content type says; [json] is the parsed body,
    [None] when the body does not parse and [request.json] raises. *)
Record Request : Type :=
  { is_json : bool; json : option Json.t }.

Record ProductSummary : Type :=
  { id : Z;
    name : string;
    sku : string;
    price : float;
    warehouse_id : Z;
    initial_quantity : Z;
    created_at : Z }.

Inductive Body : Type :=
| ErrorBody (error : string) (details : option string)
            (existing_product_id : option Z)
| CreatedBody (message : string) (product : ProductSummary).

Definition Response : Type := (Body * Z)%type.

Definition error (msg : string) (status : Z) : Response :=
  (ErrorBody msg None None, status).

(** *** The session *)

(** What the data store and the clock answer while the request runs:
    the readings of [datetime.utcnow()] in order, the primary keys the
    store assigns, how it binds a JSON value that is neither [null] nor
    an [int] to an INTEGER column, how many hundredths it keeps in a
    [Decimal(10, 2)] column for the magnitude of a finite [float], and
    the exception, if any, that the INSERT of the product (at [flush])
    and the remaining INSERTs with the COMMIT (at [commit]) raise. *)
Record Store : Type :=
  { utcnow : nat -> Z;
    product_pk : Z;
    inventory_pk : Z;
    transaction_pk : Z;
    bind_integer : Json.t -> res Z;
    numeric_10_2 : float -> N;
    flush_raises : option exn;
    commit_raises : option exn }.

Inductive obj : Type :=
| ProductObj (r : Product.t)
| InventoryObj (r : Inventory.t)
| TransactionObj (r : InventoryTransaction.t).

(** [committed] is what every session of the store sees.  [in_tx] holds
    the rows this session has inserted in its open transaction and
    [added] the objects it has not flushed yet; neither is visible
    outside.  [observed] records [committed] as it was at the start and
    after every operation of the session. *)
Record Session : Type :=
  { committed : DB;
    in_tx : list obj;
    added : list obj;
    observed : list DB }.

Definition start (db : DB) : Session :=
  {| committed := db; in_tx := []; added := []; observed := [db] |}.

Definition insert_row (o : obj) (db : DB) : DB :=
  match o with
  | ProductObj r =>
      {| companies := companies db; warehouses := warehouses db;
         suppliers := suppliers db; product_types := product_types db;
         products := products db ++ [r];
         inventory := inventory db;
         inventory_transactions := inventory_transactions db;
         sales := sales db |}
  | InventoryObj r =>
      {| companies := companies db; warehouses := warehouses db;
         suppliers := suppliers db; product_types := product_types db;
         products := products db;
         inventory := inventory db ++ [r];
         inventory_transactions := inventory_transactions db;
         sales := sales db |}
  | TransactionObj r =>
      {| companies := companies db; warehouses := warehouses db;
         suppliers := suppliers db; product_types := product_types db;
         products := products db;
         inventory := inventory db;
         inventory_transactions := inventory_transactions db ++ [r];
         sales := sales db |}
  end.

Definition insert_rows (rows : list obj) (db : DB) : DB :=
  fold_left (fun d o => insert_row o d) rows db.

(** A session operation: a result or an exception, and the session
    after it. *)
Definition M (A : Type) : Type := Session -> res A * Session.

Definition ret {A : Type} (a : A) : M A := fun s => (Ok a, s).

Definition seq {A B : Type} (m : M A) (k : A -> M B) : M B :=
  fun s =>
    match m s with
    | (Ok a, s') => k a s'
    | (Raise e, s') => (Raise e, s')
    end.

Definition observe (s : Session) : Session :=
  {| committed := committed s; in_tx := in_tx s; added := added s;
     observed := observed s ++ [committed s] |}.

(** [db.session.add(o)] *)
Definition session_add (o : obj) : M unit :=
  fun s =>
    (Ok tt,
     observe {| committed := committed s; in_tx := in_tx s;
                added := added s ++ [o]; observed := observed s |}).

(** [db.session.flush()] *)
Definition session_flush (store : Store) : M unit :=
  fun s =>
    match flush_raises store with
    | Some e => (Raise e, observe s)
    | None =>
        (Ok tt,
         observe {| committed := committed s;
                    in_tx := in_tx s ++ added s;
                    added := []; observed := observed s |})
    end.

(** [db.session.commit()]: the objects not yet flushed are inserted,
    then the transaction commits, as a whole or not at all. *)
Definition session_commit (store : Store) : M unit :=
  fun s =>
    match commit_raises store with
    | Some e => (Raise e, observe s)
    | None =>
        (Ok tt,
         observe {| committed :=
                      insert_rows (in_tx s ++ added s) (committed s);
                    in_tx := []; added := []; observed := observed s |})
    end.

(** [db.session.rollback()] *)
Definition session_rollback (s : Session) : Session :=
  observe {| committed := committed s; in_tx := []; added := [];
             observed := observed s |}.

(** *** Validation *)

(** A step of the handler before the unit of work: it returns a
    response, goes on with a value, or raises. *)
Definition V (A : Type) : Type := res (Response + A).

Definition returns {A : Type} (r : Response) : V A := Ok (inl r).

Definition pure {A : Type} (a : A) : V A := Ok (inr a).

Definition lift {A : Type} (m : res A) : V A :=
  match m with
  | Ok a => Ok (inr a)
  | Raise e => Raise e
  end.

Definition andthen {A B : Type} (m : V A) (k : A -> V B) : V B :=
  match m with
  | Ok (inr a) => k a
  | Ok (inl r) => Ok (inl r)
  | Raise e => Raise e
  end.

(** [if cond: return r] *)
Definition return_if (cond : bool) (r : Response) : V unit :=
  if cond then returns r else pure tt.

(** [try: m except (ValueError, TypeError): return r] *)
Definition except_value_type {A : Type} (m : V A) (r : Response) : V A :=
  match m with
  | Raise (ValueError _) | Raise TypeError => returns r
  | _ => m
  end.

Definition required_fields : list string :=
  ["name"; "sku"; "price"; "warehouse_id"; "initial_quantity"].

(** [[field for field in fields if field not in data]] *)
Fixpoint missing (data : Json.t) (fields : list string)
  : res (list string) :=
  match fields with
  | [] => Ok []
  | field :: rest =>
      present <- Json.contains_field field data ;;
      others <- missing data rest ;;
      Ok (if present then others else field :: others)
  end.

(** What the unit of work receives from the validation. *)
Record Valid : Type :=
  { v_sku : string;
    v_price : float;
    v_initial_quantity : Z;
    v_warehouse_id : Z;
    v_name : string;
    v_description : option string;
    v_supplier_id : option Z;
    v_product_type_id : option Json.t }.

Notation "x <-- m ;;; k" := (andthen m (fun x => k))
  (at level 61, m at next level, right associativity).
Notation "m ;;; k" := (andthen m (fun _ => k))
  (at level 61, right associativity).

(** Everything between the start of the outer [try] and the unit of
    work. *)
Definition validate (py : Json.Builtins) (db : DB) (request : Request)
  : V Valid :=
  return_if (negb (is_json request)) (error "Request must be JSON" 400) ;;;
  data <-- lift (match json request with
                 | Some d => Ok d
                 | None => Raise BadRequest
                 end) ;;;
  return_if (negb (Json.truthy data))
            (error "Request body cannot be empty" 400) ;;;
  missing_fields <-- lift (missing data required_fields) ;;;
  return_if (negb (Sql.is_none (hd_error missing_fields)))
            (error ("Missing required fields: " ++ join ", " missing_fields)
                   400) ;;;
  sku_value <-- lift (Json.getitem data "sku") ;;;
  let sku := strip (Json.str py sku_value) in
  return_if (sku =? "")%string (error "SKU cannot be empty" 400) ;;;
  match find (fun p => (Product.sku p =? sku)%string) (products db) with
  | Some existing_product =>
      returns (ErrorBody ("Product with SKU '" ++ sku ++ "' already exists")
                         None (Some (Product.id existing_product)), 409)
  | None => pure tt
  end ;;;
  price <-- except_value_type
              (price <-- lift (v <- Json.getitem data "price" ;;
                               Json.to_float py v) ;;;
               return_if (float_lt0 price)
                         (error "Price must be non-negative" 400) ;;;
               pure price)
              (error "Price must be a valid number" 400) ;;;
  initial_quantity <-- except_value_type
              (q <-- lift (v <- Json.getitem data "initial_quantity" ;;
                           Json.to_int py v) ;;;
               return_if (q <? 0)
                         (error "Initial quantity must be non-negative"
                                400) ;;;
               pure q)
              (error "Initial quantity must be a valid integer" 400) ;;;
  warehouse_id <-- lift (v <- Json.getitem data "warehouse_id" ;;
                         Json.to_int py v) ;;;
  return_if (Sql.is_none (Sql.get Warehouse.id (warehouses db) warehouse_id))
            (error ("Warehouse with ID " ++ str_of_int warehouse_id
                    ++ " does not exist") 404) ;;;
  name_value <-- lift (Json.getitem data "name") ;;;
  let name := strip (Json.str py name_value) in
  return_if (name =? "")%string
            (error "Product name cannot be empty" 400) ;;;
  description_value <-- lift (Json.get data "description") ;;;
  description <-- lift (match description_value with
                        | Some d =>
                            if Json.truthy d
                            then s <- Json.strip_method d ;; Ok (Some s)
                            else Ok None
                        | None => Ok None
                        end) ;;;
  supplier_value <-- lift (Json.get data "supplier_id") ;;;
  product_type_id <-- lift (Json.get data "product_type_id") ;;;
  supplier_id <-- match supplier_value with
                  | Some v =>
                      except_value_type
                        (supplier_id <-- lift (Json.to_int py v) ;;;
                         return_if
                           (Sql.is_none
                              (Sql.get Supplier.id (suppliers db)
                                       supplier_id))
                           (error ("Supplier with ID "
                                   ++ str_of_int supplier_id
                                   ++ " does not exist") 404) ;;;
                         pure (Some supplier_id))
                        (error "Supplier ID must be a valid integer" 400)
                  | None => pure None
                  end ;;;
  pure {| v_sku := sku;
          v_price := price;
          v_initial_quantity := initial_quantity;
          v_warehouse_id := warehouse_id;
          v_name := name;
          v_description := description;
          v_supplier_id := supplier_id;
          v_product_type_id := product_type_id |}.

(** *** The unit of work *)

Notation "x <~ m ;; k" := (seq m (fun x => k))
  (at level 61, m at next level, right associativity).
Notation "m ~;; k" := (seq m (fun _ => k))
  (at level 61, right associativity).

(** The value the store puts in the column [product_type_id]. *)
Definition bound_product_type_id (store : Store) (v : option Json.t)
  : res (option Z) :=
  match v with
  | None => Ok None
  | Some (Json.Int z) => Ok (Some z)
  | Some x => z <- bind_integer store x ;; Ok (Some z)
  end.

(** The column [price] for a product created with the [float]
    [price], and so [float(product.price)] once the commit has expired
    the object and the attribute is loaded again.  The column is
    [Decimal(10, 2)]: of a finite price the store keeps a number of
    hundredths, with the sign of the price; a zero, an infinity or NaN
    has no digits to round and comes back as it went in, where the
    store takes it. *)
Definition stored_price (store : Store) (price : float) : float :=
  match price with
  | S754_finite negative _ _ =>
      float_of_hundredths negative (numeric_10_2 store price)
  | _ => price
  end.

Definition new_product (store : Store) (v : Valid)
  (product_type_id : option Z) : Product.t :=
  {| Product.id := product_pk store;
     Product.sku := v_sku v;
     Product.name := v_name v;
     Product.description := v_description v;
     Product.price := stored_price store (v_price v);
     Product.product_type_id := product_type_id;
     Product.supplier_id := v_supplier_id v;
     Product.created_at := utcnow store 0;
     Product.updated_at := utcnow store 1 |}.

Definition new_inventory (store : Store) (v : Valid) (product : Product.t)
  : Inventory.t :=
  {| Inventory.id := inventory_pk store;
     Inventory.product_id := Product.id product;
     Inventory.warehouse_id := v_warehouse_id v;
     Inventory.quantity := v_initial_quantity v;
     Inventory.low_stock_threshold := None;
     Inventory.created_at := utcnow store 2;
     Inventory.updated_at := utcnow store 3 |}.

Definition new_transaction (store : Store) (v : Valid)
  (product : Product.t) : InventoryTransaction.t :=
  {| InventoryTransaction.id := transaction_pk store;
     InventoryTransaction.product_id := Product.id product;
     InventoryTransaction.warehouse_id := v_warehouse_id v;
     InventoryTransaction.transaction_type := "initial_stock";
     InventoryTransaction.quantity_change := v_initial_quantity v;
     InventoryTransaction.quantity_before := 0;
     InventoryTransaction.quantity_after := v_initial_quantity v;
     InventoryTransaction.notes :=
       Some ("Initial stock for new product " ++ v_sku v)%string;
     InventoryTransaction.created_at := utcnow store 4 |}.

(** The body of the inner [try].  The primary keys, which the store
    assigns when it inserts, are in the rows from the start, and the
    store's binding of [product_type_id], which belongs to the INSERT
    of the product, is asked for first; both happen inside this [try]
    and nothing reads the difference.  The product row has the price as
    the column keeps it from the start too: the handler reads
    [product.price] only after the commit, when it is loaded from the
    store. *)
Definition unit_of_work (store : Store) (v : Valid) : M Response :=
  product_type_id <~
    (fun s => (bound_product_type_id store (v_product_type_id v), s)) ;;
  let product := new_product store v product_type_id in
  session_add (ProductObj product) ~;;
  session_flush store ~;;
  let inventory := new_inventory store v product in
  session_add (InventoryObj inventory) ~;;
  let transaction := new_transaction store v product in
  session_add (TransactionObj transaction) ~;;
  session_commit store ~;;
  ret (CreatedBody "Product created successfully"
         {| id := Product.id product;
            name := Product.name product;
            sku := Product.sku product;
            price := Product.price product;
            warehouse_id := v_warehouse_id v;
            initial_quantity := v_initial_quantity v;
            created_at := Product.created_at product |}, 201).

(** [except exc.IntegrityError as e: ...] after the rollback. *)
Definition integrity_response (sku msg : string) : Response :=
  if contains "sku" (lower msg) || contains "unique" (lower msg)
  then (ErrorBody ("Product with SKU '" ++ sku ++ "' already exists")
                  None None, 409)
  else (ErrorBody "Database integrity error" (Some msg) None, 400).

(** [POST /api/products]: the response, and the session as the request
    leaves it. *)
Definition create_product (py : Json.Builtins) (store : Store)
  (request : Request) (db : DB) : Response * Session :=
  let s := start db in
  match validate py db request with
  | Ok (inl r) => (r, s)
  | Ok (inr v) =>
      match unit_of_work store v s with
      | (Ok r, s') => (r, s')
      | (Raise (IntegrityError msg), s') =>
          (integrity_response (v_sku v) msg, session_rollback s')
      | (Raise _, s') =>
          ((ErrorBody "Failed to create product"
                      (Some "Internal server error") None, 500),
           session_rollback s')
      end
  | Raise _ =>
      ((ErrorBody "An unexpected error occurred"
                  (Some "Internal server error") None, 500),
       session_rollback s)
  end.

End CreateProduct.

(** ** The vocabulary of the specification *)

Module Spec.
Import Py LowStockAlerts.

(** The effective threshold in the specification's words: the override
    of the inventory row if present, else the default of the product's
    type if the product has a type and the default is set, else 10. *)
Definition effective_threshold (override : option Z)
  (product_type : option ProductType.t) : Z :=
  match override, product_type with
  | Some t, _ => t
  | None, None => 10
  | None, Some pt =>
      match ProductType.default_low_stock_threshold pt with
      | Some d => d
      | None => 10
      end
  end.

(** The sales of a (product, warehouse) pair whose timestamp falls in
    the trailing window that starts at [since]. *)
Definition window_sales (db : DB) (since product warehouse : Z)
  : list Sale.t :=
  filter (fun s => (since <=? Sale.sale_date s)
                   && (Sale.product_id s =? product)
                   && (Sale.warehouse_id s =? warehouse))
         (sales db).

(** The sum of the quantities of a list of sales. *)
Definition total_quantity (l : list Sale.t) : Z :=
  fold_right Z.add 0 (map Sale.quantity l).

(** The company is in the store. *)
Definition company_exists (db : DB) (company_id : Z) : Prop :=
  exists c, In c (companies db) /\ Company.id c = company_id.

(** No warehouse belongs to the company. *)
Definition no_warehouses (db : DB) (company_id : Z) : Prop :=
  forall w, In w (warehouses db) -> Warehouse.company_id w <> company_id.

(** [days] fits a [timedelta] and the instant [days] days before [now]
    is a [datetime]. *)
Definition window_representable (now days : Z) : Prop :=
  -999999999 <= days <= 999999999
  /\ 0 <= now - days * MICROSECONDS_PER_DAY <= DATETIME_MAX.

(** The ids of the company's warehouses. *)
Definition company_warehouse_ids (db : DB) (company_id : Z) : list Z :=
  map Warehouse.id
      (filter (fun w => Warehouse.company_id w =? company_id)
              (warehouses db)).

(** The low-stock rows of the company, in the order the query yields
    them. *)
Definition company_items (db : DB) (company_id : Z) : list Item :=
  low_stock_items db (company_warehouse_ids db company_id).

(** The alerts of the first handler in fetch order, before the sort, for
    a window that starts at [since]. *)
Definition fetched_alerts (db : DB) (since : Z) (args : Args)
  (company_id : Z) : res (list Alert) :=
  let items := company_items db company_id in
  build_alerts
    (alert_of (arg_days args) (arg_include_no_sales args)
       (sales_subquery db since (product_ids_of items)))
    items.

(** The rows the variant's loop runs over, in fetch order. *)
Definition fetched_rows (sql_div : Z -> Z -> num) (db : DB) (since : Z)
  (args : Args) (company_id : Z) : list (Row) :=
  let query :=
    main_query db company_id
      (avg_daily_sales_subq sql_div db since (arg_days args)) in
  if negb (arg_include_no_sales args) then filter has_avg query else query.

(** The alerts of the variant in fetch order, before the sort. *)
Definition fetched_alerts_optimized (sql_div : Z -> Z -> num) (db : DB)
  (since : Z) (args : Args) (company_id : Z) : res (list Alert) :=
  build_alerts_rows (fetched_rows sql_div db since args company_id).

(** The column [avg_daily_sales] of the variant's row for a joined row:
    the store's quotient of the pair's sales in the window by [days],
    NULL without such sales. *)
Definition avg_column (sql_div : Z -> Z -> num) (db : DB) (since days : Z)
  (it : Item) : option num :=
  let '(inv, _, _, _, _) := it in
  match window_sales db since (Inventory.product_id inv)
          (Inventory.warehouse_id inv) with
  | [] => None
  | g => Some (sql_div (total_quantity g) days)
  end.

(** An alert for the (product, warehouse) pair is in the list. *)
Definition appears (product warehouse : Z) (alerts : list Alert) : Prop :=
  exists a, In a alerts
            /\ product_id a = product /\ warehouse_id a = warehouse.

(** Every alert with a projection stands before every alert without. *)
Definition present_first (l : list Alert) : Prop :=
  forall (i j : nat) (a b : Alert) (x : Z),
    nth_error l i = Some a -> nth_error l j = Some b ->
    days_until_stockout a = Some x -> days_until_stockout b = None ->
    (i < j)%nat.

(** The projections that are present ascend along the list. *)
Definition ascending (l : list Alert) : Prop :=
  forall (i j : nat) (a b : Alert) (x y : Z),
    (i < j)%nat ->
    nth_error l i = Some a -> nth_error l j = Some b ->
    days_until_stockout a = Some x -> days_until_stockout b = Some y ->
    x <= y.

(** Two alerts have the same sort key. *)
Definition same_key (a b : Alert) : bool :=
  match days_until_stockout a, days_until_stockout b with
  | Some x, Some y => x =? y
  | None, None => true
  | _, _ => false
  end.

(** The alerts of each key stand in [sorted] in the order they have in
    [fetched]. *)
Definition keeps_fetch_order (fetched sorted : list Alert) : Prop :=
  forall a, filter (same_key a) sorted = filter (same_key a) fetched.

(** The order the sort key induces: a projection before none, a smaller
    projection before a larger. *)
Definition key_le (a b : Alert) : Prop :=
  match days_until_stockout a, days_until_stockout b with
  | Some x, Some y => x <= y
  | Some _, None => True
  | None, None => True
  | None, Some _ => False
  end.

(** A float carries the sign [s], or no sign at all. *)
Definition signed (s : bool) (x : float) : Prop :=
  match x with
  | S754_zero s' | S754_infinity s' | S754_finite s' _ _ => s' = s
  | S754_nan => True
  end.


End Spec.

(** ** The vocabulary of the specification: product creation *)

Module SpecCreate.
Import Py CreateProduct.

(** A request whose content type is JSON and whose body is the JSON
    object with the given members. *)
Definition json_request (items : list (string * Json.t)) : Request :=
  {| is_json := true; json := Some (Json.Obj items) |}.

(** The required fields the body does not carry. *)
Definition absent (items : list (string * Json.t)) : list string :=
  filter (fun f => Sql.is_none (Json.lookup f items)) required_fields.

(** A conversion raised [ValueError] or [TypeError]. *)
Definition not_accepted {A : Type} (r : res A) : Prop :=
  (exists msg, r = Raise (ValueError msg)) \/ r = Raise TypeError.

(** The SKU of the request: the text of the member, stripped. *)
Definition sku_of (py : Json.Builtins) (items : list (string * Json.t))
  : option string :=
  option_map (fun v => strip (Json.str py v)) (Json.lookup "sku" items).

(** A product of the store has the SKU. *)
Definition sku_taken (db : DB) (sku : string) : Prop :=
  exists p, In p (products db) /\ Product.sku p = sku.

(** The body carries every required field and its SKU is not empty. *)
Definition has_sku (py : Json.Builtins) (items : list (string * Json.t))
  (sku : string) : Prop :=
  absent items = [] /\ sku_of py items = Some sku /\ sku <> "".

(** The body passes the checks up to the SKU: all fields, a SKU that is
    not empty and that no product has. *)
Definition sku_is_new (py : Json.Builtins) (db : DB)
  (items : list (string * Json.t)) : Prop :=
  exists sku, has_sku py items sku /\ ~ sku_taken db sku.

Definition price_is_valid (py : Json.Builtins)
  (items : list (string * Json.t)) : Prop :=
  exists v f, Json.lookup "price" items = Some v
              /\ Json.to_float py v = Ok f /\ float_lt0 f = false.

Definition quantity_is_valid (py : Json.Builtins)
  (items : list (string * Json.t)) : Prop :=
  exists v q, Json.lookup "initial_quantity" items = Some v
              /\ Json.to_int py v = Ok q /\ 0 <= q.

Definition warehouse_found (py : Json.Builtins) (db : DB)
  (items : list (string * Json.t)) : Prop :=
  exists v id w, Json.lookup "warehouse_id" items = Some v
                 /\ Json.to_int py v = Ok id
                 /\ In w (warehouses db) /\ Warehouse.id w = id.

(** The validation failures of a JSON object body and the message of
    each, in the order the handler checks them: a failure is reported
    when the checks before it pass. *)
Inductive rejects (py : Json.Builtins) (db : DB)
  (items : list (string * Json.t)) : string -> Prop :=
| rejects_missing :
    items <> [] -> absent items <> [] ->
    rejects py db items
      ("Missing required fields: " ++ join ", " (absent items))
| rejects_empty_sku :
    absent items = [] -> sku_of py items = Some "" ->
    rejects py db items "SKU cannot be empty"
| rejects_price_not_a_number (v : Json.t) :
    sku_is_new py db items ->
    Json.lookup "price" items = Some v ->
    not_accepted (Json.to_float py v) ->
    rejects py db items "Price must be a valid number"
| rejects_negative_price (v : Json.t) (f : float) :
    sku_is_new py db items ->
    Json.lookup "price" items = Some v ->
    Json.to_float py v = Ok f -> float_lt0 f = true ->
    rejects py db items "Price must be non-negative"
| rejects_quantity_not_an_integer (v : Json.t) :
    sku_is_new py db items -> price_is_valid py items ->
    Json.lookup "initial_quantity" items = Some v ->
    not_accepted (Json.to_int py v) ->
    rejects py db items "Initial quantity must be a valid integer"
| rejects_negative_quantity (v : Json.t) (q : Z) :
    sku_is_new py db items -> price_is_valid py items ->
    Json.lookup "initial_quantity" items = Some v ->
    Json.to_int py v = Ok q -> q < 0 ->
    rejects py db items "Initial quantity must be non-negative"
| rejects_empty_name (v : Json.t) :
    sku_is_new py db items -> price_is_valid py items ->
    quantity_is_valid py items -> warehouse_found py db items ->
    Json.lookup "name" items = Some v ->
    strip (Json.str py v) = "" ->
    rejects py db items "Product name cannot be empty".

(** The store after the three rows of a created product were added. *)
Definition with_product (db : DB) (product : Product.t)
  (inventory_row : Inventory.t) (transaction : InventoryTransaction.t)
  : DB :=
  {| companies := companies db;
     warehouses := warehouses db;
     suppliers := suppliers db;
     product_types := product_types db;
     products := products db ++ [product];
     inventory := inventory db ++ [inventory_row];
     inventory_transactions := inventory_transactions db ++ [transaction];
     sales := sales db |}.

(** The three rows belong to the product the response describes. *)
Definition rows_of (summary : ProductSummary) (product : Product.t)
  (inventory_row : Inventory.t) (transaction : InventoryTransaction.t)
  : Prop :=
  Product.id product = id summary
  /\ Product.sku product = sku summary
  /\ Inventory.product_id inventory_row = id summary
  /\ Inventory.warehouse_id inventory_row = warehouse_id summary
  /\ Inventory.quantity inventory_row = initial_quantity summary
  /\ InventoryTransaction.product_id transaction = id summary
  /\ InventoryTransaction.transaction_type transaction = "initial_stock"
  /\ InventoryTransaction.quantity_before transaction = 0
  /\ InventoryTransaction.quantity_after transaction
     = initial_quantity summary.

(** A validation step returns only responses that satisfy [P]. *)
Definition early {A : Type} (P : Response -> Prop) (m : V A) : Prop :=
  forall r, m = Ok (inl r) -> P r.

End SpecCreate.

(** ** Sample data *)

Module Examples.
Import Py LowStockAlerts.

Definition day : Z := MICROSECONDS_PER_DAY.

(** 2026-11-03T00:00:00. *)
Definition now : Z := 739922 * day.

Definition product (id : Z) (sku name : string)
  (product_type_id supplier_id : option Z) : Product.t :=
  {| Product.id := id; Product.sku := sku; Product.name := name;
     Product.description := None; Product.price := S754_zero false;
     Product.product_type_id := product_type_id;
     Product.supplier_id := supplier_id;
     Product.created_at := 0; Product.updated_at := 0 |}.

Definition stock (id product_id warehouse_id quantity : Z)
  (low_stock_threshold : option Z) : Inventory.t :=
  {| Inventory.id := id; Inventory.product_id := product_id;
     Inventory.warehouse_id := warehouse_id;
     Inventory.quantity := quantity;
     Inventory.low_stock_threshold := low_stock_threshold;
     Inventory.created_at := 0; Inventory.updated_at := 0 |}.

Definition sale (id product_id warehouse_id quantity sale_date : Z)
  : Sale.t :=
  {| Sale.id := id; Sale.product_id := product_id;
     Sale.warehouse_id := warehouse_id; Sale.quantity := quantity;
     Sale.sale_date := sale_date |}.

Definition acme : Company.t := {| Company.id := 1; Company.name := "Acme" |}.

Definition main : Warehouse.t :=
  {| Warehouse.id := 1; Warehouse.company_id := 1;
     Warehouse.name := "Main" |}.

Definition annex : Warehouse.t :=
  {| Warehouse.id := 2; Warehouse.company_id := 1;
     Warehouse.name := "Annex" |}.

Definition parts : Supplier.t :=
  {| Supplier.id := 7; Supplier.name := "Parts Ltd";
     Supplier.contact_email := Some "orders@parts.example" |}.

Definition hardware : ProductType.t :=
  {| ProductType.id := 1; ProductType.name := "hardware";
     ProductType.default_low_stock_threshold := Some 25 |}.

Definition widget : Product.t := product 1 "W-1" "Widget" (Some 1) (Some 7).
Definition gadget : Product.t := product 2 "G-1" "Gadget" None None.

(** A company with two warehouses.  The widget has 20 in stock at the
    main warehouse, under its type's threshold of 25, and sold 5, 5 and
    10 there in the last 30 days (and 7 the day before that).  The
    gadget has 3 at the annex, under the fallback threshold, and no
    sales.  At the annex the widget has 25, which is not low. *)
Definition db : DB :=
  {| companies := [acme];
     warehouses := [main; annex];
     suppliers := [parts];
     product_types := [hardware];
     products := [widget; gadget];
     inventory := [stock 1 2 2 3 None; stock 2 1 1 20 None;
                   stock 3 1 2 25 None];
     inventory_transactions := [];
     sales := [sale 1 1 1 5 (now - 3 * day);
               sale 2 1 1 5 (now - 3 * day);
               sale 3 1 1 10 (now - 30 * day);
               sale 4 1 1 7 (now - 31 * day)] |}.


Definition no_args : Args := {| days := None; include_no_sales := None |}.

Definition with_no_sales : Args :=
  {| days := None; include_no_sales := Some "true" |}.

(** The alert for the widget at the main warehouse: 20 in stock at
    20/30 a day. *)
Definition widget_alert : Alert :=
  {| product_id := 1; product_name := "Widget"; sku := "W-1";
     warehouse_id := 1; warehouse_name := "Main";
     current_stock := 20; threshold := 25;
     days_until_stockout := Some 30;
     supplier := Some {| id := 7; name := "Parts Ltd";
                         contact_email := Some "orders@parts.example" |} |}.

(** The alert for the gadget at the annex, which has no sales. *)
Definition gadget_alert : Alert :=
  {| product_id := 2; product_name := "Gadget"; sku := "G-1";
     warehouse_id := 2; warehouse_name := "Annex";
     current_stock := 3; threshold := 10;
     days_until_stockout := None;
     supplier := None |}.

(** A supplier whose primary key is 0. *)
Definition zero : Supplier.t :=
  {| Supplier.id := 0; Supplier.name := "Zero Supplies";
     Supplier.contact_email := None |}.

(** One warehouse, one product supplied by [zero], 3 in stock and no
    sales. *)
Definition db_zero_supplier : DB :=
  {| companies := [acme];
     warehouses := [main];
     suppliers := [zero];
     product_types := [];
     products := [product 1 "B-1" "Bolt" None (Some 0)];
     inventory := [stock 1 1 1 3 None];
     inventory_transactions := [];
     sales := [] |}.

Definition bolt_alert (supplier : option SupplierInfo) : Alert :=
  {| product_id := 1; product_name := "Bolt"; sku := "B-1";
     warehouse_id := 1; warehouse_name := "Main";
     current_stock := 3; threshold := 10;
     days_until_stockout := None;
     supplier := supplier |}.

(** A company without warehouses. *)
Definition db_no_warehouses : DB :=
  {| companies := [acme]; warehouses := []; suppliers := [];
     product_types := []; products := []; inventory := [];
     inventory_transactions := []; sales := [] |}.

End Examples.

Module ExamplesCreate.
Import Py CreateProduct.

(** A sample of the conversions: [int] and [float] accept plain decimal
    integers, and what is not a string, a number, a boolean or null
    prints as a fixed text. *)
Definition py : Json.Builtins :=
  {| Json.repr := fun _ => "<object>";
     Json.int_of_str :=
       fun s => option_map Z.of_int (NilZero.int_of_string (strip s));
     Json.float_of_str :=
       fun s =>
         match NilZero.int_of_string (strip s) with
         | Some z =>
             match float_of_int (Z.of_int z) with
             | Ok f => Some f
             | Raise _ => None
             end
         | None => None
         end |}.

(** The hundredths nearest to the magnitude of a finite float, the
    even one of two that are equally near: the rounding of a store
    that rounds the exact value of the float. *)
Definition round_hundredths (x : float) : N :=
  match x with
  | S754_finite _ m e =>
      if 0 <=? e then Z.to_N (100 * Zpos m * 2 ^ e)
      else
        let d := 2 ^ (- e) in
        let q := (100 * Zpos m) / d in
        let r := (100 * Zpos m) mod d in
        Z.to_N (if 2 * r <? d then q
                else if d <? 2 * r then q + 1
                else if Z.even q then q else q + 1)
  | _ => 0%N
  end.

(** A store that accepts every statement. *)
Definition store : Store :=
  {| utcnow := fun n => Examples.now + Z.of_nat n;
     product_pk := 3;
     inventory_pk := 4;
     transaction_pk := 1;
     bind_integer := fun _ => Raise (OperationalError "type mismatch");
     numeric_10_2 := round_hundredths;
     flush_raises := None;
     commit_raises := None |}.

(** A store in which another session took the SKU after the check. *)
Definition store_conflict : Store :=
  {| utcnow := fun n => Examples.now + Z.of_nat n;
     product_pk := 3;
     inventory_pk := 4;
     transaction_pk := 1;
     bind_integer := fun _ => Raise (OperationalError "type mismatch");
     numeric_10_2 := round_hundredths;
     flush_raises :=
       Some (IntegrityError "UNIQUE constraint failed: products.sku");
     commit_raises := None |}.

(** The members of a well-formed body, given the SKU, the price, the
    warehouse and the initial quantity. *)
Definition body (sku price warehouse_id initial_quantity : Json.t)
  : list (string * Json.t) :=
  [("name", Json.Str "Sprocket"); ("sku", sku); ("price", price);
   ("warehouse_id", warehouse_id); ("initial_quantity", initial_quantity)].

(** The float 3.5. *)
Definition three_and_a_half : float := S754_finite false 7881299347898368 (-51).

(** The floats 9.999 and 10.0. *)
Definition nine_999 : float := S754_finite false 5628936584259699 (-49).
Definition ten : float := S754_finite false 5629499534213120 (-49).

End ExamplesCreate.

(** ** Constraints of the schema ([models.py])

    The constraints [models.py] declares on the tables the handlers
    touch, as properties of a state of the store. *)

Module Schema.

(** No two rows agree on the key: [primary_key=True], [unique=True] or
    a [UniqueConstraint]. *)
Definition unique {A K : Type} (key : A -> K) (rows : list A) : Prop :=
  NoDup (map key rows).

(** [k] is the primary key of a row: the target of a [ForeignKey]. *)
Definition references {A : Type} (pk : A -> Z) (rows : list A) (k : Z)
  : Prop :=
  In k (map pk rows).

(** The primary keys of products, inventory rows and inventory
    transactions. *)
Definition primary_keys (db : DB) : Prop :=
  unique Product.id (products db)
  /\ unique Inventory.id (inventory db)
  /\ unique InventoryTransaction.id (inventory_transactions db).

(** [UniqueConstraint('product_id', 'warehouse_id',
    name='uq_inventory_product_warehouse')] *)
Definition uq_inventory_product_warehouse (db : DB) : Prop :=
  unique (fun i => (Inventory.product_id i, Inventory.warehouse_id i))
         (inventory db).

(** The [ForeignKey] columns [product_id] and [warehouse_id] of
    [Inventory] and [InventoryTransaction], and [supplier_id] of
    [Product]. *)
Definition foreign_keys (db : DB) : Prop :=
  Forall (fun i =>
            references Product.id (products db) (Inventory.product_id i)
            /\ references Warehouse.id (warehouses db)
                 (Inventory.warehouse_id i))
         (inventory db)
  /\ Forall (fun t =>
               references Product.id (products db)
                 (InventoryTransaction.product_id t)
               /\ references Warehouse.id (warehouses db)
                    (InventoryTransaction.warehouse_id t))
            (inventory_transactions db)
  /\ Forall (fun p =>
               forall n, Product.supplier_id p = Some n ->
                         references Supplier.id (suppliers db) n)
            (products db).

(** The primary keys the alert queries join on. *)
Definition join_keys (db : DB) : Prop :=
  unique Product.id (products db)
  /\ unique Warehouse.id (warehouses db)
  /\ unique ProductType.id (product_types db)
  /\ unique Supplier.id (suppliers db).

(** [CheckConstraint('quantity >= 0',
    name='check_quantity_non_negative')] on [Inventory]. *)
Definition check_quantity_non_negative (db : DB) : Prop :=
  Forall (fun i => 0 <= Inventory.quantity i) (inventory db).

(** [CheckConstraint('quantity > 0',
    name='check_sale_quantity_positive')] on [Sale]. *)
Definition check_sale_quantity_positive (db : DB) : Prop :=
  Forall (fun s => 0 < Sale.quantity s) (sales db).

End Schema.

(** ** The vocabulary of further properties of the alerts *)

Module SpecAlerts.
Import Py LowStockAlerts.

(** The product and the warehouse an alert is about. *)
Definition pair_of (a : Alert) : Z * Z := (product_id a, warehouse_id a).

(** The product and the warehouse of a joined row. *)
Definition item_pair (it : Item) : Z * Z :=
  let '(_, p, w, _, _) := it in (Product.id p, Warehouse.id w).

(** The rows the joins attach to one inventory row. *)
Definition joined_to (db : DB) (inv : Inventory.t) : list Item :=
  flat_map (fun p =>
    flat_map (fun w =>
      flat_map (fun pt =>
        map (fun s => (inv, p, w, pt, s))
          (Sql.outerjoin
             (fun s => Sql.fk_eq (Product.supplier_id p) (Supplier.id s))
             (suppliers db)))
        (Sql.outerjoin
           (fun t =>
              Sql.fk_eq (Product.product_type_id p) (ProductType.id t))
           (product_types db)))
      (Sql.join
         (fun w => Inventory.warehouse_id inv =? Warehouse.id w)
         (warehouses db)))
    (Sql.join
       (fun p => Inventory.product_id inv =? Product.id p)
       (products db)).

(** The store with another table of sales. *)
Definition with_sales (db : DB) (l : list Sale.t) : DB :=
  {| companies := companies db;
     warehouses := warehouses db;
     suppliers := suppliers db;
     product_types := product_types db;
     products := products db;
     inventory := inventory db;
     inventory_transactions := inventory_transactions db;
     sales := l |}.

(** The sales whose timestamp is in the window that starts at [since]. *)
Definition in_window (since : Z) (l : list Sale.t) : list Sale.t :=
  filter (fun s => since <=? Sale.sale_date s) l.

(** The quantities fit the 64-bit integers of the store: every
    inventory quantity, and the sum of all sales. *)
Definition fits_int64 (db : DB) : Prop :=
  Forall (fun i => Inventory.quantity i < 2 ^ 63) (inventory db)
  /\ Spec.total_quantity (sales db) < 2 ^ 63.

(** [l1] is [l2] with some elements left out, the others in place. *)
Inductive subsequence {A : Type} : list A -> list A -> Prop :=
| subsequence_nil : subsequence [] []
| subsequence_keep (x : A) (l1 l2 : list A) :
    subsequence l1 l2 -> subsequence (x :: l1) (x :: l2)
| subsequence_skip (x : A) (l1 l2 : list A) :
    subsequence l1 l2 -> subsequence l1 (x :: l2).

(** The second response is the first with alerts added: the same
    status and the same error, or an alert list that has the first list
    inside it, in the same order. *)
Definition extends (r1 r2 : Response) : Prop :=
  snd r1 = snd r2
  /\ match fst r1, fst r2 with
     | AlertsBody a1 n1 m1, AlertsBody a2 n2 m2 =>
         subsequence a1 a2 /\ n1 <= n2 /\ m1 = m2
     | ErrorBody e1 d1, ErrorBody e2 d2 => e1 = e2 /\ d1 = d2
     | _, _ => False
     end.

(** The query string carries [include_no_sales] with a text that is not
    empty.  What the text says is not looked at: [type=bool] applies
    [bool] to it, and [bool] of the text "false", "0" or "no" is true
    as it is of "true". *)
Definition flag_given (args : Args) : Prop :=
  exists text, include_no_sales args = Some text /\ text <> ""%string.

(** An alert without its projection. *)
Definition without_projection (a : Alert) : Alert :=
  {| product_id := product_id a;
     product_name := product_name a;
     sku := sku a;
     warehouse_id := warehouse_id a;
     warehouse_name := warehouse_name a;
     current_stock := current_stock a;
     threshold := threshold a;
     days_until_stockout := None;
     supplier := supplier a |}.

End SpecAlerts.

Module ExamplesAlerts.
Import Py LowStockAlerts.

(** A window of 60 days, in which the widget sold 27 at the main
    warehouse. *)
Definition sixty_days : Args :=
  {| days := Some 60; include_no_sales := None |}.

(** The widget's alert for that window: 20 in stock at 27/60 a day. *)
Definition widget_alert_60 : Alert :=
  {| product_id := 1; product_name := "Widget"; sku := "W-1";
     warehouse_id := 1; warehouse_name := "Main";
     current_stock := 20; threshold := 25;
     days_until_stockout := Some 44;
     supplier := Some {| id := 7; name := "Parts Ltd";
                         contact_email := Some "orders@parts.example" |} |}.

(** The alert for a sprocket created with no stock at the main
    warehouse, supplied by the sample supplier. *)
Definition sprocket_alert : Alert :=
  {| product_id := 3; product_name := "Sprocket"; sku := "S-1";
     warehouse_id := 1; warehouse_name := "Main";
     current_stock := 0; threshold := 10;
     days_until_stockout := None;
     supplier := Some {| id := 7; name := "Parts Ltd";
                         contact_email := Some "orders@parts.example" |} |}.

(** The request [?include_no_sales=false]. *)
Definition false_flag : Args :=
  {| days := None; include_no_sales := Some "false" |}.

(** A store whose [/] on two integers is the integer quotient. *)
Definition integer_division (total days : Z) : num :=
  Int (Z.quot total days).

(** The widget's alert with no projection. *)
Definition widget_alert_unprojected : Alert :=
  SpecAlerts.without_projection Examples.widget_alert.

End ExamplesAlerts.

(** ** The vocabulary of further properties of product creation *)

Module SpecRows.
Import Py CreateProduct.

(** The description the handler stores for a body: the stripped text of
    a [description] that is a non-empty string, nothing for a missing or
    falsy one. *)
Definition description_of (items : list (string * Json.t))
  : option string :=
  match Json.lookup "description" items with
  | Some (Json.Str s) => if (s =? "")%string then None else Some (strip s)
  | _ => None
  end.

(** The supplier the body names, if any: [None] for a missing or [null]
    member. *)
Definition supplier_of (py : Json.Builtins) (items : list (string * Json.t))
  : option (res Z) :=
  match Json.lookup "supplier_id" items with
  | None | Some Json.Null => None
  | Some v => Some (Json.to_int py v)
  end.

(** The body passes every check on the required fields. *)
Definition required_fields_valid (py : Json.Builtins) (db : DB)
  (items : list (string * Json.t)) : Prop :=
  SpecCreate.sku_is_new py db items
  /\ SpecCreate.price_is_valid py items
  /\ SpecCreate.quantity_is_valid py items
  /\ SpecCreate.warehouse_found py db items
  /\ exists nv, Json.lookup "name" items = Some nv
                /\ strip (Json.str py nv) <> "".

(** The description is a value that is truthy and has no [strip]: a
    number other than zero, [true], a list or an object that is not
    empty. *)
Definition description_has_no_strip (items : list (string * Json.t))
  : bool :=
  match Json.lookup "description" items with
  | Some (Json.Str _) | None => false
  | Some d => Json.truthy d
  end.

(** The shapes a response of the handler can have: the summary of the
    product with 201; an error that names an existing product with 409;
    any other error with 400, 404, 409 or 500. *)
Definition well_formed (r : Response) : Prop :=
  match r with
  | (CreatedBody _ _, status) => status = 201
  | (ErrorBody _ _ (Some _), status) => status = 409
  | (ErrorBody _ _ None, status) =>
      status = 400 \/ status = 404 \/ status = 409 \/ status = 500
  end.

(** The text has no white space at either end: [strip] leaves it as it
    is. *)
Definition trimmed (s : string) : Prop := strip s = s.

(** The text neither starts nor ends with a white-space character. *)
Definition no_space_at_ends (s : string) : Prop :=
  match s with
  | EmptyString => True
  | String c _ => isspace c = false
  end
  /\ forall r c, s = (r ++ String c "")%string -> isspace c = false.

(** The product type the body names, as [data.get] returns it. *)
Definition product_type_of (items : list (string * Json.t))
  : option Json.t :=
  match Json.lookup "product_type_id" items with
  | Some Json.Null => None
  | r => r
  end.

(** The store binds the product type of the body and raises nothing
    while the rows are written. *)
Definition store_accepts (store : Store) (items : list (string * Json.t))
  : Prop :=
  flush_raises store = None /\ commit_raises store = None
  /\ exists t,
       bound_product_type_id store (product_type_of items) = Ok t.

(** The body names no supplier, or one of the store. *)
Definition supplier_is_known (py : Json.Builtins) (db : DB)
  (items : list (string * Json.t)) : Prop :=
  forall r, supplier_of py items = Some r ->
    exists n, r = Ok n /\ Schema.references Supplier.id (suppliers db) n.

(** The text contains the word, in whatever letter case. *)
Definition mentions (word msg : string) : Prop :=
  exists a w b, msg = (a ++ w ++ b)%string /\ lower w = word.

(** The primary keys the store assigns to the three rows are not in
    use. *)
Definition assigns_fresh_keys (store : Store) (db : DB) : Prop :=
  ~ Schema.references Product.id (products db) (product_pk store)
  /\ ~ Schema.references Inventory.id (inventory db) (inventory_pk store)
  /\ ~ Schema.references InventoryTransaction.id
         (inventory_transactions db) (transaction_pk store).

End SpecRows.

Module ExamplesRows.
Import Py CreateProduct.

(** A body with the optional members: a description with white space
    around it and the supplier of the sample store. *)
Definition full_body : list (string * Json.t) :=
  ExamplesCreate.body (Json.Str " S-1 ") (Json.Int 5) (Json.Int 1)
    (Json.Int 0)
  ++ [("description", Json.Str " A toothed wheel ");
      ("supplier_id", Json.Int 7)].

(** The same body with a price of 9.999, which has more digits than
    the column keeps. *)
Definition priced_body : list (string * Json.t) :=
  ExamplesCreate.body (Json.Str " S-1 ") (Json.Float ExamplesCreate.nine_999)
    (Json.Int 1) (Json.Int 0)
  ++ [("description", Json.Str " A toothed wheel ");
      ("supplier_id", Json.Int 7)].

(** A body that names a supplier the sample store does not have. *)
Definition unknown_supplier_body : list (string * Json.t) :=
  ExamplesCreate.body (Json.Str "S-1") (Json.Int 5) (Json.Int 1)
    (Json.Int 0)
  ++ [("supplier_id", Json.Int 99)].

End ExamplesRows.

(** * Properties *)

Section ListFacts.
Context {A B : Type}.

Lemma in_flat_map_iff (f : A -> list B) (l : list A) (b : B) :
  In b (flat_map f l) <-> exists a, In a l /\ In b (f a).
Proof. apply in_flat_map. Qed.

Lemma filter_filter (f g : A -> bool) (l : list A) :
  filter g (filter f l) = filter (fun x => f x && g x) l.
Proof.
  induction l as [|x l IH]; simpl; [reflexivity|].
  destruct (f x); simpl; [destruct (g x)|]; now rewrite IH.
Qed.

Lemma filter_nil_iff (f : A -> bool) (l : list A) :
  filter f l = [] <-> forall x, In x l -> f x = false.
Proof.
  induction l as [|x l IH]; simpl.
  - split; [intros _ y []|reflexivity].
  - destruct (f x) eqn:E; split.
    + discriminate.
    + intros H. specialize (H x (or_introl eq_refl)). congruence.
    + intros H y [<-|Hy]; [assumption|]. now apply IH.
    + intros H. apply IH. intros y Hy. apply H. now right.
Qed.

End ListFacts.

(** ** The threshold and the low-stock filter *)

Section Threshold.
Import Py LowStockAlerts.

Lemma threshold_of_effective inv pt :
  threshold_of inv pt
  = Spec.effective_threshold (Inventory.low_stock_threshold inv) pt.
Proof.
  unfold threshold_of, Spec.effective_threshold.
  destruct (Inventory.low_stock_threshold inv), pt; reflexivity.
Qed.

(** The three-valued condition of the WHERE clause is TRUE exactly when
    the quantity is below the effective threshold. *)
Lemma low_stock_condition_holds inv pt :
  Sql.holds (low_stock_condition inv pt)
  = (Inventory.quantity inv
     <? Spec.effective_threshold (Inventory.low_stock_threshold inv) pt).
Proof.
  unfold low_stock_condition, Spec.effective_threshold, type_default.
  destruct (Inventory.low_stock_threshold inv) as [t|]; simpl.
  - destruct pt as [pt|]; [destruct (ProductType.default_low_stock_threshold pt)|];
      simpl; now destruct (Inventory.quantity inv <? t).
  - destruct pt as [pt|]; simpl.
    + destruct (ProductType.default_low_stock_threshold pt) as [d|]; simpl.
      * now destruct (Inventory.quantity inv <? d).
      * now destruct (Inventory.quantity inv <? 10).
    + now destruct (Inventory.quantity inv <? 10).
Qed.

Lemma coalesce3_effective inv pt :
  Sql.coalesce3 (Inventory.low_stock_threshold inv) (type_default pt) 10
  = Spec.effective_threshold (Inventory.low_stock_threshold inv) pt.
Proof.
  unfold Sql.coalesce3, Spec.effective_threshold, type_default.
  destruct (Inventory.low_stock_threshold inv), pt; reflexivity.
Qed.

Lemma in_sql_in x ids : Sql.in_ x ids = true <-> In x ids.
Proof.
  unfold Sql.in_. rewrite existsb_exists. split.
  - intros (y & Hy & E). apply Z.eqb_eq in E. now subst.
  - intros H. exists x. split; [assumption|apply Z.eqb_refl].
Qed.

End Threshold.

Section Alerts.
Import Py LowStockAlerts.

(** What the loop body returns when it returns an alert. *)
Lemma alert_of_inv days incl subq inv p w pt s a :
  alert_of days incl subq (inv, p, w, pt, s) = Ok (Some a) ->
  exists avg d,
    average_daily_sales days (recent_sales_of subq p w) = Ok avg
    /\ stockout (Inventory.quantity inv) avg = Ok d
    /\ (recent_sales_of subq p w = None -> incl = true)
    /\ a = {| product_id := Product.id p;
              product_name := Product.name p;
              sku := Product.sku p;
              warehouse_id := Warehouse.id w;
              warehouse_name := Warehouse.name w;
              current_stock := Inventory.quantity inv;
              threshold := threshold_of inv pt;
              days_until_stockout := d;
              supplier := supplier_info s |}.
Proof.
  intros H. unfold alert_of in H.
  destruct (Sql.is_none (recent_sales_of subq p w) && negb incl) eqn:Skip;
    [discriminate|].
  destruct (average_daily_sales days (recent_sales_of subq p w))
    as [avg|e] eqn:Ea; simpl in H; [|discriminate].
  destruct (stockout (Inventory.quantity inv) avg) as [d|e] eqn:Ed;
    simpl in H; [|discriminate].
  injection H as <-. exists avg, d.
  split; [reflexivity|]. split; [assumption|]. split; [|reflexivity].
  intros E. rewrite E in Skip. simpl in Skip. now destruct incl.
Qed.

(** C2. For every row the alert query joins at one of the company's
    warehouses, the row is among the low-stock rows exactly when its
    quantity is strictly below the effective threshold: the row's own
    [low_stock_threshold] when present, else the default of the
    product's type when the product has a type and the default is set,
    else 10.  The single query of the variant keeps the same rows, and
    the [threshold] field of an alert built from the row, by either
    handler, is that effective threshold. *)
Theorem C2_low_stock_iff_below_effective_threshold :
  forall (db : DB) (warehouse_ids : list Z) inv p w pt s,
    In (inv, p, w, pt, s) (joined db) ->
    In (Inventory.warehouse_id inv) warehouse_ids ->
    let t :=
      Spec.effective_threshold (Inventory.low_stock_threshold inv) pt in
    (In (inv, p, w, pt, s) (low_stock_items db warehouse_ids)
     <-> Inventory.quantity inv < t)
    /\ (forall avg,
          is_low_stock_row warehouse_ids ((inv, p, w, pt, s), avg) = true
          <-> Inventory.quantity inv < t)
    /\ (forall days incl subq a,
          alert_of days incl subq (inv, p, w, pt, s) = Ok (Some a) ->
          threshold a = t /\ current_stock a = Inventory.quantity inv)
    /\ (forall avg a,
          alert_of_row ((inv, p, w, pt, s), avg) = Ok a ->
          threshold a = t /\ current_stock a = Inventory.quantity inv).
Proof.
  intros db ids inv p w pt s Hj Hw t. subst t.
  apply in_sql_in in Hw. split; [|split; [|split]].
  - unfold low_stock_items. rewrite filter_In. unfold is_low_stock.
    rewrite Hw, low_stock_condition_holds. simpl. rewrite Z.ltb_lt. tauto.
  - intros avg. unfold is_low_stock_row.
    rewrite Hw, coalesce3_effective. simpl. apply Z.ltb_lt.
  - intros days incl subq a H.
    apply alert_of_inv in H. destruct H as (? & ? & _ & _ & _ & ->).
    simpl. split; [apply threshold_of_effective|reflexivity].
  - intros avg a H. unfold alert_of_row in H.
    destruct (stockout_row (Inventory.quantity inv) avg); simpl in H;
      [|discriminate].
    injection H as <-. simpl. split; [|reflexivity].
    rewrite <- coalesce3_effective. unfold Sql.coalesce3.
    now destruct (Inventory.low_stock_threshold inv), (type_default pt).
Qed.

(** The widget at the main warehouse: 20 in stock, no threshold of its
    own, a type default of 25. *)
Lemma C2_witness :
  In (Examples.stock 2 1 1 20 None, Examples.widget, Examples.main,
      Some Examples.hardware, Some Examples.parts)
     (low_stock_items Examples.db [1; 2])
  <-> 20 < 25.
Proof.
  apply (C2_low_stock_iff_below_effective_threshold Examples.db [1; 2]
           (Examples.stock 2 1 1 20 None) Examples.widget Examples.main
           (Some Examples.hardware) (Some Examples.parts)).
  - vm_compute. right. left. reflexivity.
  - simpl. left. reflexivity.
Defined.

(** ** The sales subquery *)

Lemma sum_quantity_total (g : list Sale.t) :
  sum_quantity g = Spec.total_quantity g.
Proof.
  unfold sum_quantity, Spec.total_quantity.
  induction g as [|x g IH]; simpl; [reflexivity|now rewrite IH].
Qed.

Lemma in_group_key k x : in_group k x = true <-> sale_key x = k.
Proof.
  unfold in_group, sale_key. destruct k as [a b]. simpl.
  rewrite andb_true_iff, !Z.eqb_eq. split.
  - now intros [-> ->].
  - intros H. now injection H.
Qed.

(** The rows of a group are not empty exactly when the group exists. *)
Lemma group_exists (rows : list Sale.t) (k : Z * Z) :
  In k (group_keys rows) <-> filter (in_group k) rows <> [].
Proof.
  unfold group_keys. rewrite nodup_In, in_map_iff. split.
  - intros (x & Hk & Hx) E.
    rewrite filter_nil_iff in E. specialize (E x Hx).
    apply in_group_key in Hk. congruence.
  - intros H. destruct (filter (in_group k) rows) as [|x r] eqn:E;
      [congruence|].
    assert (Hx : In x (filter (in_group k) rows)) by (rewrite E; now left).
    apply filter_In in Hx. destruct Hx as [Hx Hk].
    exists x. split; [now apply in_group_key|assumption].
Qed.

(** Looking a key up in the rows built from a list of keys. *)
Lemma find_group {R : Type} (mk : Z * Z -> R) (test : R -> bool)
  (k : Z * Z) (keys : list (Z * Z)) :
  (forall k', test (mk k') = true <-> k' = k) ->
  find test (map mk keys)
  = if in_dec key_eq_dec k keys then Some (mk k) else None.
Proof.
  intros Ht. induction keys as [|k' keys IH]; simpl; [reflexivity|].
  destruct (test (mk k')) eqn:E.
  - apply Ht in E. subst k'.
    destruct (key_eq_dec k k); [reflexivity|congruence].
  - destruct (key_eq_dec k' k) as [->|N].
    + assert (test (mk k) = true) by now apply Ht. congruence.
    + rewrite IH. now destruct (in_dec key_eq_dec k keys).
Qed.

(** Filtering the rows built from a duplicate-free list of keys. *)
Lemma filter_group {R : Type} (mk : Z * Z -> R) (test : R -> bool)
  (k : Z * Z) (keys : list (Z * Z)) :
  (forall k', test (mk k') = true <-> k' = k) ->
  NoDup keys ->
  filter test (map mk keys)
  = if in_dec key_eq_dec k keys then [mk k] else [].
Proof.
  intros Ht. induction keys as [|k' keys IH]; simpl; [reflexivity|].
  intros Hn. inversion Hn as [|? ? Hnot Hn']. subst.
  specialize (IH Hn').
  destruct (test (mk k')) eqn:E.
  - apply Ht in E. subst k'.
    destruct (key_eq_dec k k); [|congruence].
    rewrite IH. now destruct (in_dec key_eq_dec k keys).
  - destruct (key_eq_dec k' k) as [->|N].
    + assert (test (mk k) = true) by now apply Ht. congruence.
    + rewrite IH. now destruct (in_dec key_eq_dec k keys).
Qed.

Lemma pair_test (k' k : Z * Z) :
  (fst k' =? fst k) && (snd k' =? snd k) = true <-> k' = k.
Proof.
  destruct k', k. simpl. rewrite andb_true_iff, !Z.eqb_eq. split.
  - now intros [-> ->].
  - intros H. now injection H.
Qed.

(** The rows of the pair's group in the subquery of the first handler
    are the pair's sales in the window. *)
Lemma group_rows_v1 (db : DB) (since : Z) (pids : list Z) (pid wid : Z) :
  In pid pids ->
  filter (in_group (pid, wid))
    (filter (fun s => (since <=? Sale.sale_date s)
                      && Sql.in_ (Sale.product_id s) pids) (sales db))
  = Spec.window_sales db since pid wid.
Proof.
  intros Hin. rewrite filter_filter. unfold Spec.window_sales.
  apply filter_ext. intros x. unfold in_group. simpl.
  destruct (since <=? Sale.sale_date x); simpl; [|reflexivity].
  destruct (Sale.product_id x =? pid) eqn:E; simpl.
  - apply Z.eqb_eq in E. rewrite E.
    apply in_sql_in in Hin. now rewrite Hin.
  - now rewrite andb_false_r.
Qed.

Lemma group_rows_v2 (db : DB) (since pid wid : Z) :
  filter (in_group (pid, wid))
    (filter (fun s => since <=? Sale.sale_date s) (sales db))
  = Spec.window_sales db since pid wid.
Proof.
  rewrite filter_filter. unfold Spec.window_sales.
  apply filter_ext. intros x. unfold in_group. simpl.
  now rewrite andb_assoc.
Qed.

(** What [.first()] finds in the subquery for a product among the
    low-stock products. *)
Lemma recent_sales_of_subquery (db : DB) (since : Z) (pids : list Z) p w :
  In (Product.id p) pids ->
  recent_sales_of (sales_subquery db since pids) p w
  = match Spec.window_sales db since (Product.id p) (Warehouse.id w) with
    | [] => None
    | g => Some {| sr_product_id := Product.id p;
                   sr_warehouse_id := Warehouse.id w;
                   total_sold := Spec.total_quantity g;
                   days_with_sales := count_distinct (map sale_day g) |}
    end.
Proof.
  intros Hin. unfold recent_sales_of, sales_subquery.
  rewrite (find_group _ _ (Product.id p, Warehouse.id w)).
  - destruct (in_dec _ _ _) as [I|N].
    + apply group_exists in I. simpl.
      rewrite group_rows_v1 in I |- * by assumption.
      rewrite sum_quantity_total.
      now destruct (Spec.window_sales db since (Product.id p) (Warehouse.id w)).
    + rewrite group_exists, group_rows_v1 in N by assumption.
      destruct (Spec.window_sales db since (Product.id p) (Warehouse.id w));
        [reflexivity|].
      exfalso. apply N. discriminate.
  - intros k'. simpl. apply (pair_test k' (Product.id p, Warehouse.id w)).
Qed.

Lemma count_distinct_pos (l : list Z) : l <> [] -> 0 < count_distinct l.
Proof.
  intros H. unfold count_distinct. destruct l as [|x l]; [congruence|].
  assert (Hx : In x (nodup Z.eq_dec (x :: l))) by (apply nodup_In; now left).
  destruct (nodup Z.eq_dec (x :: l)); [destruct Hx|].
  simpl List.length. lia.
Qed.

(** The join conditions hold on every joined row. *)
Lemma joined_inv (db : DB) inv p w pt s :
  In (inv, p, w, pt, s) (joined db) ->
  In inv (inventory db)
  /\ In p (products db) /\ Inventory.product_id inv = Product.id p
  /\ In w (warehouses db) /\ Inventory.warehouse_id inv = Warehouse.id w.
Proof.
  unfold joined. rewrite in_flat_map.
  intros (inv' & Hi & H). rewrite in_flat_map in H.
  destruct H as (p' & Hp & H). rewrite in_flat_map in H.
  destruct H as (w' & Hw & H). rewrite in_flat_map in H.
  destruct H as (pt' & Hpt & H). rewrite in_map_iff in H.
  destruct H as (s' & E & Hs). injection E as -> -> -> -> ->.
  unfold Sql.join in Hp, Hw. rewrite filter_In in Hp, Hw.
  destruct Hp as [Hp Ep], Hw as [Hw Ew].
  apply Z.eqb_eq in Ep, Ew. tauto.
Qed.

Lemma low_stock_items_joined (db : DB) ids it :
  In it (low_stock_items db ids) -> In it (joined db).
Proof. unfold low_stock_items. rewrite filter_In. tauto. Qed.

Lemma in_product_ids_of items inv p w pt s :
  In (inv, p, w, pt, s) items -> In (Product.id p) (product_ids_of items).
Proof.
  intros H. unfold product_ids_of. apply in_map_iff.
  now exists (inv, p, w, pt, s).
Qed.

(** The column [avg_daily_sales] the outer join attaches to a row. *)
Lemma with_avg_subq (sql_div : Z -> Z -> num) (db : DB) (since days : Z)
  inv p w pt s :
  with_avg (avg_daily_sales_subq sql_div db since days) (inv, p, w, pt, s)
  = [((inv, p, w, pt, s),
      match Spec.window_sales db since (Inventory.product_id inv)
              (Inventory.warehouse_id inv) with
      | [] => None
      | g => Some (sql_div (Spec.total_quantity g) days)
      end)].
Proof.
  unfold with_avg, avg_daily_sales_subq, Sql.outerjoin.
  rewrite (filter_group _ _
             (Inventory.product_id inv, Inventory.warehouse_id inv)).
  - destruct (in_dec _ _ _) as [I|N].
    + apply group_exists in I. simpl.
      rewrite group_rows_v2 in I |- *. rewrite sum_quantity_total.
      now destruct (Spec.window_sales db since (Inventory.product_id inv)
                      (Inventory.warehouse_id inv)).
    + rewrite group_exists, group_rows_v2 in N. simpl.
      destruct (Spec.window_sales db since (Inventory.product_id inv)
                  (Inventory.warehouse_id inv)); [reflexivity|].
      exfalso. apply N. discriminate.
  - intros k'. simpl.
    apply (pair_test k' (Inventory.product_id inv, Inventory.warehouse_id inv)).
  - apply NoDup_nodup.
Qed.

Lemma sales_threshold_date_inv (now days since : Z) :
  sales_threshold_date now days = Ok since ->
  since = now - days * MICROSECONDS_PER_DAY /\ 0 <= since.
Proof.
  unfold sales_threshold_date.
  destruct ((days <? -999999999) || (999999999 <? days)); [discriminate|].
  destruct (now - days * MICROSECONDS_PER_DAY <? 0) eqn:E; [discriminate|].
  destruct (DATETIME_MAX <? now - days * MICROSECONDS_PER_DAY);
    [discriminate|].
  simpl. intros H. injection H as <-. apply Z.ltb_ge in E. now split.
Qed.

(** The average over the window. For a low-stock row whose (product,
    warehouse) pair has at least one sale in the trailing window of
    [days] days, the average daily sales the first handler computes is
    the sum of the quantities of those sales divided by [days]
    (Python's [/] on two integers); the number of distinct days with
    sales does not enter.  For [days = 30] and quantities 5, 5 and 10
    it is the binary64 number nearest to 20/30.  The variant hands the
    same sum and the same [days] to the store, and reads what the
    store's division makes of them. *)
Theorem average_is_window_total_over_days :
  forall (db : DB) (warehouse_ids : list Z) (now days since : Z)
         inv p w pt s,
    sales_threshold_date now days = Ok since ->
    In (inv, p, w, pt, s) (low_stock_items db warehouse_ids) ->
    Spec.window_sales db since (Product.id p) (Warehouse.id w) <> [] ->
    let in_window :=
      Spec.window_sales db since (Product.id p) (Warehouse.id w) in
    let subq :=
      sales_subquery db since
        (product_ids_of (low_stock_items db warehouse_ids)) in
    since = now - days * MICROSECONDS_PER_DAY
    /\ average_daily_sales days (recent_sales_of subq p w)
       = (a <- int_truediv (Spec.total_quantity in_window) days ;;
          Ok (Some a))
    /\ (forall sql_div,
          with_avg (avg_daily_sales_subq sql_div db since days)
                   (inv, p, w, pt, s)
          = [((inv, p, w, pt, s),
              Some (sql_div (Spec.total_quantity in_window) days))])
    /\ (days = 30 -> map Sale.quantity in_window = [5; 5; 10] ->
        exists m,
          average_daily_sales days (recent_sales_of subq p w)
          = Ok (Some (S754_finite false m (-53)))
          /\ 2 * Z.abs (30 * Zpos m - 20 * 2 ^ 53) <= 30).
Proof.
  intros db ids now days since inv p w pt s Hs Hin Hne. cbv zeta.
  apply sales_threshold_date_inv in Hs. destruct Hs as [Hsince _].
  remember (Spec.window_sales db since (Product.id p) (Warehouse.id w))
    as in_window eqn:Ew.
  assert (Havg :
    average_daily_sales days
      (recent_sales_of
         (sales_subquery db since (product_ids_of (low_stock_items db ids)))
         p w)
    = (a <- int_truediv (Spec.total_quantity in_window) days ;;
       Ok (Some a))).
  { rewrite recent_sales_of_subquery
      by (eapply in_product_ids_of; eassumption).
    rewrite <- Ew. destruct in_window as [|x g]; [congruence|].
    assert (P : 0 < count_distinct (map sale_day (x :: g)))
      by (apply count_distinct_pos; discriminate).
    apply Z.ltb_lt in P. remember (x :: g) as g' eqn:Eg.
    unfold average_daily_sales. cbn [total_sold days_with_sales].
    now rewrite P. }
  split; [assumption|]. split; [assumption|]. split.
  - intros sql_div. rewrite with_avg_subq.
    apply low_stock_items_joined, joined_inv in Hin.
    destruct Hin as (_ & _ & -> & _ & ->). rewrite <- Ew.
    destruct in_window; [congruence|reflexivity].
  - intros -> Eq. rewrite Havg. unfold Spec.total_quantity. rewrite Eq.
    exists 6004799503160661%positive. split; [reflexivity|].
    vm_compute. discriminate.
Qed.

(** The widget at the main warehouse sold 5, 5 and 10 in the last 30
    days. *)
Lemma average_is_window_total_over_days_witness :
  exists m,
    average_daily_sales 30
      (recent_sales_of
         (sales_subquery Examples.db (Examples.now - 30 * Examples.day)
            (product_ids_of (low_stock_items Examples.db [1; 2])))
         Examples.widget Examples.main)
    = Ok (Some (S754_finite false m (-53)))
    /\ 2 * Z.abs (30 * Zpos m - 20 * 2 ^ 53) <= 30.
Proof.
  refine (proj2 (proj2 (proj2
    (average_is_window_total_over_days Examples.db [1; 2] Examples.now 30
       (Examples.now - 30 * Examples.day)
       (Examples.stock 2 1 1 20 None) Examples.widget Examples.main
       (Some Examples.hardware) (Some Examples.parts) _ _ _))) eq_refl _).
  - vm_compute. reflexivity.
  - vm_compute. right. left. reflexivity.
  - vm_compute. discriminate.
  - vm_compute. reflexivity.
Defined.

(** C1, where the variant misses it. The widget sold 5, 5 and 10 at the
    main warehouse in the last 30 days.  The first handler divides in
    Python and gets the binary64 number nearest to 20/30, which projects
    30 days for the 20 in stock.  The variant leaves the division of
    the sum by [days], two integers, to the store: a store whose [/] on
    integers is the integer quotient hands back 0, not 20/30, and the
    variant reports the widget with no projection. *)
Theorem C1_store_division_truncates :
  map Sale.quantity
    (Spec.window_sales Examples.db (Examples.now - 30 * Examples.day) 1 1)
  = [5; 5; 10]
  /\ average_daily_sales 30
       (recent_sales_of
          (sales_subquery Examples.db (Examples.now - 30 * Examples.day)
             (product_ids_of (low_stock_items Examples.db [1; 2])))
          Examples.widget Examples.main)
     = Ok (Some (S754_finite false 6004799503160661 (-53)))
  /\ 2 * Z.abs (30 * 6004799503160661 - 20 * 2 ^ 53) <= 30
  /\ Spec.avg_column ExamplesAlerts.integer_division Examples.db
       (Examples.now - 30 * Examples.day) 30
       (Examples.stock 2 1 1 20 None, Examples.widget, Examples.main,
        Some Examples.hardware, Some Examples.parts)
     = Some (Int 0)
  /\ get_low_stock_alerts Examples.db Examples.now Examples.no_args 1
     = (AlertsBody [Examples.widget_alert] 1 None, 200)
  /\ get_low_stock_alerts_optimized ExamplesAlerts.integer_division
       Examples.db Examples.now Examples.no_args 1
     = (AlertsBody [ExamplesAlerts.widget_alert_unprojected] 1 None, 200).
Proof.
  split; [reflexivity|]. split; [reflexivity|].
  split; [vm_compute; discriminate|].
  split; [reflexivity|]. split; vm_compute; reflexivity.
Qed.

(** ** Days until stockout *)

Lemma binary_round_aux_signed s m e l :
  Spec.signed s (binary_round_aux prec emax s m e l).
Proof.
  unfold binary_round_aux.
  destruct (shr_fexp prec emax m e l) as [mrs e'].
  destruct (shr_fexp prec emax _ e' loc_Exact) as [mrs' e''].
  destruct (shr_m mrs'); [reflexivity| |exact I].
  destruct (e'' <=? emax - prec); reflexivity.
Qed.

Lemma float_of_int_signed (q : Z) x :
  0 <= q -> float_of_int q = Ok x -> Spec.signed false x.
Proof.
  unfold float_of_int, binary_normalize. intros Hq.
  destruct q as [|m|m]; [| |lia].
  - intros H. now injection H as <-.
  - unfold binary_round.
    destruct (shl_align m 0 _) as [mz ez].
    pose proof (binary_round_aux_signed false (Zpos mz) ez loc_Exact) as S.
    destruct (binary_round_aux prec emax false (Zpos mz) ez loc_Exact);
      intros H; try discriminate; now injection H as <-.
Qed.

Lemma SFdiv_signed x y :
  Spec.signed false x -> Spec.signed false y -> Spec.signed false (SFdiv prec emax x y).
Proof.
  destruct x as [sx|sx| |sx mx ex], y as [sy|sy| |sy my ey]; simpl;
    try tauto; try (intros -> ->; reflexivity).
  intros -> ->.
  destruct (SFdiv_core_binary prec emax (Zpos mx) ex (Zpos my) ey)
    as [[mz ez] lz].
  apply binary_round_aux_signed.
Qed.

Lemma float_gt0_signed a : float_gt0 a = true -> Spec.signed false a.
Proof.
  unfold float_gt0, SFltb. destruct a as [s|[|]| |[|] m e]; simpl;
    try discriminate; reflexivity.
Qed.



Lemma exact_of_int_signed q : 0 <= q -> Spec.signed false (exact_of_int q).
Proof. destruct q; simpl; try reflexivity. lia. Qed.

Lemma int_div_num_signed q a x :
  0 <= q -> num_gt0 a = true -> int_div_num q a = Ok x -> Spec.signed false x.
Proof.
  intros Hq Ha. destruct a as [k|f]; simpl in *.
  - unfold int_truediv. destruct (k =? 0); [discriminate|].
    apply Z.ltb_lt in Ha.
    pose proof (SFdiv_signed (exact_of_int q) (exact_of_int k)
                  (exact_of_int_signed q Hq)
                  (exact_of_int_signed k (Z.lt_le_incl _ _ Ha))) as S.
    destruct (SFdiv prec emax (exact_of_int q) (exact_of_int k));
      intros H; try discriminate; now injection H as <-.
  - unfold int_div_float.
    destruct (float_of_int q) as [y|] eqn:Ey; simpl; [|discriminate].
    unfold float_truediv. destruct (float_is_zero f); [discriminate|].
    intros H. injection H as <-.
    apply SFdiv_signed; [now apply (float_of_int_signed q)|].
    now apply float_gt0_signed.
Qed.



Lemma shr_1_nonneg mrs : 0 <= shr_m mrs -> 0 <= shr_m (shr_1 mrs).
Proof.
  destruct mrs as [m r s]. simpl. intros H.
  destruct m as [|[p|p|]|p]; simpl; lia.
Qed.

Lemma iter_shr_1_nonneg p mrs :
  0 <= shr_m mrs -> 0 <= shr_m (iter_pos shr_1 p mrs).
Proof.
  revert mrs. induction p as [p IH|p IH|]; simpl; intros mrs H.
  - apply IH, IH. now apply shr_1_nonneg.
  - now apply IH, IH.
  - now apply shr_1_nonneg.
Qed.

Lemma shr_fexp_nonneg m e l :
  0 <= m -> 0 <= shr_m (fst (shr_fexp prec emax m e l)).
Proof.
  intros H. unfold shr_fexp, shr.
  assert (H0 : 0 <= shr_m (shr_record_of_loc m l))
    by (destruct l as [|[| |]]; exact H).
  destruct (fexp prec emax (Zdigits2 m + e) - e); simpl;
    [assumption|now apply iter_shr_1_nonneg|assumption].
Qed.

Lemma round_nearest_even_nonneg m l :
  0 <= m -> 0 <= round_nearest_even m l.
Proof.
  intros H. destruct l as [|[| |]]; simpl; try lia.
  destruct (Z.even m); lia.
Qed.

Lemma binary_round_aux_not_nan s m e l :
  0 <= m -> binary_round_aux prec emax s m e l <> S754_nan.
Proof.
  intros H. unfold binary_round_aux.
  pose proof (shr_fexp_nonneg m e l H) as H1.
  destruct (shr_fexp prec emax m e l) as [mrs e']. simpl in H1.
  pose proof (shr_fexp_nonneg _ e' loc_Exact
                (round_nearest_even_nonneg _ (loc_of_shr_record mrs) H1)) as H2.
  destruct (shr_fexp prec emax _ e' loc_Exact) as [mrs' e'']. simpl in H2.
  destruct (shr_m mrs'); [discriminate| |lia].
  destruct (e'' <=? emax - prec); discriminate.
Qed.

Lemma SFdiv_core_nonneg m1 e1 m2 e2 :
  0 <= fst (fst (SFdiv_core_binary prec emax (Zpos m1) e1 (Zpos m2) e2)).
Proof.
  unfold SFdiv_core_binary.
  set (s := _ - _ - Z.min _ _).
  set (m' := match s with Zpos _ => Z.shiftl (Zpos m1) s | 0 => Zpos m1 | Zneg _ => 0 end).
  assert (Hm : 0 <= m').
  { unfold m'. destruct s; [lia| |lia]. apply Z.shiftl_nonneg. lia. }
  pose proof (Z.div_pos m' (Zpos m2) Hm eq_refl) as Hq.
  unfold Z.div in Hq.
  destruct (Z.div_eucl m' (Zpos m2)) as [q r]. exact Hq.
Qed.

(** Dividing a finite number by a positive one gives a number. *)
Lemma SFdiv_not_nan x y :
  x <> S754_nan -> (forall s, x <> S754_infinity s) ->
  float_gt0 y = true ->
  SFdiv prec emax x y <> S754_nan.
Proof.
  intros Nx Ix Hy.
  destruct y as [sy|[|]| |[|] my ey]; try discriminate;
    destruct x as [sx|sx| |sx mx ex]; simpl in *; try discriminate;
    try congruence; try (exfalso; now apply (Ix sx)).
  pose proof (SFdiv_core_nonneg mx ex my ey) as H.
  destruct (SFdiv_core_binary prec emax (Zpos mx) ex (Zpos my) ey)
    as [[mz ez] lz]. simpl in H.
  now apply binary_round_aux_not_nan.
Qed.

Lemma float_of_int_number q x :
  float_of_int q = Ok x ->
  x <> S754_nan /\ forall s, x <> S754_infinity s.
Proof.
  unfold float_of_int, binary_normalize.
  destruct q as [|m|m].
  - intros H. injection H as <-. split; [|intros s]; discriminate.
  - unfold binary_round. destruct (shl_align m 0 _) as [mz ez].
    pose proof (binary_round_aux_not_nan false (Zpos mz) ez loc_Exact
                  (Pos2Z.is_nonneg mz)) as N.
    destruct (binary_round_aux prec emax false (Zpos mz) ez loc_Exact);
      intros H; try discriminate; injection H as <-;
      (split; [|intros s']); try discriminate; congruence.
  - unfold binary_round. destruct (shl_align m 0 _) as [mz ez].
    pose proof (binary_round_aux_not_nan true (Zpos mz) ez loc_Exact
                  (Pos2Z.is_nonneg mz)) as N.
    destruct (binary_round_aux prec emax true (Zpos mz) ez loc_Exact);
      intros H; try discriminate; injection H as <-;
      (split; [|intros s']); try discriminate; congruence.
Qed.

Lemma float_of_int_raises q e :
  float_of_int q = Raise e -> e = OverflowError.
Proof.
  unfold float_of_int.
  destruct (binary_normalize prec emax q 0 false); try discriminate.
  intros H. now injection H.
Qed.




(** ** The sort *)

Lemma key_ltb_false a b :
  key_ltb (sort_key a) (sort_key b) = false <-> Spec.key_le b a.
Proof.
  unfold key_ltb, sort_key, Spec.key_le.
  destruct (days_until_stockout a) as [x|], (days_until_stockout b) as [y|];
    simpl; try tauto; try (split; [discriminate|contradiction]).
  rewrite Z.ltb_ge. tauto.
Qed.

Lemma key_ltb_true a b :
  key_ltb (sort_key a) (sort_key b) = true ->
  Spec.key_le a b /\ Spec.same_key a b = false.
Proof.
  unfold key_ltb, sort_key, Spec.key_le, Spec.same_key.
  destruct (days_until_stockout a) as [x|], (days_until_stockout b) as [y|];
    simpl; try discriminate; try tauto.
  intros H. apply Z.ltb_lt in H. split; [lia|]. apply Z.eqb_neq. lia.
Qed.

Lemma key_le_trans a b c :
  Spec.key_le a b -> Spec.key_le b c -> Spec.key_le a c.
Proof.
  unfold Spec.key_le.
  destruct (days_until_stockout a), (days_until_stockout b),
    (days_until_stockout c); try tauto; lia.
Qed.

Lemma same_key_trans a b c :
  Spec.same_key a b = true -> Spec.same_key a c = Spec.same_key b c.
Proof.
  unfold Spec.same_key.
  destruct (days_until_stockout a), (days_until_stockout b),
    (days_until_stockout c); try discriminate; try reflexivity.
  intros H. apply Z.eqb_eq in H. now subst.
Qed.

Lemma same_key_sym a b : Spec.same_key a b = Spec.same_key b a.
Proof.
  unfold Spec.same_key.
  destruct (days_until_stockout a), (days_until_stockout b);
    try reflexivity. apply Z.eqb_sym.
Qed.

Lemma Forall_insert (P : Alert -> Prop) x l :
  P x -> Forall P l -> Forall P (insert x l).
Proof.
  intros Hx H. induction H as [|y r Hy Hr IH]; simpl.
  - now constructor.
  - destruct (key_ltb (sort_key y) (sort_key x)); now repeat constructor.
Qed.

Lemma insert_sorted x l :
  StronglySorted Spec.key_le l -> StronglySorted Spec.key_le (insert x l).
Proof.
  intros H. induction H as [|y r Hr IH Hy]; simpl.
  - repeat constructor.
  - destruct (key_ltb (sort_key y) (sort_key x)) eqn:E.
    + constructor; [assumption|].
      apply Forall_insert; [|assumption]. now apply key_ltb_true in E.
    + apply key_ltb_false in E. constructor.
      * now constructor.
      * constructor; [assumption|].
        eapply Forall_impl; [|exact Hy].
        intros z Hz. now apply key_le_trans with y.
Qed.

Lemma sort_sorted l : StronglySorted Spec.key_le (sort l).
Proof.
  induction l as [|x l IH]; simpl; [constructor|now apply insert_sorted].
Qed.

Lemma insert_perm x l : Permutation (x :: l) (insert x l).
Proof.
  induction l as [|y r IH]; simpl; [reflexivity|].
  destruct (key_ltb (sort_key y) (sort_key x)); [|reflexivity].
  rewrite perm_swap. now apply perm_skip.
Qed.

Lemma sort_perm l : Permutation l (sort l).
Proof.
  induction l as [|x l IH]; simpl; [constructor|].
  rewrite <- insert_perm. now apply perm_skip.
Qed.

(** Inserting [x] puts it in front of the alerts of its own key. *)
Lemma filter_insert a x l :
  filter (Spec.same_key a) (insert x l)
  = filter (Spec.same_key a) (x :: l).
Proof.
  induction l as [|y r IH]; simpl; [reflexivity|].
  destruct (key_ltb (sort_key y) (sort_key x)) eqn:E; [|reflexivity].
  apply key_ltb_true in E. destruct E as [_ E]. simpl. rewrite IH. simpl.
  destruct (Spec.same_key a x) eqn:Ex; [|reflexivity].
  destruct (Spec.same_key a y) eqn:Ey; [|reflexivity].
  rewrite (same_key_trans a y x Ey) in Ex. congruence.
Qed.

Lemma sort_stable l : Spec.keeps_fetch_order l (sort l).
Proof.
  intros a. induction l as [|x l IH]; simpl; [reflexivity|].
  rewrite filter_insert. simpl. now rewrite IH.
Qed.

Lemma sorted_nth (l : list Alert) :
  StronglySorted Spec.key_le l ->
  forall i j a b, (i < j)%nat ->
    nth_error l i = Some a -> nth_error l j = Some b -> Spec.key_le a b.
Proof.
  intros H. induction H as [|y r Hr IH Hy]; intros i j a b Hij Ha Hb.
  - now destruct i.
  - destruct j as [|j]; [lia|]. simpl in Hb. destruct i as [|i].
    + simpl in Ha. injection Ha as <-.
      rewrite Forall_forall in Hy. apply Hy. eapply nth_error_In, Hb.
    + simpl in Ha. apply (IH i j); [lia|assumption..].
Qed.

Lemma sort_ordered l :
  Spec.present_first (sort l) /\ Spec.ascending (sort l).
Proof.
  pose proof (sorted_nth (sort l) (sort_sorted l)) as S. split.
  - intros i j a b x Ha Hb Ea Eb.
    destruct (Nat.lt_trichotomy i j) as [L|[->|L]]; [assumption| |].
    + congruence.
    + specialize (S j i b a L Hb Ha). unfold Spec.key_le in S.
      now rewrite Ea, Eb in S.
  - intros i j a b x y L Ha Hb Ea Eb.
    specialize (S i j a b L Ha Hb). unfold Spec.key_le in S.
    now rewrite Ea, Eb in S.
Qed.

(** ** What a successful response is made of *)

Lemma low_stock_items_nil (db : DB) : low_stock_items db [] = [].
Proof.
  unfold low_stock_items. apply filter_nil_iff.
  now intros [[[[inv p] w] pt] s] _.
Qed.

(** A response that carries alerts is the sorted list of the alerts
    built in fetch order, with status 200. *)
Lemma get_low_stock_alerts_inv (db : DB) (now : Z) (args : Args)
  (company_id : Z) alerts n msg status :
  get_low_stock_alerts db now args company_id
  = (AlertsBody alerts n msg, status) ->
  exists since fetched,
    sales_threshold_date now (arg_days args) = Ok since
    /\ Spec.fetched_alerts db since args company_id = Ok fetched
    /\ alerts = sort fetched
    /\ n = Z.of_nat (List.length alerts)
    /\ status = 200.
Proof.
  unfold get_low_stock_alerts.
  destruct (get_low_stock_alerts_try db now args company_id) as [r|e] eqn:T.
  2:{ destruct e; discriminate. }
  intros ->. unfold get_low_stock_alerts_try in T.
  destruct (Sql.get Company.id (companies db) company_id); [|discriminate].
  destruct (arg_days args <=? 0); [discriminate|].
  destruct (sales_threshold_date now (arg_days args)) as [since|] eqn:S;
    simpl in T; [|discriminate].
  exists since. unfold Spec.fetched_alerts, Spec.company_items,
    Spec.company_warehouse_ids.
  destruct (filter (fun w => Warehouse.company_id w =? company_id)
              (warehouses db)) as [|w0 ws].
  { injection T as <- <- <- <-. exists []. simpl map.
    rewrite low_stock_items_nil. repeat split; reflexivity. }
  destruct (low_stock_items db (map Warehouse.id (w0 :: ws)))
    as [|it its].
  { injection T as <- <- <- <-. exists []. repeat split; reflexivity. }
  destruct (build_alerts _ (it :: its)) as [fetched|] eqn:B; simpl in T;
    [|discriminate].
  injection T as <- <- <- <-. exists fetched. repeat split; reflexivity.
Qed.

Lemma get_low_stock_alerts_optimized_inv (sql_div : Z -> Z -> num)
  (db : DB) (now : Z) (args : Args) (company_id : Z) alerts n msg status :
  get_low_stock_alerts_optimized sql_div db now args company_id
  = (AlertsBody alerts n msg, status) ->
  exists since fetched,
    sales_threshold_date now (arg_days args) = Ok since
    /\ Spec.fetched_alerts_optimized sql_div db since args company_id
       = Ok fetched
    /\ alerts = sort fetched
    /\ n = Z.of_nat (List.length alerts)
    /\ status = 200.
Proof.
  unfold get_low_stock_alerts_optimized.
  destruct (get_low_stock_alerts_optimized_try sql_div db now args company_id)
    as [r|e] eqn:T; [|discriminate].
  intros ->. unfold get_low_stock_alerts_optimized_try in T.
  destruct (Sql.get Company.id (companies db) company_id); [|discriminate].
  destruct (arg_days args <=? 0); [discriminate|].
  destruct (sales_threshold_date now (arg_days args)) as [since|] eqn:S;
    simpl in T; [|discriminate].
  exists since.
  unfold Spec.fetched_alerts_optimized, Spec.fetched_rows.
  destruct (build_alerts_rows _) as [fetched|] eqn:B; simpl in T;
    [|discriminate].
  injection T as <- <- <- <-. exists fetched. repeat split; reflexivity.
Qed.

(** C5. In every alert list either handler returns, every alert with a
    projection stands before every alert without one, the projections
    that are present ascend, and the list is a rearrangement of the
    alerts built in fetch order in which the alerts of each key keep the
    order they were fetched in. *)
Theorem C5_alerts_sorted_stably :
  forall (db : DB) (now : Z) (args : Args) (company_id : Z)
         alerts n msg status,
    (get_low_stock_alerts db now args company_id
     = (AlertsBody alerts n msg, status) ->
     Spec.present_first alerts /\ Spec.ascending alerts
     /\ exists since fetched,
          sales_threshold_date now (arg_days args) = Ok since
          /\ Spec.fetched_alerts db since args company_id = Ok fetched
          /\ Permutation fetched alerts
          /\ Spec.keeps_fetch_order fetched alerts)
    /\ (forall sql_div,
          get_low_stock_alerts_optimized sql_div db now args company_id
          = (AlertsBody alerts n msg, status) ->
          Spec.present_first alerts /\ Spec.ascending alerts
          /\ exists since fetched,
               sales_threshold_date now (arg_days args) = Ok since
               /\ Spec.fetched_alerts_optimized sql_div db since args
                    company_id = Ok fetched
               /\ Permutation fetched alerts
               /\ Spec.keeps_fetch_order fetched alerts).
Proof.
  intros db now args cid alerts n msg status. split.
  - intros H. apply get_low_stock_alerts_inv in H.
    destruct H as (since & fetched & S & F & -> & _ & _).
    destruct (sort_ordered fetched) as [P A].
    split; [assumption|]. split; [assumption|].
    exists since, fetched. repeat split; try assumption.
    + apply sort_perm.
    + apply sort_stable.
  - intros sql_div H. apply get_low_stock_alerts_optimized_inv in H.
    destruct H as (since & fetched & S & F & -> & _ & _).
    destruct (sort_ordered fetched) as [P A].
    split; [assumption|]. split; [assumption|].
    exists since, fetched. repeat split; try assumption.
    + apply sort_perm.
    + apply sort_stable.
Qed.

(** With [include_no_sales] set, the gadget without sales follows the
    widget, although its row is fetched first. *)
Lemma C5_witness :
  Spec.present_first [Examples.widget_alert; Examples.gadget_alert]
  /\ Spec.ascending [Examples.widget_alert; Examples.gadget_alert].
Proof.
  pose proof (proj1 (C5_alerts_sorted_stably Examples.db Examples.now
                       Examples.with_no_sales 1
                       [Examples.widget_alert; Examples.gadget_alert]
                       2 None 200)) as H.
  assert (R : get_low_stock_alerts Examples.db Examples.now
                Examples.with_no_sales 1
              = (AlertsBody [Examples.widget_alert; Examples.gadget_alert]
                            2 None, 200))
    by (vm_compute; reflexivity).
  destruct (H R) as (P & A & _). exact (conj P A).
Defined.

(** ** Rows without sales *)

Lemma build_alerts_in (f : Item -> res (option Alert)) items l a :
  build_alerts f items = Ok l ->
  (In a l <-> exists it, In it items /\ f it = Ok (Some a)).
Proof.
  revert l. induction items as [|it items IH]; simpl; intros l H.
  - injection H as <-. split; [intros []|intros (? & [] & _)].
  - destruct (f it) as [o|] eqn:E; simpl in H; [|discriminate].
    destruct (build_alerts f items) as [l'|]; simpl in H; [|discriminate].
    injection H as <-. specialize (IH l' eq_refl). split.
    + intros Ha. destruct o as [x|].
      * destruct Ha as [<-|Ha]; [exists it; split; [now left|assumption]|].
        apply IH in Ha. destruct Ha as (it' & ? & ?).
        exists it'. split; [now right|assumption].
      * apply IH in Ha. destruct Ha as (it' & ? & ?).
        exists it'. split; [now right|assumption].
    + intros (it' & [<-|Hin] & Hf).
      * rewrite E in Hf. injection Hf as ->. now left.
      * assert (In a l') by (apply IH; now exists it').
        destruct o; [now right|assumption].
Qed.

Lemma build_alerts_rows_in rows l a :
  build_alerts_rows rows = Ok l ->
  (In a l <-> exists row, In row rows /\ alert_of_row row = Ok a).
Proof.
  revert l. induction rows as [|row rows IH]; simpl; intros l H.
  - injection H as <-. split; [intros []|intros (? & [] & _)].
  - destruct (alert_of_row row) as [x|] eqn:E; simpl in H; [|discriminate].
    destruct (build_alerts_rows rows) as [l'|]; simpl in H; [|discriminate].
    injection H as <-. specialize (IH l' eq_refl). split.
    + intros [<-|Ha]; [exists row; split; [now left|assumption]|].
      apply IH in Ha. destruct Ha as (row' & ? & ?).
      exists row'. split; [now right|assumption].
    + intros (row' & [<-|Hin] & Hf).
      * rewrite E in Hf. injection Hf as ->. now left.
      * right. apply IH. now exists row'.
Qed.

(** The subquery is looked up by the ids only. *)
Lemma recent_sales_of_ids subq p w p' w' :
  Product.id p' = Product.id p -> Warehouse.id w' = Warehouse.id w ->
  recent_sales_of subq p' w' = recent_sales_of subq p w.
Proof. unfold recent_sales_of. now intros -> ->. Qed.

(** The rows the main query of the variant yields. *)
Lemma main_query_rows (sql_div : Z -> Z -> num) (db : DB)
  (since days company_id : Z) (row : Row) :
  In row (main_query db company_id
            (avg_daily_sales_subq sql_div db since days))
  <-> exists inv p w pt s,
        row = ((inv, p, w, pt, s),
               match Spec.window_sales db since (Inventory.product_id inv)
                       (Inventory.warehouse_id inv) with
               | [] => None
               | g => Some (sql_div (Spec.total_quantity g) days)
               end)
        /\ In (inv, p, w, pt, s) (Spec.company_items db company_id).
Proof.
  unfold main_query. rewrite filter_In, in_flat_map.
  fold (Spec.company_warehouse_ids db company_id). split.
  - intros ([[[[[inv p] w] pt] s] [Hj Hin]] & Hlow).
    rewrite with_avg_subq in Hin. destruct Hin as [<-|[]].
    exists inv, p, w, pt, s. split; [reflexivity|].
    unfold Spec.company_items, low_stock_items. apply filter_In.
    split; [assumption|].
    unfold is_low_stock_row in Hlow. unfold is_low_stock.
    now rewrite low_stock_condition_holds, <- coalesce3_effective.
  - intros (inv & p & w & pt & s & -> & Hin).
    unfold Spec.company_items, low_stock_items in Hin.
    apply filter_In in Hin. destruct Hin as [Hj Hlow]. split.
    + exists (inv, p, w, pt, s). split; [assumption|].
      rewrite with_avg_subq. now left.
    + unfold is_low_stock in Hlow. unfold is_low_stock_row.
      now rewrite low_stock_condition_holds, <- coalesce3_effective in Hlow.
Qed.

Lemma flag_given_iff (args : Args) :
  arg_include_no_sales args = true <-> SpecAlerts.flag_given args.
Proof.
  unfold arg_include_no_sales, SpecAlerts.flag_given.
  destruct (include_no_sales args) as [text|].
  - rewrite negb_true_iff, String.eqb_neq. split.
    + intros H. now exists text.
    + intros (t & E & H). now injection E as ->.
  - split; [discriminate|]. intros (t & E & _). discriminate.
Qed.

(** Rows without sales. For a low-stock row of the company whose
    (product, warehouse) pair has no sale in the trailing window: no
    average is computed for it; whenever a handler returns alerts, an
    alert for the pair is among them if and only if the query string
    carries [include_no_sales] with a text that is not empty, whatever
    the text; and such an alert has no [days_until_stockout]. *)
Theorem rows_without_sales :
  forall (db : DB) (now : Z) (args : Args) (company_id since : Z)
         inv p w pt s,
    sales_threshold_date now (arg_days args) = Ok since ->
    In (inv, p, w, pt, s) (Spec.company_items db company_id) ->
    Spec.window_sales db since (Product.id p) (Warehouse.id w) = [] ->
    average_daily_sales (arg_days args)
      (recent_sales_of
         (sales_subquery db since
            (product_ids_of (Spec.company_items db company_id))) p w)
    = Ok None
    /\ (forall alerts n msg status,
          get_low_stock_alerts db now args company_id
          = (AlertsBody alerts n msg, status) ->
          (Spec.appears (Product.id p) (Warehouse.id w) alerts
           <-> SpecAlerts.flag_given args)
          /\ (forall a, In a alerts ->
                product_id a = Product.id p ->
                warehouse_id a = Warehouse.id w ->
                days_until_stockout a = None))
    /\ (forall sql_div alerts n msg status,
          get_low_stock_alerts_optimized sql_div db now args company_id
          = (AlertsBody alerts n msg, status) ->
          (Spec.appears (Product.id p) (Warehouse.id w) alerts
           <-> SpecAlerts.flag_given args)
          /\ (forall a, In a alerts ->
                product_id a = Product.id p ->
                warehouse_id a = Warehouse.id w ->
                days_until_stockout a = None)).
Proof.
  intros db now args cid since inv p w pt s Hs Hit Hw.
  set (subq := sales_subquery db since
                 (product_ids_of (Spec.company_items db cid))).
  assert (Hr : recent_sales_of subq p w = None).
  { unfold subq. rewrite recent_sales_of_subquery
      by (eapply in_product_ids_of; eassumption).
    now rewrite Hw. }
  split; [now rewrite Hr|]. split.
  - (* the first handler *)
    intros alerts n msg status H. apply get_low_stock_alerts_inv in H.
    destruct H as (since' & fetched & S & F & -> & _ & _).
    rewrite Hs in S. injection S as <-.
    unfold Spec.fetched_alerts in F. fold subq in F.
    assert (Hone : forall a, In a (sort fetched) ->
              product_id a = Product.id p -> warehouse_id a = Warehouse.id w ->
              arg_include_no_sales args = true
              /\ days_until_stockout a = None).
    { intros a Ha Ep Ew.
      apply (Permutation_in _ (Permutation_sym (sort_perm fetched))) in Ha.
      apply (build_alerts_in _ _ _ a F) in Ha.
      destruct Ha as ([[[[inv' p'] w'] pt'] s'] & _ & Ha).
      apply alert_of_inv in Ha.
      destruct Ha as (avg & d & Havg & Hd & Hincl & ->). simpl in Ep, Ew.
      rewrite (recent_sales_of_ids subq p w p' w' Ep Ew), Hr in Havg, Hincl.
      simpl in Havg. injection Havg as <-. simpl in Hd. injection Hd as <-.
      split; [now apply Hincl|reflexivity]. }
    rewrite <- flag_given_iff. split; [split|].
    + intros (a & Ha & Ep & Ew). now apply (Hone a).
    + intros Hincl.
      assert (Ha : alert_of (arg_days args) (arg_include_no_sales args) subq
                     (inv, p, w, pt, s)
                   = Ok (Some {| product_id := Product.id p;
                                 product_name := Product.name p;
                                 sku := Product.sku p;
                                 warehouse_id := Warehouse.id w;
                                 warehouse_name := Warehouse.name w;
                                 current_stock := Inventory.quantity inv;
                                 threshold := threshold_of inv pt;
                                 days_until_stockout := None;
                                 supplier := supplier_info s |})).
      { unfold alert_of. now rewrite Hr, Hincl. }
      eexists. split.
      { apply (Permutation_in _ (sort_perm fetched)).
        apply (build_alerts_in _ _ _ _ F). eexists. split; eassumption. }
      split; reflexivity.
    + intros a Ha Ep Ew. now apply (Hone a).
  - (* the variant *)
    intros sql_div alerts n msg status H.
    apply get_low_stock_alerts_optimized_inv in H.
    destruct H as (since' & fetched & S & F & -> & _ & _).
    rewrite Hs in S. injection S as <-.
    unfold Spec.fetched_alerts_optimized in F.
    pose proof (joined_inv db inv p w pt s
                  (low_stock_items_joined db _ _ Hit)) as (_ & _ & Ip & _ & Iw).
    assert (Hone : forall a, In a (sort fetched) ->
              product_id a = Product.id p -> warehouse_id a = Warehouse.id w ->
              arg_include_no_sales args = true
              /\ days_until_stockout a = None).
    { intros a Ha Ep Ew.
      apply (Permutation_in _ (Permutation_sym (sort_perm fetched))) in Ha.
      apply (build_alerts_rows_in _ _ a F) in Ha.
      destruct Ha as (row & Hrow & Ha).
      assert (Hq : In row (main_query db cid
                     (avg_daily_sales_subq sql_div db since (arg_days args)))).
      { unfold Spec.fetched_rows in Hrow.
        destruct (negb (arg_include_no_sales args)); [|assumption].
        now apply filter_In in Hrow. }
      apply main_query_rows in Hq.
      destruct Hq as (inv' & p' & w' & pt' & s' & -> & Hit').
      pose proof (joined_inv db inv' p' w' pt' s'
                    (low_stock_items_joined db _ _ Hit'))
        as (_ & _ & Ip' & _ & Iw').
      unfold alert_of_row in Ha.
      destruct (stockout_row _ _) as [d|] eqn:Ed; simpl in Ha; [|discriminate].
      injection Ha as <-. simpl in Ep, Ew.
      rewrite Ip', Ep, Ew, Hw in Ed, Hrow. simpl in Ed. injection Ed as <-.
      split; [|reflexivity].
      unfold Spec.fetched_rows in Hrow.
      destruct (arg_include_no_sales args); [reflexivity|].
      simpl in Hrow. apply filter_In in Hrow. now destruct Hrow. }
    rewrite <- flag_given_iff. split; [split|].
    + intros (a & Ha & Ep & Ew). now apply (Hone a).
    + intros Hincl.
      assert (Hrow : In ((inv, p, w, pt, s), None)
                       (Spec.fetched_rows sql_div db since args cid)).
      { unfold Spec.fetched_rows. rewrite Hincl. simpl.
        apply main_query_rows. exists inv, p, w, pt, s.
        split; [|assumption]. now rewrite Ip, Iw, Hw. }
      eexists. split; [|split].
      * apply (Permutation_in _ (sort_perm fetched)).
        apply (build_alerts_rows_in _ _ _ F). eexists.
        split; [exact Hrow|]. unfold alert_of_row. simpl. reflexivity.
      * reflexivity.
      * simpl. assumption.
    + intros a Ha Ep Ew. now apply (Hone a).
Qed.

(** The gadget at the annex has no sales: it is reported to the
    request [?include_no_sales=false]. *)
Lemma rows_without_sales_witness :
  Spec.appears 2 2 [Examples.widget_alert; Examples.gadget_alert]
  <-> SpecAlerts.flag_given ExamplesAlerts.false_flag.
Proof.
  refine (proj1 (proj1 (proj2
    (rows_without_sales Examples.db Examples.now ExamplesAlerts.false_flag 1
       (Examples.now - 30 * Examples.day)
       (Examples.stock 1 2 2 3 None) Examples.gadget Examples.annex
       None None _ _ _))
    [Examples.widget_alert; Examples.gadget_alert] 2 None 200 _)).
  - vm_compute. reflexivity.
  - vm_compute. left. reflexivity.
  - vm_compute. reflexivity.
  - vm_compute. reflexivity.
Defined.

(** C4, where the handlers miss it. The gadget at the annex is low on
    stock and has no sale in the window.  A request without
    [include_no_sales] leaves it out; the request
    [?include_no_sales=false] gets it reported, by both handlers:
    [type=bool] makes [bool("false")] of the text, which is true. *)
Theorem C4_false_is_read_as_true :
  Spec.window_sales Examples.db (Examples.now - 30 * Examples.day) 2 2 = []
  /\ arg_include_no_sales Examples.no_args = false
  /\ get_low_stock_alerts Examples.db Examples.now Examples.no_args 1
     = (AlertsBody [Examples.widget_alert] 1 None, 200)
  /\ arg_include_no_sales ExamplesAlerts.false_flag = true
  /\ get_low_stock_alerts Examples.db Examples.now
       ExamplesAlerts.false_flag 1
     = (AlertsBody [Examples.widget_alert; Examples.gadget_alert] 2 None,
        200)
  /\ get_low_stock_alerts_optimized ExamplesAlerts.integer_division
       Examples.db Examples.now ExamplesAlerts.false_flag 1
     = (AlertsBody [Examples.gadget_alert;
                    ExamplesAlerts.widget_alert_unprojected] 2 None, 200).
Proof.
  split; [reflexivity|]. split; [reflexivity|].
  split; [vm_compute; reflexivity|]. split; [reflexivity|].
  split; vm_compute; reflexivity.
Qed.

(** ** Errors of the alert handler *)

Lemma get_company_none (db : DB) (company_id : Z) :
  ~ Spec.company_exists db company_id ->
  Sql.get Company.id (companies db) company_id = None.
Proof.
  intros H. unfold Sql.get.
  destruct (find _ (companies db)) as [c|] eqn:E; [|reflexivity].
  apply find_some in E. destruct E as [Hc E]. apply Z.eqb_eq in E.
  exfalso. apply H. now exists c.
Qed.

Lemma get_company_some (db : DB) (company_id : Z) :
  Spec.company_exists db company_id ->
  exists c, Sql.get Company.id (companies db) company_id = Some c.
Proof.
  intros (c & Hc & E). unfold Sql.get.
  destruct (find _ (companies db)) as [c'|] eqn:F; [now exists c'|].
  apply (find_none _ _ F) in Hc. apply Z.eqb_neq in Hc. contradiction.
Qed.

Lemma sales_threshold_date_ok (now days : Z) :
  Spec.window_representable now days ->
  sales_threshold_date now days = Ok (now - days * MICROSECONDS_PER_DAY).
Proof.
  intros [[L U] [L' U']]. unfold sales_threshold_date.
  assert (E1 : (days <? -999999999) = false) by (apply Z.ltb_ge; lia).
  assert (E2 : (999999999 <? days) = false) by (apply Z.ltb_ge; lia).
  assert (E3 : (now - days * MICROSECONDS_PER_DAY <? 0) = false)
    by (apply Z.ltb_ge; lia).
  assert (E4 : (DATETIME_MAX <? now - days * MICROSECONDS_PER_DAY) = false)
    by (apply Z.ltb_ge; lia).
  now rewrite E1, E2, E3, E4.
Qed.

(** C9, as the handler has it. An unknown company gives 404; a known
    company with [days <= 0] gives 400; a known company with [days > 0],
    a window whose start is a [datetime], and no warehouses gives 200
    with an empty alert list and [total_alerts = 0]. *)
Theorem C9_alert_errors :
  forall (db : DB) (now : Z) (args : Args) (company_id : Z),
    (~ Spec.company_exists db company_id ->
     get_low_stock_alerts db now args company_id
     = (ErrorBody ("Company with ID " ++ str_of_int company_id
                   ++ " does not exist") None, 404))
    /\ (Spec.company_exists db company_id -> arg_days args <= 0 ->
        get_low_stock_alerts db now args company_id
        = (ErrorBody "Days parameter must be positive" None, 400))
    /\ (Spec.company_exists db company_id -> 0 < arg_days args ->
        Spec.window_representable now (arg_days args) ->
        Spec.no_warehouses db company_id ->
        get_low_stock_alerts db now args company_id
        = (AlertsBody [] 0 (Some "No warehouses found for this company"),
           200)).
Proof.
  intros db now args cid. unfold get_low_stock_alerts,
    get_low_stock_alerts_try. split; [|split].
  - intros H. now rewrite (get_company_none db cid H).
  - intros H D. destruct (get_company_some db cid H) as [c ->].
    apply Z.leb_le in D. now rewrite D.
  - intros H D R W. destruct (get_company_some db cid H) as [c ->].
    apply Z.leb_gt in D. rewrite D.
    rewrite (sales_threshold_date_ok _ _ R). simpl.
    assert (E : filter (fun w => Warehouse.company_id w =? cid)
                  (warehouses db) = []).
    { apply filter_nil_iff. intros w Hw. apply Z.eqb_neq. now apply W. }
    now rewrite E.
Qed.

Lemma C9_witness :
  get_low_stock_alerts Examples.db_no_warehouses Examples.now
    Examples.no_args 1
  = (AlertsBody [] 0 (Some "No warehouses found for this company"), 200).
Proof.
  apply (C9_alert_errors Examples.db_no_warehouses Examples.now
           Examples.no_args 1).
  - exists Examples.acme. split; [now left|reflexivity].
  - vm_compute. reflexivity.
  - unfold Spec.window_representable. vm_compute.
    repeat split; discriminate.
  - intros w [].
Defined.

(** The company exists and has no warehouses, and the response is not
    the empty list: [days = 0] gives 400, and [days = 1000000000], more
    than a [timedelta] holds, gives 500. *)
Lemma C9_counterexample :
  Sql.get Company.id (companies Examples.db_no_warehouses) 1
  = Some Examples.acme
  /\ Spec.company_warehouse_ids Examples.db_no_warehouses 1 = []
  /\ get_low_stock_alerts Examples.db_no_warehouses Examples.now
       {| days := Some 0; include_no_sales := None |} 1
     = (ErrorBody "Days parameter must be positive" None, 400)
  /\ get_low_stock_alerts Examples.db_no_warehouses Examples.now
       {| days := Some 1000000000; include_no_sales := None |} 1
     = (ErrorBody "Failed to fetch low stock alerts"
                  (Some "Internal server error"), 500).
Proof. vm_compute. repeat split; reflexivity. Qed.

(** ** The two handlers compared *)

(** C6, where the handlers part. For a company without warehouses the
    first handler adds a message to the body and the variant does not;
    and for a product whose supplier has the primary key 0 the first
    handler reports the supplier and the variant reports none. Neither
    depends on how the store divides. *)
Theorem C6_handlers_differ :
  forall sql_div : Z -> Z -> num,
    get_low_stock_alerts Examples.db_no_warehouses Examples.now
      Examples.no_args 1
    = (AlertsBody [] 0 (Some "No warehouses found for this company"), 200)
    /\ get_low_stock_alerts_optimized sql_div Examples.db_no_warehouses
         Examples.now Examples.no_args 1
       = (AlertsBody [] 0 None, 200)
    /\ get_low_stock_alerts Examples.db_zero_supplier Examples.now
         Examples.with_no_sales 1
       = (AlertsBody
            [Examples.bolt_alert
               (Some {| id := 0; name := "Zero Supplies";
                        contact_email := None |})] 1 None, 200)
    /\ get_low_stock_alerts_optimized sql_div Examples.db_zero_supplier
         Examples.now Examples.with_no_sales 1
       = (AlertsBody [Examples.bolt_alert None] 1 None, 200).
Proof. intros sql_div. vm_compute. repeat split; reflexivity. Qed.

(** ** Where the two handlers agree *)

Lemma flat_map_single {A B : Type} (f : A -> list B) (g : A -> B)
  (l : list A) :
  (forall x, f x = [g x]) -> flat_map f l = map g l.
Proof.
  intros H. induction l as [|x l IH]; simpl; [reflexivity|].
  now rewrite H, IH.
Qed.

Lemma filter_map_comm {A B : Type} (g : A -> B) (test : B -> bool)
  (l : list A) :
  filter test (map g l) = map g (filter (fun x => test (g x)) l).
Proof.
  induction l as [|x l IH]; simpl; [reflexivity|].
  destruct (test (g x)); simpl; now rewrite IH.
Qed.

(** The main query of the variant yields the low-stock rows of the
    company, each with its average column. *)
Lemma main_query_map (sql_div : Z -> Z -> num) (db : DB)
  (since days company_id : Z) :
  main_query db company_id (avg_daily_sales_subq sql_div db since days)
  = map (fun it => (it, Spec.avg_column sql_div db since days it))
        (Spec.company_items db company_id).
Proof.
  unfold main_query.
  rewrite (flat_map_single _
             (fun it => (it, Spec.avg_column sql_div db since days it))).
  - rewrite filter_map_comm. unfold Spec.company_items, low_stock_items.
    f_equal. apply filter_ext. intros [[[[inv p] w] pt] s].
    unfold is_low_stock_row, is_low_stock.
    now rewrite low_stock_condition_holds, coalesce3_effective.
  - intros [[[[inv p] w] pt] s]. apply with_avg_subq.
Qed.


Lemma joined_supplier (db : DB) inv p w pt s :
  In (inv, p, w, pt, Some s) (joined db) -> In s (suppliers db).
Proof.
  unfold joined. rewrite in_flat_map.
  intros (inv' & Hi & H). rewrite in_flat_map in H.
  destruct H as (p' & Hp & H). rewrite in_flat_map in H.
  destruct H as (w' & Hw & H). rewrite in_flat_map in H.
  destruct H as (pt' & Hpt & H). rewrite in_map_iff in H.
  destruct H as (s' & E & Hs). injection E as -> -> -> -> ->.
  unfold Sql.outerjoin in Hs.
  destruct (filter _ (suppliers db)) as [|x l] eqn:F.
  - destruct Hs as [E|[]]. discriminate.
  - apply in_map_iff in Hs. destruct Hs as (y & E & Hy).
    injection E as ->. rewrite <- F in Hy. now apply filter_In in Hy.
Qed.

Lemma supplier_info_row_agrees (db : DB) inv p w pt s :
  (forall x, In x (suppliers db) -> Supplier.id x <> 0) ->
  In (inv, p, w, pt, s) (joined db) ->
  supplier_info_row s = supplier_info s.
Proof.
  intros H Hj. destruct s as [s|]; [|reflexivity]. simpl.
  apply joined_supplier, H in Hj. apply Z.eqb_neq in Hj. now rewrite Hj.
Qed.

(** What the loop body raises, when it raises. *)
Lemma alert_of_raises days incl subq it e :
  alert_of days incl subq it = Raise e ->
  e = OverflowError \/ e = ZeroDivisionError.
Proof.
  destruct it as [[[[inv p] w] pt] s]. unfold alert_of.
  destruct (Sql.is_none _ && negb incl); [discriminate|].
  unfold average_daily_sales.
  destruct (recent_sales_of subq p w) as [r|]; simpl; [|discriminate].
  destruct (0 <? days_with_sales r); simpl; [|discriminate].
  unfold int_truediv. destruct (days =? 0); simpl.
  { intros H. injection H as <-. now right. }
  destruct (SFdiv prec emax (exact_of_int (total_sold r))
              (exact_of_int days)) as [z|z| |z m ex] eqn:D; simpl;
    try (intros H; injection H as <-; now left).
  - destruct (Inventory.quantity inv); discriminate.
  - destruct (float_gt0 S754_nan) eqn:G; [discriminate G|discriminate].
  - destruct (float_gt0 (S754_finite z m ex)) eqn:G; [|discriminate].
    unfold int_div_float.
    destruct (float_of_int (Inventory.quantity inv)) as [y|e'] eqn:Ey;
      simpl.
    2:{ intros H. injection H as <-. left.
        now apply (float_of_int_raises (Inventory.quantity inv)). }
    unfold float_truediv. simpl.
    destruct (float_of_int_number _ y Ey) as [Ny Iy].
    pose proof (SFdiv_not_nan y (S754_finite z m ex) Ny Iy G) as N.
    destruct (SFdiv prec emax y (S754_finite z m ex)); simpl;
      try discriminate; try congruence.
    intros H. injection H as <-. now left.
Qed.

Lemma build_alerts_raises (f : Item -> res (option Alert)) items e :
  (forall it e', f it = Raise e' ->
                 e' = OverflowError \/ e' = ZeroDivisionError) ->
  build_alerts f items = Raise e ->
  e = OverflowError \/ e = ZeroDivisionError.
Proof.
  intros Hf. induction items as [|it items IH]; simpl; [discriminate|].
  destruct (f it) as [o|e'] eqn:E; simpl.
  - destruct (build_alerts f items); simpl; [discriminate|].
    intros H. injection H as <-. now apply IH.
  - intros H. injection H as <-. now apply (Hf it).
Qed.

(** On a low-stock row of the company the two loop bodies keep or skip
    the row alike and, when no supplier has the id 0, build the same
    alert apart from the projection, however the store divides. *)
Lemma loop_bodies_same_row (sql_div : Z -> Z -> num) (db : DB)
  (since days company_id : Z) (incl : bool) inv p w pt s o :
  (forall x, In x (suppliers db) -> Supplier.id x <> 0) ->
  In (inv, p, w, pt, s) (Spec.company_items db company_id) ->
  alert_of days incl
    (sales_subquery db since
       (product_ids_of (Spec.company_items db company_id)))
    (inv, p, w, pt, s) = Ok o ->
  match o with
  | None =>
      incl = false
      /\ Spec.avg_column sql_div db since days (inv, p, w, pt, s) = None
  | Some a =>
      (incl = false ->
       Spec.avg_column sql_div db since days (inv, p, w, pt, s) <> None)
      /\ forall a',
           alert_of_row
             ((inv, p, w, pt, s),
              Spec.avg_column sql_div db since days (inv, p, w, pt, s))
           = Ok a' ->
           SpecAlerts.without_projection a'
           = SpecAlerts.without_projection a
  end.
Proof.
  intros Hsup Hit.
  pose proof (low_stock_items_joined db _ _ Hit) as Hj.
  pose proof (joined_inv db inv p w pt s Hj) as (_ & _ & Ip & _ & Iw).
  pose proof (supplier_info_row_agrees db inv p w pt s Hsup Hj) as Es.
  assert (Et : match Inventory.low_stock_threshold inv with
               | Some t => t
               | None => match type_default pt with
                         | Some d => d
                         | None => 10
                         end
               end = threshold_of inv pt).
  { unfold threshold_of, type_default.
    now destruct (Inventory.low_stock_threshold inv), pt. }
  unfold alert_of, alert_of_row, Spec.avg_column.
  rewrite recent_sales_of_subquery
    by (eapply in_product_ids_of; eassumption).
  rewrite Ip, Iw, Es, Et.
  destruct (Spec.window_sales db since (Product.id p) (Warehouse.id w))
    as [|x g].
  - destruct incl; simpl; intros H; injection H as <-.
    + split; [discriminate|]. intros a' H. now injection H as <-.
    + now split.
  - cbn [Sql.is_none andb].
    destruct (average_daily_sales days _) as [avg|e]; cbn [bind];
      [|discriminate].
    destruct (stockout (Inventory.quantity inv) avg) as [d|e];
      cbn [bind]; [|discriminate].
    intros H. injection H as <-. split; [discriminate|].
    intros a'.
    destruct (stockout_row (Inventory.quantity inv) _) as [d'|e];
      cbn [bind]; [|discriminate].
    intros H. now injection H as <-.
Qed.

Lemma loops_same_rows (f : Item -> res (option Alert))
  (g : Item -> option num) (incl : bool) (items : list Item) l1 l2 :
  (forall it o, In it items -> f it = Ok o ->
     match o with
     | None => incl = false /\ g it = None
     | Some a =>
         (incl = false -> g it <> None)
         /\ forall a', alert_of_row (it, g it) = Ok a' ->
                       SpecAlerts.without_projection a'
                       = SpecAlerts.without_projection a
     end) ->
  build_alerts f items = Ok l1 ->
  build_alerts_rows
    (if negb incl then filter has_avg (map (fun it => (it, g it)) items)
     else map (fun it => (it, g it)) items)
  = Ok l2 ->
  map SpecAlerts.without_projection l1
  = map SpecAlerts.without_projection l2.
Proof.
  revert l1 l2. induction items as [|it items IH]; intros l1 l2 H.
  - simpl. intros E1 E2. injection E1 as <-.
    destruct incl; simpl in E2; now injection E2 as <-.
  - cbn [build_alerts]. destruct (f it) as [o|] eqn:E; cbn [bind];
      [|discriminate].
    destruct (build_alerts f items) as [l1'|] eqn:B; cbn [bind];
      [|discriminate].
    intros E1. injection E1 as <-.
    assert (IH' := fun l => IH l1' l
                     (fun it' o' Hin => H it' o' (or_intror Hin)) eq_refl).
    specialize (H it o (or_introl eq_refl) E).
    destruct o as [a|].
    + destruct H as [Hn Ha].
      assert (Hrows :
                (if negb incl
                 then filter has_avg
                        (map (fun it => (it, g it)) (it :: items))
                 else map (fun it => (it, g it)) (it :: items))
                = (it, g it)
                  :: (if negb incl
                      then filter has_avg
                             (map (fun it => (it, g it)) items)
                      else map (fun it => (it, g it)) items)).
      { destruct incl; cbn [negb map filter]; [reflexivity|].
        assert (Hav : has_avg (it, g it) = true).
        { unfold has_avg. cbn [snd].
          destruct (g it); [reflexivity|now exfalso; apply Hn]. }
        now rewrite Hav. }
      rewrite Hrows. cbn [build_alerts_rows].
      destruct (alert_of_row (it, g it)) as [a'|] eqn:Ea; cbn [bind];
        [|discriminate].
      destruct (build_alerts_rows _) as [l2'|] eqn:B2; cbn [bind];
        [|discriminate].
      intros E2. injection E2 as <-. cbn [map].
      now rewrite (Ha a' eq_refl), (IH' l2' eq_refl).
    + destruct H as [-> Hg]. cbn [negb map filter].
      assert (Hav : has_avg (it, g it) = false)
        by (unfold has_avg; cbn [snd]; now rewrite Hg).
      rewrite Hav. intros E2. now apply IH'.
Qed.

(** The body of the first handler's [try], with the loop named. *)
Lemma get_low_stock_alerts_try_eq (db : DB) (now : Z) (args : Args)
  (company_id : Z) :
  get_low_stock_alerts_try db now args company_id
  = match Sql.get Company.id (companies db) company_id with
    | None =>
        Ok (ErrorBody ("Company with ID " ++ str_of_int company_id
                       ++ " does not exist") None, 404)
    | Some _ =>
        if arg_days args <=? 0
        then Ok (ErrorBody "Days parameter must be positive" None, 400)
        else
          since <- sales_threshold_date now (arg_days args) ;;
          fetched <- Spec.fetched_alerts db since args company_id ;;
          Ok (AlertsBody (sort fetched)
                (Z.of_nat (List.length (sort fetched)))
                (match Spec.company_warehouse_ids db company_id with
                 | [] => Some "No warehouses found for this company"
                 | _ => None
                 end), 200)
    end.
Proof.
  unfold get_low_stock_alerts_try.
  destruct (Sql.get Company.id (companies db) company_id); [|reflexivity].
  destruct (arg_days args <=? 0); [reflexivity|].
  destruct (sales_threshold_date now (arg_days args)) as [since|];
    [|reflexivity].
  cbn [bind]. unfold Spec.fetched_alerts, Spec.company_items,
    Spec.company_warehouse_ids.
  destruct (filter (fun w => Warehouse.company_id w =? company_id)
              (warehouses db)) as [|w0 ws].
  { simpl map. now rewrite low_stock_items_nil. }
  destruct (low_stock_items db (map Warehouse.id (w0 :: ws)))
    as [|it its]; reflexivity.
Qed.

Lemma sales_threshold_date_raises (now days : Z) e :
  sales_threshold_date now days = Raise e -> e = OverflowError.
Proof.
  unfold sales_threshold_date.
  destruct (_ || _); [intros H; now injection H|].
  destruct (_ || _); [intros H; now injection H|discriminate].
Qed.

(** Where the two handlers agree, however the store divides. The
    variant answers 404 and 400 with the response of the first handler;
    and in a store where no supplier has the id 0, whenever both return
    alerts they return the same number of alerts and, apart from
    [days_until_stockout] and from the order, the same alerts. *)
Theorem handlers_report_the_same_rows :
  forall (sql_div : Z -> Z -> num) (db : DB) (now : Z) (args : Args)
         (company_id : Z),
    (forall x, In x (suppliers db) -> Supplier.id x <> 0) ->
    (forall body status,
       get_low_stock_alerts db now args company_id = (body, status) ->
       status = 404 \/ status = 400 ->
       get_low_stock_alerts_optimized sql_div db now args company_id
       = (body, status))
    /\ (forall alerts1 n1 msg1 status1 alerts2 n2 msg2 status2,
          get_low_stock_alerts db now args company_id
          = (AlertsBody alerts1 n1 msg1, status1) ->
          get_low_stock_alerts_optimized sql_div db now args company_id
          = (AlertsBody alerts2 n2 msg2, status2) ->
          Permutation (map SpecAlerts.without_projection alerts1)
                      (map SpecAlerts.without_projection alerts2)
          /\ n1 = n2 /\ status1 = status2).
Proof.
  intros sql_div db now args cid Hsup. split.
  - intros body status.
    unfold get_low_stock_alerts, get_low_stock_alerts_optimized,
      get_low_stock_alerts_optimized_try.
    rewrite get_low_stock_alerts_try_eq.
    destruct (Sql.get Company.id (companies db) cid); [|now intros H _].
    destruct (arg_days args <=? 0); [now intros H _|].
    destruct (sales_threshold_date now (arg_days args)) as [since|e] eqn:S;
      cbn [bind].
    2:{ apply sales_threshold_date_raises in S. subst e.
        intros H [E|E]; injection H as <- <-; discriminate E. }
    destruct (Spec.fetched_alerts db since args cid) as [fetched|e] eqn:F;
      cbn [bind].
    + intros H [E|E]; injection H as <- <-; discriminate E.
    + unfold Spec.fetched_alerts in F.
      apply build_alerts_raises in F;
        [|intros it e'; apply alert_of_raises].
      intros H [E|E]; destruct F as [-> | ->]; injection H as <- <-;
        discriminate E.
  - intros alerts1 n1 msg1 status1 alerts2 n2 msg2 status2 H1 H2.
    apply get_low_stock_alerts_inv in H1.
    destruct H1 as (since & l1 & S & F1 & -> & -> & ->).
    apply get_low_stock_alerts_optimized_inv in H2.
    destruct H2 as (since' & l2 & S' & F2 & -> & -> & ->).
    rewrite S in S'. injection S' as <-.
    assert (E : map SpecAlerts.without_projection l1
                = map SpecAlerts.without_projection l2).
    { unfold Spec.fetched_alerts in F1.
      unfold Spec.fetched_alerts_optimized, Spec.fetched_rows in F2.
      rewrite main_query_map in F2.
      refine (loops_same_rows _ _ _ _ _ _ _ F1 F2).
      intros [[[[inv p] w] pt] s] o Hin Ho.
      now apply (loop_bodies_same_row sql_div db since (arg_days args) cid
                   (arg_include_no_sales args) inv p w pt s o). }
    split; [|split; [|reflexivity]].
    + apply Permutation_trans
        with (l' := map SpecAlerts.without_projection l1).
      { apply Permutation_map, Permutation_sym, sort_perm. }
      rewrite E. apply Permutation_map, sort_perm.
    + f_equal.
      rewrite <- (Permutation_length (sort_perm l1)),
        <- (Permutation_length (sort_perm l2)).
      rewrite <- (length_map SpecAlerts.without_projection l1), E.
      apply length_map.
Qed.

(** With a store that divides integers as integers, the widget is
    reported by both handlers, by the variant with no projection. *)
Lemma handlers_report_the_same_rows_witness :
  Permutation
    (map SpecAlerts.without_projection [Examples.widget_alert])
    (map SpecAlerts.without_projection
       [ExamplesAlerts.widget_alert_unprojected])
  /\ 1 = 1 /\ 200 = 200.
Proof.
  refine (proj2 (handlers_report_the_same_rows
                   ExamplesAlerts.integer_division Examples.db
                   Examples.now Examples.no_args 1 _)
            [Examples.widget_alert] 1 None 200
            [ExamplesAlerts.widget_alert_unprojected] 1 None 200 _ _).
  - intros x [<-|[]]. discriminate.
  - vm_compute. reflexivity.
  - vm_compute. reflexivity.
Defined.

(** ** Further properties of the alert handlers *)

(** The first handler answers 400 only for [days <= 0]: the branch
    [except ValueError] is never taken, since nothing in the [try]
    raises a [ValueError]. *)
Theorem bad_request_only_for_days :
  forall (db : DB) (now : Z) (args : Args) (company_id : Z) (body : Body),
    get_low_stock_alerts db now args company_id = (body, 400) ->
    arg_days args <= 0
    /\ body = ErrorBody "Days parameter must be positive" None.
Proof.
  intros db now args cid body. unfold get_low_stock_alerts.
  rewrite get_low_stock_alerts_try_eq.
  destruct (Sql.get Company.id (companies db) cid); [|discriminate].
  destruct (arg_days args <=? 0) eqn:D.
  { intros H. injection H as <-. apply Z.leb_le in D. now split. }
  destruct (sales_threshold_date now (arg_days args)) as [since|e] eqn:S;
    cbn [bind].
  2:{ apply sales_threshold_date_raises in S. subst e. discriminate. }
  destruct (Spec.fetched_alerts db since args cid) as [fetched|e] eqn:F;
    cbn [bind]; [discriminate|].
  unfold Spec.fetched_alerts in F.
  apply build_alerts_raises in F; [|intros it e'; apply alert_of_raises].
  destruct F as [-> | ->]; discriminate.
Qed.

Lemma bad_request_only_for_days_witness :
  0 <= 0 /\ ErrorBody "Days parameter must be positive" None
            = ErrorBody "Days parameter must be positive" None.
Proof.
  apply (bad_request_only_for_days Examples.db Examples.now
           {| days := Some 0; include_no_sales := None |} 1).
  vm_compute. reflexivity.
Defined.

(** Every alert either handler returns stands for a low-stock row of the
    company: a joined row at one of its warehouses whose quantity, the
    alert's [current_stock], is below the alert's [threshold]; and
    [total_alerts] is the number of alerts. *)
Theorem alerts_are_low_stock_rows :
  forall (db : DB) (now : Z) (args : Args) (company_id : Z)
         alerts n msg status,
    (get_low_stock_alerts db now args company_id
     = (AlertsBody alerts n msg, status)
     \/ exists sql_div,
          get_low_stock_alerts_optimized sql_div db now args company_id
          = (AlertsBody alerts n msg, status)) ->
    n = Z.of_nat (List.length alerts)
    /\ forall a, In a alerts ->
         current_stock a < threshold a
         /\ In (warehouse_id a) (Spec.company_warehouse_ids db company_id)
         /\ exists inv p w pt s,
              In (inv, p, w, pt, s) (Spec.company_items db company_id)
              /\ product_id a = Product.id p
              /\ warehouse_id a = Warehouse.id w
              /\ current_stock a = Inventory.quantity inv.
Proof.
  intros db now args cid alerts n msg status H.
  assert (Hrow : forall inv p w pt s,
            In (inv, p, w, pt, s) (Spec.company_items db cid) ->
            Inventory.quantity inv
            < Spec.effective_threshold (Inventory.low_stock_threshold inv) pt
            /\ In (Warehouse.id w) (Spec.company_warehouse_ids db cid)).
  { intros inv p w pt s Hit.
    pose proof (joined_inv db inv p w pt s
                  (low_stock_items_joined db _ _ Hit)) as (_ & _ & _ & _ & Iw).
    unfold Spec.company_items, low_stock_items in Hit.
    apply filter_In in Hit. destruct Hit as [_ Hlow].
    unfold is_low_stock in Hlow. apply andb_true_iff in Hlow.
    destruct Hlow as [Hw Hq]. rewrite low_stock_condition_holds in Hq.
    apply Z.ltb_lt in Hq. apply in_sql_in in Hw. rewrite <- Iw. now split. }
  destruct H as [H|[sql_div H]].
  - apply get_low_stock_alerts_inv in H.
    destruct H as (since & fetched & _ & F & -> & -> & _).
    split; [reflexivity|]. intros a Ha.
    apply (Permutation_in _ (Permutation_sym (sort_perm fetched))) in Ha.
    unfold Spec.fetched_alerts in F.
    apply (build_alerts_in _ _ _ a F) in Ha.
    destruct Ha as ([[[[inv p] w] pt] s] & Hit & Ha).
    apply alert_of_inv in Ha. destruct Ha as (? & ? & _ & _ & _ & ->).
    destruct (Hrow inv p w pt s Hit) as [Hq Hw]. cbn [current_stock
      threshold warehouse_id product_id].
    rewrite threshold_of_effective. split; [assumption|].
    split; [assumption|]. now exists inv, p, w, pt, s.
  - apply get_low_stock_alerts_optimized_inv in H.
    destruct H as (since & fetched & _ & F & -> & -> & _).
    split; [reflexivity|]. intros a Ha.
    apply (Permutation_in _ (Permutation_sym (sort_perm fetched))) in Ha.
    unfold Spec.fetched_alerts_optimized in F.
    apply (build_alerts_rows_in _ _ a F) in Ha.
    destruct Ha as (row & Hrow' & Ha).
    assert (Hq : In row (main_query db cid
                   (avg_daily_sales_subq sql_div db since (arg_days args)))).
    { unfold Spec.fetched_rows in Hrow'.
      destruct (negb (arg_include_no_sales args)); [|assumption].
      now apply filter_In in Hrow'. }
    apply main_query_rows in Hq.
    destruct Hq as (inv & p & w & pt & s & -> & Hit).
    pose proof (joined_inv db inv p w pt s
                  (low_stock_items_joined db _ _ Hit)) as (_ & _ & _ & _ & Iw).
    destruct (Hrow inv p w pt s Hit) as [Hq Hw].
    unfold alert_of_row in Ha.
    destruct (stockout_row _ _); cbn [bind] in Ha; [|discriminate].
    injection Ha as <-. cbn [current_stock threshold warehouse_id product_id].
    rewrite Iw. split; [|split; [assumption|now exists inv, p, w, pt, s]].
    rewrite <- coalesce3_effective in Hq. unfold Sql.coalesce3 in Hq.
    exact Hq.
Qed.

Lemma alerts_are_low_stock_rows_witness :
  1 = Z.of_nat (List.length [Examples.widget_alert])
  /\ forall a, In a [Examples.widget_alert] ->
       current_stock a < threshold a
       /\ In (warehouse_id a) (Spec.company_warehouse_ids Examples.db 1)
       /\ exists inv p w pt s,
            In (inv, p, w, pt, s) (Spec.company_items Examples.db 1)
            /\ product_id a = Product.id p
            /\ warehouse_id a = Warehouse.id w
            /\ current_stock a = Inventory.quantity inv.
Proof.
  apply (alerts_are_low_stock_rows Examples.db Examples.now Examples.no_args
           1 [Examples.widget_alert] 1 None 200).
  left. vm_compute. reflexivity.
Defined.


(** ** One alert per product and warehouse *)

Lemma filter_at_most_one {A : Type} (pk : A -> Z) (test : A -> bool)
  (rows : list A) :
  Schema.unique pk rows ->
  (forall a b, test a = true -> test b = true -> pk a = pk b) ->
  filter test rows = [] \/ exists r, filter test rows = [r].
Proof.
  unfold Schema.unique. intros Hn Ht.
  induction rows as [|x rows IH]; simpl; [now left|].
  simpl in Hn. inversion Hn as [|? ? Hx Hn']. subst.
  destruct (test x) eqn:Ex; [|now apply IH].
  right. exists x. f_equal. apply filter_nil_iff. intros y Hy.
  destruct (test y) eqn:Ey; [|reflexivity].
  exfalso. apply Hx. rewrite (Ht x y Ex Ey). now apply in_map.
Qed.

Lemma outerjoin_one {A : Type} (pk : A -> Z) (fk : option Z)
  (rows : list A) :
  Schema.unique pk rows ->
  exists o, Sql.outerjoin (fun r => Sql.fk_eq fk (pk r)) rows = [o].
Proof.
  intros Hn. unfold Sql.outerjoin.
  destruct (filter_at_most_one pk (fun r => Sql.fk_eq fk (pk r)) rows Hn)
    as [->|(r & ->)].
  - intros a b Ha Hb. unfold Sql.fk_eq in Ha, Hb.
    destruct fk; [|discriminate]. apply Z.eqb_eq in Ha, Hb. congruence.
  - now exists None.
  - now exists (Some r).
Qed.

Lemma joined_flat_map (db : DB) :
  joined db = flat_map (SpecAlerts.joined_to db) (inventory db).
Proof. reflexivity. Qed.

Lemma joined_to_pair (db : DB) inv it :
  In it (SpecAlerts.joined_to db inv) ->
  SpecAlerts.item_pair it
  = (Inventory.product_id inv, Inventory.warehouse_id inv).
Proof.
  intros H.
  assert (J : In it (joined {| companies := companies db;
                               warehouses := warehouses db;
                               suppliers := suppliers db;
                               product_types := product_types db;
                               products := products db;
                               inventory := [inv];
                               inventory_transactions := [];
                               sales := [] |})).
  { rewrite joined_flat_map. simpl. now rewrite app_nil_r. }
  destruct it as [[[[inv' p] w] pt] s]. apply joined_inv in J.
  destruct J as ([<-|[]] & _ & Ep & _ & Ew). simpl. congruence.
Qed.

(** With unique primary keys, the joins attach at most one row to an
    inventory row. *)
Lemma joined_at_most_one (db : DB) (inv : Inventory.t) :
  Schema.join_keys db ->
  SpecAlerts.joined_to db inv = []
  \/ exists it, SpecAlerts.joined_to db inv = [it].
Proof.
  intros (Kp & Kw & Kt & Ks). unfold SpecAlerts.joined_to, Sql.join.
  destruct (filter_at_most_one Product.id
              (fun p => Inventory.product_id inv =? Product.id p)
              (products db) Kp) as [->|(p & ->)].
  { intros a b Ha Hb. apply Z.eqb_eq in Ha, Hb. congruence. }
  { now left. }
  cbn [flat_map]. rewrite app_nil_r.
  destruct (filter_at_most_one Warehouse.id
              (fun w => Inventory.warehouse_id inv =? Warehouse.id w)
              (warehouses db) Kw) as [->|(w & ->)].
  { intros a b Ha Hb. apply Z.eqb_eq in Ha, Hb. congruence. }
  { now left. }
  cbn [flat_map]. rewrite app_nil_r.
  destruct (outerjoin_one ProductType.id (Product.product_type_id p)
              (product_types db) Kt) as (pt & ->).
  destruct (outerjoin_one Supplier.id (Product.supplier_id p)
              (suppliers db) Ks) as (s & ->).
  cbn [flat_map map app].
  right. now exists (inv, p, w, pt, s).
Qed.

(** With unique primary keys and one inventory row per product and
    warehouse, no two joined rows are about the same product and
    warehouse. *)
Lemma joined_unique (db : DB) :
  Schema.join_keys db -> Schema.uq_inventory_product_warehouse db ->
  Schema.unique SpecAlerts.item_pair (joined db).
Proof.
  intros K U. unfold Schema.uq_inventory_product_warehouse, Schema.unique
    in U.
  unfold Schema.unique. rewrite joined_flat_map.
  induction (inventory db) as [|inv l IH]; simpl; [constructor|].
  simpl in U. inversion U as [|? ? Hx Hn]. subst.
  specialize (IH Hn). rewrite map_app.
  pose proof (joined_to_pair db inv) as Hp.
  destruct (joined_at_most_one db inv K) as [->|(it & E)]; [exact IH|].
  rewrite E in Hp |- *. simpl.
  constructor; [|exact IH].
  intros Hi. apply in_map_iff in Hi. destruct Hi as (it' & Ep & Hi).
  apply in_flat_map in Hi. destruct Hi as (inv' & Hinv' & Hi).
  apply joined_to_pair in Hi.
  apply Hx. rewrite <- (Hp it (or_introl eq_refl)), <- Ep, Hi.
  apply (in_map (fun i => (Inventory.product_id i,
                           Inventory.warehouse_id i))).
  exact Hinv'.
Qed.

Lemma unique_filter {A K : Type} (key : A -> K) (test : A -> bool)
  (l : list A) :
  Schema.unique key l -> Schema.unique key (filter test l).
Proof.
  unfold Schema.unique. induction l as [|x l IH]; simpl; [trivial|].
  intros Hn. inversion Hn as [|? ? Hx Hn']. subst.
  destruct (test x); simpl; [|now apply IH].
  constructor; [|now apply IH].
  intros Hi. apply Hx. apply in_map_iff in Hi.
  destruct Hi as (y & E & Hy). apply filter_In in Hy.
  rewrite <- E. apply in_map. tauto.
Qed.

Lemma unique_map {A B K : Type} (g : A -> B) (key : B -> K) (l : list A) :
  Schema.unique (fun x => key (g x)) l -> Schema.unique key (map g l).
Proof. unfold Schema.unique. now rewrite map_map. Qed.

(** The loop of the first handler keeps the rows apart. *)
Lemma build_alerts_unique (f : Item -> res (option Alert)) items l :
  build_alerts f items = Ok l ->
  (forall it a, In it items -> f it = Ok (Some a) ->
                SpecAlerts.pair_of a = SpecAlerts.item_pair it) ->
  Schema.unique SpecAlerts.item_pair items ->
  Schema.unique SpecAlerts.pair_of l.
Proof.
  unfold Schema.unique. revert l.
  induction items as [|it items IH]; simpl; intros l H Hf Hn.
  - injection H as <-. constructor.
  - destruct (f it) as [o|] eqn:E; simpl in H; [|discriminate].
    destruct (build_alerts f items) as [l'|] eqn:B; simpl in H;
      [|discriminate].
    injection H as <-. inversion Hn as [|? ? Hx Hn']. subst.
    assert (IH' : NoDup (map SpecAlerts.pair_of l')).
    { apply IH; [reflexivity| |assumption].
      intros it' a Hi. apply Hf. now right. }
    destruct o as [a|]; [|exact IH']. simpl. constructor; [|exact IH'].
    intros Hi. apply in_map_iff in Hi. destruct Hi as (a' & Ea & Ha').
    apply (build_alerts_in _ _ _ a' B) in Ha'.
    destruct Ha' as (it' & Hit' & Fa').
    apply Hx. rewrite <- (Hf it a (or_introl eq_refl) E), <- Ea.
    rewrite (Hf it' a' (or_intror Hit') Fa'). now apply in_map.
Qed.

(** The loop of the variant keeps the rows apart. *)
Lemma build_alerts_rows_unique rows l :
  build_alerts_rows rows = Ok l ->
  (forall row a, In row rows -> alert_of_row row = Ok a ->
                 SpecAlerts.pair_of a = SpecAlerts.item_pair (fst row)) ->
  Schema.unique (fun row : Row => SpecAlerts.item_pair (fst row)) rows ->
  Schema.unique SpecAlerts.pair_of l.
Proof.
  unfold Schema.unique. revert l.
  induction rows as [|row rows IH]; simpl; intros l H Hf Hn.
  - injection H as <-. constructor.
  - destruct (alert_of_row row) as [a|] eqn:E; simpl in H; [|discriminate].
    destruct (build_alerts_rows rows) as [l'|] eqn:B; simpl in H;
      [|discriminate].
    injection H as <-. inversion Hn as [|? ? Hx Hn']. subst.
    assert (IH' : NoDup (map SpecAlerts.pair_of l')).
    { apply IH; [reflexivity| |assumption].
      intros row' a' Hi. apply Hf. now right. }
    simpl. constructor; [|exact IH'].
    intros Hi. apply in_map_iff in Hi. destruct Hi as (a' & Ea & Ha').
    apply (build_alerts_rows_in _ _ a' B) in Ha'.
    destruct Ha' as (row' & Hrow' & Fa').
    apply Hx. rewrite <- (Hf row a (or_introl eq_refl) E), <- Ea.
    rewrite (Hf row' a' (or_intror Hrow') Fa').
    now apply (in_map (fun r : Row => SpecAlerts.item_pair (fst r))).
Qed.

(** In a store whose primary keys are unique and that holds one
    inventory row per product and warehouse, as [models.py] constrains
    it, no alert list of either handler reports a product at a warehouse
    twice. *)
Theorem alerts_are_not_repeated :
  forall (db : DB) (now : Z) (args : Args) (company_id : Z)
         alerts n msg status,
    Schema.join_keys db ->
    Schema.uq_inventory_product_warehouse db ->
    (get_low_stock_alerts db now args company_id
     = (AlertsBody alerts n msg, status)
     \/ exists sql_div,
          get_low_stock_alerts_optimized sql_div db now args company_id
          = (AlertsBody alerts n msg, status)) ->
    Schema.unique SpecAlerts.pair_of alerts.
Proof.
  intros db now args cid alerts n msg status K U H.
  assert (Hitems : Schema.unique SpecAlerts.item_pair
                     (Spec.company_items db cid)).
  { unfold Spec.company_items, low_stock_items.
    apply unique_filter, joined_unique; assumption. }
  destruct H as [H|[sql_div H]].
  - apply get_low_stock_alerts_inv in H.
    destruct H as (since & fetched & _ & F & -> & _ & _).
    unfold Schema.unique.
    apply (Permutation_NoDup
             (Permutation_map SpecAlerts.pair_of (sort_perm fetched))).
    unfold Spec.fetched_alerts in F.
    apply (build_alerts_unique _ _ _ F); [|exact Hitems].
    intros [[[[inv p] w] pt] s] a _ Ha. apply alert_of_inv in Ha.
    destruct Ha as (? & ? & _ & _ & _ & ->). reflexivity.
  - apply get_low_stock_alerts_optimized_inv in H.
    destruct H as (since & fetched & _ & F & -> & _ & _).
    unfold Schema.unique.
    apply (Permutation_NoDup
             (Permutation_map SpecAlerts.pair_of (sort_perm fetched))).
    unfold Spec.fetched_alerts_optimized, Spec.fetched_rows in F.
    rewrite main_query_map in F.
    apply (build_alerts_rows_unique _ _ F).
    + intros [[[[[inv p] w] pt] s] avg] a Hrow Ha.
      assert (Hit : In (inv, p, w, pt, s) (Spec.company_items db cid)).
      { assert (Hm : In (inv, p, w, pt, s, avg)
                       (map (fun it => (it, Spec.avg_column sql_div db since
                                              (arg_days args) it))
                            (Spec.company_items db cid))).
        { destruct (negb (arg_include_no_sales args)); [|assumption].
          now apply filter_In in Hrow. }
        apply in_map_iff in Hm. destruct Hm as (it & E & Hit).
        injection E as -> _. exact Hit. }
      pose proof (joined_inv db inv p w pt s
                    (low_stock_items_joined db _ _ Hit))
        as (_ & _ & _ & _ & Iw).
      unfold alert_of_row in Ha.
      destruct (stockout_row _ _); cbn [bind] in Ha; [|discriminate].
      injection Ha as <-. unfold SpecAlerts.pair_of. simpl. now rewrite Iw.
    + assert (Hm : Schema.unique
                     (fun row : Row => SpecAlerts.item_pair (fst row))
                     (map (fun it => (it, Spec.avg_column sql_div db since
                                            (arg_days args) it))
                          (Spec.company_items db cid)))
        by (apply unique_map; exact Hitems).
      destruct (negb (arg_include_no_sales args)); [|exact Hm].
      now apply unique_filter.
Qed.

Lemma alerts_are_not_repeated_witness :
  Schema.unique SpecAlerts.pair_of
    [Examples.widget_alert; Examples.gadget_alert].
Proof.
  apply (alerts_are_not_repeated Examples.db Examples.now
           Examples.with_no_sales 1 _ 2 None 200).
  - unfold Schema.join_keys, Schema.unique. simpl.
    split; [|split; [|split]];
      repeat (constructor; [simpl; intros H|]); try constructor;
      repeat destruct H as [H|H]; try discriminate H; exact H.
  - unfold Schema.uq_inventory_product_warehouse, Schema.unique. simpl.
    repeat (constructor; [simpl; intros H|]); try constructor;
      repeat destruct H as [H|H]; try discriminate H; exact H.
  - left. vm_compute. reflexivity.
Defined.

(** ** Asking for the rows without sales *)

Lemma subsequence_refl {A : Type} (l : list A) : SpecAlerts.subsequence l l.
Proof. induction l; now constructor. Qed.

Lemma subsequence_In {A : Type} (l1 l2 : list A) (x : A) :
  SpecAlerts.subsequence l1 l2 -> In x l1 -> In x l2.
Proof.
  intros H. induction H as [|y l1 l2 H IH|y l1 l2 H IH]; simpl.
  - trivial.
  - intros [E|Hx]; [now left|right; now apply IH].
  - intros Hx. right. now apply IH.
Qed.

Lemma subsequence_length {A : Type} (l1 l2 : list A) :
  SpecAlerts.subsequence l1 l2 -> (List.length l1 <= List.length l2)%nat.
Proof. intros H. induction H; simpl; lia. Qed.

Lemma insert_front x l :
  (forall z, In z l -> Spec.key_le x z) -> insert x l = x :: l.
Proof.
  destruct l as [|y r]; simpl; [reflexivity|]. intros H.
  assert (E : key_ltb (sort_key y) (sort_key x) = false)
    by (apply key_ltb_false, H; now left).
  now rewrite E.
Qed.

Lemma subsequence_insert x s l :
  SpecAlerts.subsequence s l -> SpecAlerts.subsequence s (insert x l).
Proof.
  intros H. induction H as [|y s l H IH|y s l H IH]; simpl.
  - repeat constructor.
  - destruct (key_ltb (sort_key y) (sort_key x)); now repeat constructor.
  - destruct (key_ltb (sort_key y) (sort_key x)); now repeat constructor.
Qed.

Lemma insert_subsequence x s l :
  SpecAlerts.subsequence s l -> StronglySorted Spec.key_le l ->
  SpecAlerts.subsequence (insert x s) (insert x l).
Proof.
  intros H. induction H as [|y s l H IH|y s l H IH]; intros Hs.
  - repeat constructor.
  - inversion Hs as [|? ? Hl Hy]. subst. simpl.
    destruct (key_ltb (sort_key y) (sort_key x)); repeat constructor;
      auto.
  - inversion Hs as [|? ? Hl Hy]. subst. simpl.
    destruct (key_ltb (sort_key y) (sort_key x)) eqn:E.
    + constructor. now apply IH.
    + apply key_ltb_false in E. rewrite insert_front.
      * now repeat constructor.
      * intros z Hz. apply key_le_trans with y; [assumption|].
        rewrite Forall_forall in Hy. apply Hy.
        now apply (subsequence_In s l).
Qed.

(** The sort keeps an alert list inside a longer one. *)
Lemma sort_subsequence l1 l2 :
  SpecAlerts.subsequence l1 l2 ->
  SpecAlerts.subsequence (sort l1) (sort l2).
Proof.
  intros H. induction H as [|x l1 l2 H IH|x l1 l2 H IH]; simpl.
  - constructor.
  - apply insert_subsequence; [assumption|apply sort_sorted].
  - now apply subsequence_insert.
Qed.

Lemma alert_of_with_sales days incl subq inv p w pt s r :
  recent_sales_of subq p w = Some r ->
  alert_of days incl subq (inv, p, w, pt, s)
  = alert_of days true subq (inv, p, w, pt, s).
Proof. intros R. unfold alert_of. rewrite R. reflexivity. Qed.

Lemma alert_of_without_sales days subq inv p w pt s :
  recent_sales_of subq p w = None ->
  alert_of days false subq (inv, p, w, pt, s) = Ok None
  /\ exists a, alert_of days true subq (inv, p, w, pt, s) = Ok (Some a).
Proof.
  intros R. unfold alert_of. rewrite R. simpl. split; [reflexivity|].
  eexists. reflexivity.
Qed.

(** The loop of the first handler with and without the rows that have
    no sales. *)
Lemma build_alerts_include days subq items :
  match build_alerts (alert_of days true subq) items with
  | Ok l2 =>
      exists l1, build_alerts (alert_of days false subq) items = Ok l1
                 /\ SpecAlerts.subsequence l1 l2
  | Raise e => build_alerts (alert_of days false subq) items = Raise e
  end.
Proof.
  induction items as [|[[[[inv p] w] pt] s] items IH].
  - exists []. split; [reflexivity|constructor].
  - cbn [build_alerts].
    destruct (recent_sales_of subq p w) as [r|] eqn:R.
    + rewrite (alert_of_with_sales days false subq inv p w pt s r R).
      destruct (alert_of days true subq (inv, p, w, pt, s)) as [o|e];
        cbn [bind]; [|reflexivity].
      destruct (build_alerts (alert_of days true subq) items) as [l2|e];
        cbn [bind].
      * destruct IH as (l1 & -> & Hs). cbn [bind]. eexists.
        split; [reflexivity|]. destruct o; [now constructor|assumption].
      * now rewrite IH.
    + destruct (alert_of_without_sales days subq inv p w pt s R)
        as (-> & a & ->). cbn [bind].
      destruct (build_alerts (alert_of days true subq) items) as [l2|e];
        cbn [bind].
      * destruct IH as (l1 & -> & Hs). exists l1.
        split; [reflexivity|]. now constructor.
      * now rewrite IH.
Qed.

(** The loop of the variant with and without the rows that have no
    average. *)
Lemma build_alerts_rows_include rows :
  match build_alerts_rows rows with
  | Ok l2 =>
      exists l1, build_alerts_rows (filter has_avg rows) = Ok l1
                 /\ SpecAlerts.subsequence l1 l2
  | Raise e => build_alerts_rows (filter has_avg rows) = Raise e
  end.
Proof.
  induction rows as [|[it avg] rows IH].
  - exists []. split; [reflexivity|constructor].
  - cbn [build_alerts_rows filter]. destruct avg as [a|].
    + change (has_avg (it, Some a)) with true. cbn [build_alerts_rows].
      destruct (alert_of_row (it, Some a)) as [x|e]; cbn [bind];
        [|reflexivity].
      destruct (build_alerts_rows rows) as [l2|e]; cbn [bind].
      * destruct IH as (l1 & -> & Hs). cbn [bind]. eexists.
        split; [reflexivity|]. now constructor.
      * now rewrite IH.
    + change (has_avg (it, None)) with false. cbn iota.
      assert (E : exists x, alert_of_row (it, None) = Ok x)
        by (destruct it as [[[[inv p] w] pt] s]; eexists; reflexivity).
      destruct E as (x & ->). cbn [bind].
      destruct (build_alerts_rows rows) as [l2|e]; cbn [bind].
      * destruct IH as (l1 & -> & Hs). exists l1.
        split; [reflexivity|]. now constructor.
      * exact IH.
Qed.

(** Asking for the rows without sales only adds alerts. Two requests
    that differ in [include_no_sales] only get the same status and the
    same error, or two alert lists of which the one without such rows
    is the other with alerts left out: what it reports is reported in
    both, in the same order. *)
Theorem include_no_sales_only_adds :
  forall (db : DB) (now : Z) (args1 args2 : Args) (company_id : Z),
    arg_days args1 = arg_days args2 ->
    arg_include_no_sales args1 = false ->
    arg_include_no_sales args2 = true ->
    SpecAlerts.extends (get_low_stock_alerts db now args1 company_id)
                       (get_low_stock_alerts db now args2 company_id)
    /\ forall sql_div,
         SpecAlerts.extends
           (get_low_stock_alerts_optimized sql_div db now args1 company_id)
           (get_low_stock_alerts_optimized sql_div db now args2 company_id).
Proof.
  intros db now args1 args2 cid Ed E1 E2. split.
  - unfold get_low_stock_alerts, get_low_stock_alerts_try.
    rewrite Ed, E1, E2.
    destruct (Sql.get Company.id (companies db) cid);
      [|now repeat split].
    destruct (arg_days args2 <=? 0); [now repeat split|].
    destruct (sales_threshold_date now (arg_days args2)) as [since|e];
      simpl; [|destruct e; now repeat split].
    destruct (filter _ (warehouses db)) as [|w0 ws].
    { repeat split; [constructor|lia]. }
    destruct (low_stock_items db _) as [|it its].
    { repeat split; [constructor|lia]. }
    pose proof (build_alerts_include (arg_days args2)
                  (sales_subquery db since (product_ids_of (it :: its)))
                  (it :: its)) as H.
    destruct (build_alerts (alert_of (arg_days args2) true _) (it :: its))
      as [l2|e].
    + destruct H as (l1 & -> & Hs). simpl.
      apply sort_subsequence in Hs. repeat split; [assumption|].
      apply subsequence_length in Hs. lia.
    + rewrite H. destruct e; now repeat split.
  - intros sql_div.
    unfold get_low_stock_alerts_optimized,
      get_low_stock_alerts_optimized_try.
    rewrite Ed, E1, E2.
    destruct (Sql.get Company.id (companies db) cid);
      [|now repeat split].
    destruct (arg_days args2 <=? 0); [now repeat split|].
    destruct (sales_threshold_date now (arg_days args2)) as [since|e];
      simpl; [|now repeat split].
    pose proof (build_alerts_rows_include
                  (main_query db cid
                     (avg_daily_sales_subq sql_div db since
                        (arg_days args2)))) as H.
    destruct (build_alerts_rows (main_query _ _ _)) as [l2|e].
    + destruct H as (l1 & -> & Hs). simpl.
      apply sort_subsequence in Hs. repeat split; [assumption|].
      apply subsequence_length in Hs. lia.
    + rewrite H. now repeat split.
Qed.

Lemma include_no_sales_only_adds_witness :
  SpecAlerts.extends
    (get_low_stock_alerts Examples.db Examples.now Examples.no_args 1)
    (get_low_stock_alerts Examples.db Examples.now Examples.with_no_sales 1).
Proof.
  exact (proj1 (include_no_sales_only_adds Examples.db Examples.now
                  Examples.no_args Examples.with_no_sales 1
                  eq_refl eq_refl eq_refl)).
Defined.

(** ** Which rows are reported *)

Lemma build_alerts_ok (f : Item -> res (option Alert)) items l it :
  build_alerts f items = Ok l -> In it items -> exists o, f it = Ok o.
Proof.
  revert l. induction items as [|x items IH]; simpl; intros l H Hin.
  - destruct Hin.
  - destruct (f x) as [o|] eqn:E; simpl in H; [|discriminate].
    destruct (build_alerts f items) as [l'|]; simpl in H; [|discriminate].
    destruct Hin as [<-|Hin]; [now exists o|]. now apply (IH l').
Qed.

Lemma alert_of_none days incl subq inv p w pt s :
  alert_of days incl subq (inv, p, w, pt, s) = Ok None ->
  recent_sales_of subq p w = None /\ incl = false.
Proof.
  unfold alert_of.
  destruct (Sql.is_none (recent_sales_of subq p w) && negb incl) eqn:Skip.
  - intros _. apply andb_true_iff in Skip. destruct Skip as [Hr Hi].
    split; [now destruct (recent_sales_of subq p w)|now destruct incl].
  - destruct (average_daily_sales _ _); cbn [bind]; [|discriminate].
    destruct (stockout _ _); cbn [bind]; discriminate.
Qed.

(** The pairs the first handler reports: those of the low-stock rows of
    the company that have a sale in the window, and of all of them when
    [include_no_sales] is set. *)
Lemma reported_pairs (db : DB) (since : Z) (args : Args) (cid : Z)
  fetched pid wid :
  Spec.fetched_alerts db since args cid = Ok fetched ->
  (Spec.appears pid wid (sort fetched)
   <-> exists inv p w pt s,
         In (inv, p, w, pt, s) (Spec.company_items db cid)
         /\ Product.id p = pid /\ Warehouse.id w = wid
         /\ (Spec.window_sales db since pid wid <> []
             \/ arg_include_no_sales args = true)).
Proof.
  intros F. unfold Spec.fetched_alerts in F.
  set (subq := sales_subquery db since
                 (product_ids_of (Spec.company_items db cid))) in F.
  assert (Hr : forall inv p w pt s,
            In (inv, p, w, pt, s) (Spec.company_items db cid) ->
            recent_sales_of subq p w = None
            <-> Spec.window_sales db since (Product.id p) (Warehouse.id w)
                = []).
  { intros inv p w pt s Hit. unfold subq.
    rewrite recent_sales_of_subquery
      by (eapply in_product_ids_of; eassumption).
    destruct (Spec.window_sales db since (Product.id p) (Warehouse.id w));
      split; try reflexivity; discriminate. }
  split.
  - intros (a & Ha & <- & <-).
    apply (Permutation_in _ (Permutation_sym (sort_perm fetched))) in Ha.
    apply (build_alerts_in _ _ _ a F) in Ha.
    destruct Ha as ([[[[inv p] w] pt] s] & Hit & Ha).
    apply alert_of_inv in Ha. destruct Ha as (? & ? & _ & _ & Hincl & ->).
    exists inv, p, w, pt, s. cbn [product_id warehouse_id].
    split; [assumption|]. split; [reflexivity|]. split; [reflexivity|].
    destruct (Spec.window_sales db since (Product.id p) (Warehouse.id w))
      eqn:W; [|left; discriminate].
    right. apply Hincl. now apply (Hr inv p w pt s).
  - intros (inv & p & w & pt & s & Hit & <- & <- & Hc).
    destruct (build_alerts_ok _ _ _ _ F Hit) as ([a|] & Ha).
    + exists a. split.
      * apply (Permutation_in _ (sort_perm fetched)).
        apply (build_alerts_in _ _ _ a F). now exists (inv, p, w, pt, s).
      * apply alert_of_inv in Ha. destruct Ha as (? & ? & _ & _ & _ & ->).
        now split.
    + apply alert_of_none in Ha. destruct Ha as [Hn Hi].
      apply (Hr inv p w pt s Hit) in Hn.
      destruct Hc as [Hc|Hc]; [contradiction|congruence].
Qed.

Lemma build_alerts_rows_ok rows l row :
  build_alerts_rows rows = Ok l -> In row rows ->
  exists a, alert_of_row row = Ok a.
Proof.
  revert l. induction rows as [|x rows IH]; simpl; intros l H Hin.
  - destruct Hin.
  - destruct (alert_of_row x) as [a|] eqn:E; simpl in H; [|discriminate].
    destruct (build_alerts_rows rows) as [l'|]; simpl in H; [|discriminate].
    destruct Hin as [<-|Hin]; [now exists a|]. now apply (IH l').
Qed.

(** The pairs the variant reports. *)
Lemma reported_pairs_optimized (sql_div : Z -> Z -> num) (db : DB)
  (since : Z) (args : Args) (cid : Z) fetched pid wid :
  Spec.fetched_alerts_optimized sql_div db since args cid = Ok fetched ->
  (Spec.appears pid wid (sort fetched)
   <-> exists inv p w pt s,
         In (inv, p, w, pt, s) (Spec.company_items db cid)
         /\ Product.id p = pid /\ Warehouse.id w = wid
         /\ (Spec.window_sales db since pid wid <> []
             \/ arg_include_no_sales args = true)).
Proof.
  intros F. unfold Spec.fetched_alerts_optimized in F.
  assert (Hrows : forall row,
            In row (Spec.fetched_rows sql_div db since args cid)
            <-> exists inv p w pt s,
                  row = ((inv, p, w, pt, s),
                         Spec.avg_column sql_div db since (arg_days args)
                           (inv, p, w, pt, s))
                  /\ In (inv, p, w, pt, s) (Spec.company_items db cid)
                  /\ (Spec.window_sales db since (Product.id p)
                        (Warehouse.id w) <> []
                      \/ arg_include_no_sales args = true)).
  { intros row. unfold Spec.fetched_rows. rewrite main_query_map.
    assert (Hh : forall inv p w pt s,
              In (inv, p, w, pt, s) (Spec.company_items db cid) ->
              has_avg ((inv, p, w, pt, s),
                       Spec.avg_column sql_div db since (arg_days args)
                         (inv, p, w, pt, s)) = true
              <-> Spec.window_sales db since (Product.id p)
                    (Warehouse.id w) <> []).
    { intros inv p w pt s Hit.
      pose proof (joined_inv db inv p w pt s
                    (low_stock_items_joined db _ _ Hit))
        as (_ & _ & Ip & _ & Iw).
      unfold has_avg, Spec.avg_column. rewrite Ip, Iw. simpl.
      destruct (Spec.window_sales db since (Product.id p) (Warehouse.id w));
        simpl; split; congruence. }
    destruct (arg_include_no_sales args); simpl.
    - rewrite in_map_iff. split.
      + intros ([[[[inv p] w] pt] s] & <- & Hit).
        exists inv, p, w, pt, s. split; [reflexivity|]. split; auto.
      + intros (inv & p & w & pt & s & -> & Hit & _).
        now exists (inv, p, w, pt, s).
    - rewrite filter_In, in_map_iff. split.
      + intros (([[[[inv p] w] pt] s] & <- & Hit) & Hav).
        exists inv, p, w, pt, s. split; [reflexivity|].
        split; [assumption|]. left. now apply (Hh inv p w pt s Hit).
      + intros (inv & p & w & pt & s & -> & Hit & [Hc|Hc]);
          [|discriminate].
        split; [now exists (inv, p, w, pt, s)|].
        now apply (Hh inv p w pt s Hit). }
  split.
  - intros (a & Ha & <- & <-).
    apply (Permutation_in _ (Permutation_sym (sort_perm fetched))) in Ha.
    apply (build_alerts_rows_in _ _ a F) in Ha.
    destruct Ha as (row & Hrow & Ha). apply Hrows in Hrow.
    destruct Hrow as (inv & p & w & pt & s & -> & Hit & Hc).
    pose proof (joined_inv db inv p w pt s
                  (low_stock_items_joined db _ _ Hit))
      as (_ & _ & _ & _ & Iw).
    unfold alert_of_row in Ha.
    destruct (stockout_row _ _); cbn [bind] in Ha; [|discriminate].
    injection Ha as <-. cbn [product_id warehouse_id]. rewrite Iw.
    now exists inv, p, w, pt, s.
  - intros (inv & p & w & pt & s & Hit & <- & <- & Hc).
    pose proof (joined_inv db inv p w pt s
                  (low_stock_items_joined db _ _ Hit))
      as (_ & _ & _ & _ & Iw).
    assert (Hrow : In ((inv, p, w, pt, s),
                       Spec.avg_column sql_div db since (arg_days args)
                         (inv, p, w, pt, s))
                     (Spec.fetched_rows sql_div db since args cid)).
    { apply Hrows. now exists inv, p, w, pt, s. }
    destruct (build_alerts_rows_ok _ _ _ F Hrow) as (a & Ha).
    exists a. split.
    + apply (Permutation_in _ (sort_perm fetched)).
      apply (build_alerts_rows_in _ _ a F). eexists. split; eassumption.
    + unfold alert_of_row in Ha.
      destruct (stockout_row _ _); cbn [bind] in Ha; [|discriminate].
      injection Ha as <-. cbn [product_id warehouse_id]. now split.
Qed.

(** Which products a response reports. When a handler returns alerts
    for the window that starts at [since], a product is reported at a
    warehouse exactly when the company has a low-stock row for the two
    and either a sale of the product at the warehouse falls in the
    window or the query string carries [include_no_sales] with a text
    that is not empty, be the text "true" or "false". *)
Theorem reported_exactly :
  forall (db : DB) (now : Z) (args : Args) (company_id since : Z)
         alerts n msg status,
    sales_threshold_date now (arg_days args) = Ok since ->
    (get_low_stock_alerts db now args company_id
     = (AlertsBody alerts n msg, status)
     \/ exists sql_div,
          get_low_stock_alerts_optimized sql_div db now args company_id
          = (AlertsBody alerts n msg, status)) ->
    forall product warehouse,
      Spec.appears product warehouse alerts
      <-> exists inv p w pt s,
            In (inv, p, w, pt, s) (Spec.company_items db company_id)
            /\ Product.id p = product /\ Warehouse.id w = warehouse
            /\ (Spec.window_sales db since product warehouse <> []
                \/ SpecAlerts.flag_given args).
Proof.
  intros db now args cid since alerts n msg status Hs H pid wid.
  assert (Hparsed :
            Spec.appears pid wid alerts
            <-> exists inv p w pt s,
                  In (inv, p, w, pt, s) (Spec.company_items db cid)
                  /\ Product.id p = pid /\ Warehouse.id w = wid
                  /\ (Spec.window_sales db since pid wid <> []
                      \/ arg_include_no_sales args = true)).
  { destruct H as [H|[sql_div H]].
    - apply get_low_stock_alerts_inv in H.
      destruct H as (since' & fetched & S & F & -> & _ & _).
      rewrite Hs in S. injection S as <-. now apply reported_pairs.
    - apply get_low_stock_alerts_optimized_inv in H.
      destruct H as (since' & fetched & S & F & -> & _ & _).
      rewrite Hs in S. injection S as <-.
      now apply (reported_pairs_optimized sql_div). }
  rewrite Hparsed.
  split; intros (inv & p & w & pt & s & Hin & Ep & Ew & Hor);
    exists inv, p, w, pt, s; (split; [assumption|]);
    (split; [assumption|]); (split; [assumption|]);
    (destruct Hor as [Hw|Hf]; [now left|right]);
    now apply flag_given_iff.
Qed.

Lemma reported_exactly_witness :
  Spec.appears 2 2 [Examples.widget_alert; Examples.gadget_alert]
  <-> exists inv p w pt s,
        In (inv, p, w, pt, s) (Spec.company_items Examples.db 1)
        /\ Product.id p = 2 /\ Warehouse.id w = 2
        /\ (Spec.window_sales Examples.db
              (Examples.now - 30 * Examples.day) 2 2 <> []
            \/ SpecAlerts.flag_given ExamplesAlerts.false_flag).
Proof.
  apply (reported_exactly Examples.db Examples.now
           ExamplesAlerts.false_flag 1
           (Examples.now - 30 * Examples.day)
           [Examples.widget_alert; Examples.gadget_alert] 2 None 200).
  - reflexivity.
  - left. vm_compute. reflexivity.
Defined.

(** ** A longer window *)

Lemma window_sales_longer (db : DB) (since1 since2 pid wid : Z) :
  since2 <= since1 ->
  Spec.window_sales db since1 pid wid <> [] ->
  Spec.window_sales db since2 pid wid <> [].
Proof.
  intros Hle H E. apply H. unfold Spec.window_sales in *.
  rewrite filter_nil_iff in E |- *. intros x Hx. specialize (E x Hx).
  destruct (since1 <=? Sale.sale_date x) eqn:L; [|reflexivity].
  apply Z.leb_le in L.
  assert (L2 : (since2 <=? Sale.sale_date x) = true)
    by (apply Z.leb_le; lia).
  now rewrite L2 in E.
Qed.

(** A longer window loses no alert. Of two requests to the same handler
    that both return alerts, the second with at least as many [days]
    and with [include_no_sales] set if the first has it set, the second
    reports every product at every warehouse that the first reports. *)
Theorem longer_window_keeps_alerts :
  forall (db : DB) (now : Z) (args1 args2 : Args) (company_id : Z)
         alerts1 n1 msg1 status1 alerts2 n2 msg2 status2,
    arg_days args1 <= arg_days args2 ->
    (arg_include_no_sales args1 = true ->
     arg_include_no_sales args2 = true) ->
    (get_low_stock_alerts db now args1 company_id
     = (AlertsBody alerts1 n1 msg1, status1)
     /\ get_low_stock_alerts db now args2 company_id
        = (AlertsBody alerts2 n2 msg2, status2))
    \/ (exists sql_div,
          get_low_stock_alerts_optimized sql_div db now args1 company_id
          = (AlertsBody alerts1 n1 msg1, status1)
          /\ get_low_stock_alerts_optimized sql_div db now args2 company_id
             = (AlertsBody alerts2 n2 msg2, status2)) ->
    forall product warehouse,
      Spec.appears product warehouse alerts1 ->
      Spec.appears product warehouse alerts2.
Proof.
  intros db now args1 args2 cid alerts1 n1 msg1 status1 alerts2 n2 msg2
    status2 Hd Hi H pid wid Ha.
  assert (Hkeep : forall since1 since2,
            sales_threshold_date now (arg_days args1) = Ok since1 ->
            sales_threshold_date now (arg_days args2) = Ok since2 ->
            (exists inv p w pt s,
               In (inv, p, w, pt, s) (Spec.company_items db cid)
               /\ Product.id p = pid /\ Warehouse.id w = wid
               /\ (Spec.window_sales db since1 pid wid <> []
                   \/ arg_include_no_sales args1 = true)) ->
            exists inv p w pt s,
              In (inv, p, w, pt, s) (Spec.company_items db cid)
              /\ Product.id p = pid /\ Warehouse.id w = wid
              /\ (Spec.window_sales db since2 pid wid <> []
                  \/ arg_include_no_sales args2 = true)).
  { intros since1 since2 S1 S2 (inv & p & w & pt & s & Hit & Ep & Ew & Hc).
    exists inv, p, w, pt, s. repeat (split; [assumption|]).
    destruct Hc as [Hc|Hc]; [left|right; now apply Hi].
    apply sales_threshold_date_inv in S1, S2.
    destruct S1 as [-> _], S2 as [-> _].
    apply (window_sales_longer db
             (now - arg_days args1 * MICROSECONDS_PER_DAY)); [|assumption].
    unfold MICROSECONDS_PER_DAY. lia. }
  destruct H as [[H1 H2]|(sql_div & H1 & H2)].
  - apply get_low_stock_alerts_inv in H1, H2.
    destruct H1 as (since1 & fetched1 & S1 & F1 & -> & _ & _).
    destruct H2 as (since2 & fetched2 & S2 & F2 & -> & _ & _).
    apply (reported_pairs _ _ _ _ _ _ _ F2).
    apply (Hkeep since1 since2 S1 S2).
    now apply (reported_pairs _ _ _ _ _ _ _ F1).
  - apply get_low_stock_alerts_optimized_inv in H1, H2.
    destruct H1 as (since1 & fetched1 & S1 & F1 & -> & _ & _).
    destruct H2 as (since2 & fetched2 & S2 & F2 & -> & _ & _).
    apply (reported_pairs_optimized _ _ _ _ _ _ _ _ F2).
    apply (Hkeep since1 since2 S1 S2).
    now apply (reported_pairs_optimized _ _ _ _ _ _ _ _ F1).
Qed.

Lemma longer_window_keeps_alerts_witness :
  Spec.appears 1 1 [ExamplesAlerts.widget_alert_60].
Proof.
  apply (longer_window_keeps_alerts Examples.db Examples.now
           Examples.no_args ExamplesAlerts.sixty_days 1
           [Examples.widget_alert] 1 None 200
           [ExamplesAlerts.widget_alert_60] 1 None 200).
  - vm_compute. discriminate.
  - discriminate.
  - left. split; vm_compute; reflexivity.
  - exists Examples.widget_alert. split; [now left|split; reflexivity].
Defined.

(** ** The sign of a projection *)

Lemma int_of_float_nonneg x z :
  Spec.signed false x -> int_of_float x = Ok z -> 0 <= z.
Proof.
  destruct x as [s|s| |s m e]; simpl; try discriminate.
  - intros _ H. injection H as <-. lia.
  - intros -> H. injection H as <-. simpl. apply Z.shiftl_nonneg. lia.
Qed.

Lemma projection_nonneg q a d :
  0 <= q -> num_gt0 a = true ->
  (x <- int_div_num q a ;; d <- int_of_float x ;; Ok (Some d))
  = Ok (Some d) ->
  0 <= d.
Proof.
  intros Hq Ha H.
  destruct (int_div_num q a) as [x|] eqn:Ex; cbn [bind] in H;
    [|discriminate].
  destruct (int_of_float x) as [z|] eqn:Ez; cbn [bind] in H;
    [|discriminate].
  injection H as <-.
  apply (int_of_float_nonneg x z); [|assumption].
  now apply (int_div_num_signed q a x).
Qed.

Lemma stockout_nonneg q avg d :
  0 <= q -> stockout q avg = Ok (Some d) -> 0 <= d.
Proof.
  intros Hq. unfold stockout. destruct avg as [a|]; [|discriminate].
  destruct (float_gt0 a) eqn:Ha; [|discriminate].
  apply (projection_nonneg q (Float a) d Hq Ha).
Qed.

Lemma stockout_row_nonneg q avg d :
  0 <= q -> stockout_row q avg = Ok (Some d) -> 0 <= d.
Proof.
  intros Hq. unfold stockout_row. destruct avg as [a|]; [|discriminate].
  destruct (num_truthy a && num_gt0 a) eqn:Ha; [|discriminate].
  apply andb_true_iff in Ha. destruct Ha as [_ Ha].
  apply (projection_nonneg q a d Hq Ha).
Qed.

(** No projection is negative. In a store whose inventory quantities
    are not negative, as [models.py] constrains them, every
    [days_until_stockout] that an alert of either handler carries is at
    least zero. *)
Theorem projections_are_not_negative :
  forall (db : DB) (now : Z) (args : Args) (company_id : Z)
         alerts n msg status,
    Schema.check_quantity_non_negative db ->
    (get_low_stock_alerts db now args company_id
     = (AlertsBody alerts n msg, status)
     \/ exists sql_div,
          get_low_stock_alerts_optimized sql_div db now args company_id
          = (AlertsBody alerts n msg, status)) ->
    forall a d,
      In a alerts -> days_until_stockout a = Some d -> 0 <= d.
Proof.
  intros db now args cid alerts n msg status Hq H a d Ha Ed.
  unfold Schema.check_quantity_non_negative in Hq.
  rewrite Forall_forall in Hq.
  destruct H as [H|[sql_div H]].
  - apply get_low_stock_alerts_inv in H.
    destruct H as (since & fetched & _ & F & -> & _ & _).
    apply (Permutation_in _ (Permutation_sym (sort_perm fetched))) in Ha.
    unfold Spec.fetched_alerts in F.
    apply (build_alerts_in _ _ _ a F) in Ha.
    destruct Ha as ([[[[inv p] w] pt] s] & Hit & Ha).
    apply alert_of_inv in Ha. destruct Ha as (avg & d' & _ & Hd & _ & ->).
    cbn [days_until_stockout] in Ed. subst d'.
    apply (stockout_nonneg (Inventory.quantity inv) avg d); [|assumption].
    apply Hq.
    now apply (joined_inv db inv p w pt s
                 (low_stock_items_joined db _ _ Hit)).
  - apply get_low_stock_alerts_optimized_inv in H.
    destruct H as (since & fetched & _ & F & -> & _ & _).
    apply (Permutation_in _ (Permutation_sym (sort_perm fetched))) in Ha.
    unfold Spec.fetched_alerts_optimized in F.
    apply (build_alerts_rows_in _ _ a F) in Ha.
    destruct Ha as ([[[[[inv p] w] pt] s] avg] & Hrow & Ha).
    assert (Hit : In (inv, p, w, pt, s) (Spec.company_items db cid)).
    { unfold Spec.fetched_rows in Hrow. rewrite main_query_map in Hrow.
      assert (Hm : In (inv, p, w, pt, s, avg)
                     (map (fun it => (it, Spec.avg_column sql_div db since
                                            (arg_days args) it))
                          (Spec.company_items db cid))).
      { destruct (negb (arg_include_no_sales args)); [|assumption].
        now apply filter_In in Hrow. }
      apply in_map_iff in Hm. destruct Hm as (it & E & Hit).
      injection E as -> _. exact Hit. }
    unfold alert_of_row in Ha.
    destruct (stockout_row _ _) as [d'|] eqn:Hd; cbn [bind] in Ha;
      [|discriminate].
    injection Ha as <-. cbn [days_until_stockout] in Ed. subst d'.
    apply (stockout_row_nonneg (Inventory.quantity inv) avg d);
      [|assumption].
    apply Hq.
    now apply (joined_inv db inv p w pt s
                 (low_stock_items_joined db _ _ Hit)).
Qed.

Lemma projections_are_not_negative_witness : 0 <= 30.
Proof.
  apply (projections_are_not_negative Examples.db Examples.now
           Examples.no_args 1 [Examples.widget_alert] 1 None 200
         ) with (a := Examples.widget_alert).
  - unfold Schema.check_quantity_non_negative. simpl.
    repeat (constructor; [discriminate|]). constructor.
  - left. vm_compute. reflexivity.
  - now left.
  - reflexivity.
Defined.

(** ** What an alert shows *)

Lemma unique_inj {A K : Type} (key : A -> K) (rows : list A) (a b : A) :
  Schema.unique key rows -> In a rows -> In b rows -> key a = key b ->
  a = b.
Proof.
  unfold Schema.unique. induction rows as [|x rows IH]; simpl; [tauto|].
  intros Hn Ha Hb E. inversion Hn as [|? ? Hx Hn']. subst.
  destruct Ha as [->|Ha], Hb as [->|Hb].
  - reflexivity.
  - exfalso. apply Hx. rewrite E. now apply in_map.
  - exfalso. apply Hx. rewrite <- E. now apply in_map.
  - now apply IH.
Qed.

(** [Model.query.get] finds the row with the key. *)
Lemma get_unique {A : Type} (pk : A -> Z) (rows : list A) (r : A) :
  Schema.unique pk rows -> In r rows -> Sql.get pk rows (pk r) = Some r.
Proof.
  intros Hn Hr. unfold Sql.get.
  destruct (find (fun x => pk x =? pk r) rows) as [r'|] eqn:F.
  - apply find_some in F. destruct F as [Hr' E]. apply Z.eqb_eq in E.
    f_equal. now apply (unique_inj pk rows).
  - apply (find_none _ _ F) in Hr. rewrite Z.eqb_refl in Hr. discriminate.
Qed.

Lemma joined_supplier_key (db : DB) inv p w pt s :
  In (inv, p, w, pt, Some s) (joined db) ->
  Product.supplier_id p = Some (Supplier.id s).
Proof.
  unfold joined. rewrite in_flat_map.
  intros (inv' & Hi & H). rewrite in_flat_map in H.
  destruct H as (p' & Hp & H). rewrite in_flat_map in H.
  destruct H as (w' & Hw & H). rewrite in_flat_map in H.
  destruct H as (pt' & Hpt & H). rewrite in_map_iff in H.
  destruct H as (s' & E & Hs). injection E as -> -> -> -> ->.
  unfold Sql.outerjoin in Hs.
  destruct (filter _ (suppliers db)) as [|x l] eqn:F.
  - destruct Hs as [E|[]]. discriminate.
  - apply in_map_iff in Hs. destruct Hs as (y & E & Hy).
    injection E as ->. rewrite <- F in Hy. apply filter_In in Hy.
    destruct Hy as [_ Hy]. unfold Sql.fk_eq in Hy.
    destruct (Product.supplier_id p) as [k|]; [|discriminate].
    apply Z.eqb_eq in Hy. now subst.
Qed.

(** What a low-stock row of the company says about the store. *)
Lemma company_item_rows (db : DB) (cid : Z) inv p w pt s :
  Schema.join_keys db ->
  In (inv, p, w, pt, s) (Spec.company_items db cid) ->
  Sql.get Product.id (products db) (Product.id p) = Some p
  /\ Sql.get Warehouse.id (warehouses db) (Warehouse.id w) = Some w
  /\ Warehouse.company_id w = cid
  /\ Inventory.warehouse_id inv = Warehouse.id w
  /\ forall x, s = Some x ->
       Product.supplier_id p = Some (Supplier.id x)
       /\ Sql.get Supplier.id (suppliers db) (Supplier.id x) = Some x.
Proof.
  intros (Kp & Kw & _ & Ks) Hit.
  pose proof (low_stock_items_joined db _ _ Hit) as Hj.
  pose proof (joined_inv db inv p w pt s Hj) as (_ & Hp & _ & Hw & Iw).
  split; [now apply get_unique|]. split; [now apply get_unique|].
  split; [|split; [assumption|]].
  - unfold Spec.company_items, low_stock_items in Hit.
    apply filter_In in Hit. destruct Hit as [_ Hlow].
    unfold is_low_stock in Hlow. apply andb_true_iff in Hlow.
    destruct Hlow as [Hin _]. apply in_sql_in in Hin.
    unfold Spec.company_warehouse_ids in Hin. apply in_map_iff in Hin.
    destruct Hin as (w' & E & Hw'). apply filter_In in Hw'.
    destruct Hw' as [Hw' Ec]. apply Z.eqb_eq in Ec.
    assert (w' = w)
      by (apply (unique_inj Warehouse.id (warehouses db)); congruence).
    now subst.
  - intros x ->. split; [now apply (joined_supplier_key db inv p w pt)|].
    apply get_unique; [assumption|].
    now apply (joined_supplier db inv p w pt).
Qed.

(** An alert shows the rows its ids stand for. In a store with unique
    primary keys, for every alert of either handler: the product with
    the alert's [product_id] has the alert's name and SKU; the
    warehouse with its [warehouse_id] has the alert's warehouse name
    and belongs to the company; and a supplier the alert shows is the
    supplier the product refers to, with its id, name and e-mail. *)
Theorem alerts_show_the_rows :
  forall (db : DB) (now : Z) (args : Args) (company_id : Z)
         alerts n msg status,
    Schema.join_keys db ->
    (get_low_stock_alerts db now args company_id
     = (AlertsBody alerts n msg, status)
     \/ exists sql_div,
          get_low_stock_alerts_optimized sql_div db now args company_id
          = (AlertsBody alerts n msg, status)) ->
    forall a, In a alerts ->
      exists p w,
        Sql.get Product.id (products db) (product_id a) = Some p
        /\ product_name a = Product.name p /\ sku a = Product.sku p
        /\ Sql.get Warehouse.id (warehouses db) (warehouse_id a) = Some w
        /\ warehouse_name a = Warehouse.name w
        /\ Warehouse.company_id w = company_id
        /\ forall shown, supplier a = Some shown ->
             exists s,
               Product.supplier_id p = Some (id shown)
               /\ Sql.get Supplier.id (suppliers db) (id shown) = Some s
               /\ name shown = Supplier.name s
               /\ contact_email shown = Supplier.contact_email s.
Proof.
  intros db now args cid alerts n msg status K H a Ha.
  destruct H as [H|[sql_div H]].
  - apply get_low_stock_alerts_inv in H.
    destruct H as (since & fetched & _ & F & -> & _ & _).
    apply (Permutation_in _ (Permutation_sym (sort_perm fetched))) in Ha.
    unfold Spec.fetched_alerts in F.
    apply (build_alerts_in _ _ _ a F) in Ha.
    destruct Ha as ([[[[inv p] w] pt] s] & Hit & Ha).
    apply alert_of_inv in Ha. destruct Ha as (? & ? & _ & _ & _ & ->).
    destruct (company_item_rows db cid inv p w pt s K Hit)
      as (Gp & Gw & Ec & _ & Hs).
    exists p, w.
    cbn [product_id product_name sku warehouse_id warehouse_name supplier].
    repeat (split; [first [assumption|reflexivity]|]).
    intros shown E. destruct s as [sup|]; [|discriminate].
    injection E as <-. exists sup. cbn [id name contact_email].
    destruct (Hs sup eq_refl) as [Fk Gs]. now repeat split.
  - apply get_low_stock_alerts_optimized_inv in H.
    destruct H as (since & fetched & _ & F & -> & _ & _).
    apply (Permutation_in _ (Permutation_sym (sort_perm fetched))) in Ha.
    unfold Spec.fetched_alerts_optimized in F.
    apply (build_alerts_rows_in _ _ a F) in Ha.
    destruct Ha as ([[[[[inv p] w] pt] s] avg] & Hrow & Ha).
    assert (Hit : In (inv, p, w, pt, s) (Spec.company_items db cid)).
    { unfold Spec.fetched_rows in Hrow. rewrite main_query_map in Hrow.
      assert (Hm : In (inv, p, w, pt, s, avg)
                     (map (fun it => (it, Spec.avg_column sql_div db since
                                            (arg_days args) it))
                          (Spec.company_items db cid))).
      { destruct (negb (arg_include_no_sales args)); [|assumption].
        now apply filter_In in Hrow. }
      apply in_map_iff in Hm. destruct Hm as (it & E & Hit).
      injection E as -> _. exact Hit. }
    destruct (company_item_rows db cid inv p w pt s K Hit)
      as (Gp & Gw & Ec & Iw & Hs).
    unfold alert_of_row in Ha.
    destruct (stockout_row _ _); cbn [bind] in Ha; [|discriminate].
    injection Ha as <-. exists p, w.
    cbn [product_id product_name sku warehouse_id warehouse_name supplier].
    rewrite Iw.
    repeat (split; [first [assumption|reflexivity]|]).
    intros shown E. destruct s as [sup|]; [|discriminate].
    unfold supplier_info_row in E.
    destruct (Supplier.id sup =? 0); [discriminate|].
    injection E as <-. exists sup. cbn [id name contact_email].
    destruct (Hs sup eq_refl) as [Fk Gs]. now repeat split.
Qed.

Lemma alerts_show_the_rows_witness :
  exists p w,
    Sql.get Product.id (products Examples.db) 1 = Some p
    /\ "Widget" = Product.name p /\ "W-1" = Product.sku p
    /\ Sql.get Warehouse.id (warehouses Examples.db) 1 = Some w
    /\ "Main" = Warehouse.name w.
Proof.
  destruct (alerts_show_the_rows Examples.db Examples.now Examples.no_args 1
              [Examples.widget_alert] 1 None 200)
    with (a := Examples.widget_alert)
    as (p & w & Gp & En & Es & Gw & Ew & _).
  - unfold Schema.join_keys, Schema.unique. simpl.
    split; [|split; [|split]];
      repeat (constructor; [simpl; intros H|]); try constructor;
      repeat destruct H as [H|H]; try discriminate H; exact H.
  - left. vm_compute. reflexivity.
  - now left.
  - exists p, w. now repeat split.
Defined.

(** ** Sales outside the window *)

Lemma filter_and {A : Type} (f g : A -> bool) (l : list A) :
  filter (fun x => f x && g x) l = filter g (filter f l).
Proof.
  induction l as [|x l IH]; simpl; [reflexivity|].
  destruct (f x); simpl; [|exact IH]. destruct (g x); now rewrite IH.
Qed.

Lemma sales_subquery_window (db : DB) (since : Z) (pids : list Z)
  (l1 l2 : list Sale.t) :
  SpecAlerts.in_window since l1 = SpecAlerts.in_window since l2 ->
  sales_subquery (SpecAlerts.with_sales db l1) since pids
  = sales_subquery (SpecAlerts.with_sales db l2) since pids.
Proof.
  intros E. unfold sales_subquery. cbn [SpecAlerts.with_sales sales].
  rewrite !(filter_and (fun s => since <=? Sale.sale_date s)
              (fun s => Sql.in_ (Sale.product_id s) pids)).
  unfold SpecAlerts.in_window in E. now rewrite E.
Qed.

Lemma avg_daily_sales_subq_window (sql_div : Z -> Z -> num) (db : DB)
  (since days : Z) (l1 l2 : list Sale.t) :
  SpecAlerts.in_window since l1 = SpecAlerts.in_window since l2 ->
  avg_daily_sales_subq sql_div (SpecAlerts.with_sales db l1) since days
  = avg_daily_sales_subq sql_div (SpecAlerts.with_sales db l2) since days.
Proof.
  intros E. unfold avg_daily_sales_subq. cbn [SpecAlerts.with_sales sales].
  unfold SpecAlerts.in_window in E. now rewrite E.
Qed.

(** Only the sales in the window count. Two stores that differ in their
    sales only, and not in the sales whose timestamp is in the window
    of the request, get the same response from either handler: what was
    sold before the window has no influence. *)
Theorem only_window_sales_matter :
  forall (db : DB) (now : Z) (args : Args) (company_id since : Z)
         (l1 l2 : list Sale.t),
    sales_threshold_date now (arg_days args) = Ok since ->
    SpecAlerts.in_window since l1 = SpecAlerts.in_window since l2 ->
    get_low_stock_alerts (SpecAlerts.with_sales db l1) now args company_id
    = get_low_stock_alerts (SpecAlerts.with_sales db l2) now args company_id
    /\ forall sql_div,
         get_low_stock_alerts_optimized sql_div
           (SpecAlerts.with_sales db l1) now args company_id
         = get_low_stock_alerts_optimized sql_div
             (SpecAlerts.with_sales db l2) now args company_id.
Proof.
  intros db now args cid since l1 l2 Hs E. split.
  - unfold get_low_stock_alerts, get_low_stock_alerts_try.
    rewrite Hs. cbn [bind].
    change (companies (SpecAlerts.with_sales db l1)) with (companies db).
    change (companies (SpecAlerts.with_sales db l2)) with (companies db).
    change (warehouses (SpecAlerts.with_sales db l1)) with (warehouses db).
    change (warehouses (SpecAlerts.with_sales db l2)) with (warehouses db).
    destruct (Sql.get Company.id (companies db) cid); [|reflexivity].
    destruct (arg_days args <=? 0); [reflexivity|].
    destruct (filter _ (warehouses db)) as [|w0 ws]; [reflexivity|].
    change (low_stock_items (SpecAlerts.with_sales db l1))
      with (low_stock_items db).
    change (low_stock_items (SpecAlerts.with_sales db l2))
      with (low_stock_items db).
    destruct (low_stock_items db _) as [|it its]; [reflexivity|].
    now rewrite (sales_subquery_window db since _ l1 l2 E).
  - intros sql_div.
    unfold get_low_stock_alerts_optimized,
      get_low_stock_alerts_optimized_try.
    rewrite Hs. cbn [bind].
    change (companies (SpecAlerts.with_sales db l1)) with (companies db).
    change (companies (SpecAlerts.with_sales db l2)) with (companies db).
    destruct (Sql.get Company.id (companies db) cid); [|reflexivity].
    destruct (arg_days args <=? 0); [reflexivity|].
    rewrite (avg_daily_sales_subq_window sql_div db since _ l1 l2 E).
    reflexivity.
Qed.

Lemma only_window_sales_matter_witness :
  get_low_stock_alerts
    (SpecAlerts.with_sales Examples.db
       (Examples.sale 5 1 1 1000 0 :: sales Examples.db))
    Examples.now Examples.no_args 1
  = get_low_stock_alerts (SpecAlerts.with_sales Examples.db
                            (sales Examples.db))
      Examples.now Examples.no_args 1.
Proof.
  exact (proj1 (only_window_sales_matter Examples.db Examples.now
                  Examples.no_args 1 (Examples.now - 30 * Examples.day)
                  (Examples.sale 5 1 1 1000 0 :: sales Examples.db)
                  (sales Examples.db) eq_refl eq_refl)).
Defined.

(** ** Quotients that stay in range

    Bounds on the magnitude of a float, the number of binary digits of
    its mantissa plus its exponent, through the division of
    [SpecFloat]. *)

Lemma fexp_eq k : fexp prec emax k = Z.max (k - 53) (-1074).
Proof. reflexivity. Qed.

Lemma digits2_pos_size p : digits2_pos p = Pos.size p.
Proof. induction p; simpl; congruence. Qed.

(** A positive number lies between the powers of two its length gives. *)
Lemma Zdigits2_bounds p :
  2 ^ (Zdigits2 (Zpos p) - 1) <= Zpos p < 2 ^ Zdigits2 (Zpos p).
Proof.
  cbn [Zdigits2]. rewrite digits2_pos_size.
  pose proof (Pos.size_gt p) as G. pose proof (Pos.size_le p) as L.
  apply Pos2Z.pos_lt_pos in G. apply Pos2Z.pos_le_pos in L.
  rewrite Pos2Z.inj_pow in G, L. split; [|exact G].
  replace (Z.pos (Pos.size p)) with (Z.succ (Z.pos (Pos.size p) - 1)) in L
    by lia.
  rewrite Z.pow_succ_r in L by lia. lia.
Qed.

Lemma Zdigits2_pos p : 0 < Zdigits2 (Zpos p).
Proof. simpl. lia. Qed.

Lemma Zdigits2_le m k : 0 <= k -> 0 <= m < 2 ^ k -> Zdigits2 m <= k.
Proof.
  intros Hk [H0 H]. destruct m as [|p|p]; [simpl; lia| |lia].
  pose proof (Zdigits2_bounds p) as [L _].
  destruct (Z_le_gt_dec (Zdigits2 (Zpos p)) k) as [|G]; [assumption|].
  exfalso.
  assert (2 ^ k <= 2 ^ (Zdigits2 (Z.pos p) - 1))
    by (apply Z.pow_le_mono_r; lia).
  lia.
Qed.

Lemma Zdigits2_gt m k : 0 <= k -> 2 ^ k <= m -> k < Zdigits2 m.
Proof.
  intros Hk H. assert (0 < 2 ^ k) by (apply Z.pow_pos_nonneg; lia).
  destruct m as [|p|p]; [lia| |lia].
  pose proof (Zdigits2_bounds p) as [_ U].
  destruct (Z_lt_ge_dec k (Zdigits2 (Zpos p))) as [|G]; [assumption|].
  exfalso.
  assert (2 ^ Zdigits2 (Z.pos p) <= 2 ^ k)
    by (apply Z.pow_le_mono_r; lia).
  lia.
Qed.

Lemma Zdigits2_nonneg m : 0 <= Zdigits2 m.
Proof. destruct m; simpl; lia. Qed.

(** The length of a quotient by a power of two. *)
Lemma Zdigits2_div_pow2 m n :
  0 < m -> 0 <= n < Zdigits2 m ->
  0 < m / 2 ^ n /\ Zdigits2 (m / 2 ^ n) = Zdigits2 m - n.
Proof.
  intros Hm [Hn Hd]. destruct m as [|p|p]; try lia.
  pose proof (Zdigits2_bounds p) as [L U].
  set (d := Zdigits2 (Zpos p)) in *.
  assert (P : 0 < 2 ^ n) by (apply Z.pow_pos_nonneg; lia).
  assert (L' : 2 ^ (d - 1 - n) <= Zpos p / 2 ^ n).
  { apply Z.div_le_lower_bound; [assumption|].
    rewrite <- Z.pow_add_r by lia.
    now replace (n + (d - 1 - n)) with (d - 1) by lia. }
  assert (U' : Zpos p / 2 ^ n < 2 ^ (d - n)).
  { apply Z.div_lt_upper_bound; [assumption|].
    rewrite <- Z.pow_add_r by lia. now replace (n + (d - n)) with d by lia. }
  assert (P' : 0 < 2 ^ (d - 1 - n)) by (apply Z.pow_pos_nonneg; lia).
  split; [lia|].
  apply Z.le_antisymm.
  - apply Zdigits2_le; lia.
  - pose proof (Zdigits2_gt (Zpos p / 2 ^ n) (d - 1 - n)). lia.
Qed.

Lemma shr_1_half mrs : 0 <= shr_m mrs -> shr_m (shr_1 mrs) = shr_m mrs / 2.
Proof.
  destruct mrs as [m r s]. simpl. intros H. rewrite <- Z.div2_div.
  destruct m as [|[p|p|]|p]; try reflexivity. lia.
Qed.

Lemma iter_shr_1_div p mrs :
  0 <= shr_m mrs -> shr_m (iter_pos shr_1 p mrs) = shr_m mrs / 2 ^ Zpos p.
Proof.
  revert mrs. induction p as [p IH|p IH|]; intros mrs H; cbn [iter_pos].
  - assert (E : 2 ^ Zpos p~1 = 2 * (2 ^ Zpos p * 2 ^ Zpos p)).
    { rewrite <- Z.pow_add_r, <- Z.pow_succ_r by lia. f_equal. lia. }
    rewrite IH by (apply iter_shr_1_nonneg; now apply shr_1_nonneg).
    rewrite IH by now apply shr_1_nonneg.
    rewrite shr_1_half by assumption. rewrite E.
    assert (P : 0 < 2 ^ Zpos p) by (apply Z.pow_pos_nonneg; lia).
    rewrite !Z.div_div by lia. reflexivity.
  - assert (E : 2 ^ Zpos p~0 = 2 ^ Zpos p * 2 ^ Zpos p).
    { rewrite <- Z.pow_add_r by lia. f_equal. lia. }
    rewrite IH by now apply iter_shr_1_nonneg.
    rewrite IH by assumption. rewrite E.
    assert (P : 0 < 2 ^ Zpos p) by (apply Z.pow_pos_nonneg; lia).
    rewrite Z.div_div by lia. reflexivity.
  - rewrite shr_1_half by assumption. reflexivity.
Qed.

(** What the shift to the format's exponent does to a positive
    mantissa that is not too small. *)
Lemma shr_fexp_spec m e l :
  0 < m -> -1073 <= Zdigits2 m + e ->
  let r := shr_fexp prec emax m e l in
  0 < shr_m (fst r)
  /\ Zdigits2 (shr_m (fst r)) + snd r = Zdigits2 m + e
  /\ snd r = Z.max e (fexp prec emax (Zdigits2 m + e))
  /\ Zdigits2 (shr_m (fst r)) <= 53.
Proof.
  intros Hm Hmag. cbv zeta. unfold shr_fexp, shr. rewrite fexp_eq.
  assert (Hd : 0 < Zdigits2 m) by (destruct m; simpl; lia).
  assert (H0 : shr_m (shr_record_of_loc m l) = m)
    by (destruct l as [|[| |]]; reflexivity).
  destruct (Z.max (Zdigits2 m + e - 53) (-1074) - e) as [|n|n] eqn:N;
    cbn [fst snd].
  - rewrite H0. repeat split; lia.
  - rewrite iter_shr_1_div by lia. rewrite H0.
    destruct (Zdigits2_div_pow2 m (Zpos n)) as [P D]; [lia|lia|].
    rewrite D. repeat split; lia.
  - rewrite H0. repeat split; lia.
Qed.

Lemma round_nearest_even_bounds m l :
  m <= round_nearest_even m l <= m + 1.
Proof.
  destruct l as [|[| |]]; simpl; try lia. destruct (Z.even m); lia.
Qed.

(** Rounding a positive mantissa that is neither too small nor too
    large gives a finite number of about the same magnitude. *)
Lemma binary_round_aux_finite s m e l :
  0 < m -> e <= 971 -> -1073 <= Zdigits2 m + e <= 1023 ->
  exists m' e',
    binary_round_aux prec emax s m e l = S754_finite s m' e'
    /\ Zdigits2 m + e <= Zdigits2 (Zpos m') + e' <= Zdigits2 m + e + 1.
Proof.
  intros Hm He Hmag. unfold binary_round_aux.
  pose proof (shr_fexp_spec m e l Hm (proj1 Hmag)) as H1. cbv zeta in H1.
  destruct (shr_fexp prec emax m e l) as [mrs e1]. cbn [fst snd] in H1.
  destruct H1 as (P1 & M1 & E1 & D1). rewrite fexp_eq in E1.
  pose proof (round_nearest_even_bounds (shr_m mrs) (loc_of_shr_record mrs))
    as R.
  set (m2 := round_nearest_even (shr_m mrs) (loc_of_shr_record mrs)) in *.
  assert (D2 : Zdigits2 (shr_m mrs) <= Zdigits2 m2
               <= Zdigits2 (shr_m mrs) + 1).
  { destruct (shr_m mrs) as [|p|p] eqn:Em; try lia.
    pose proof (Zdigits2_bounds p) as [L U]. split.
    - pose proof (Zdigits2_gt m2 (Zdigits2 (Zpos p) - 1)).
      pose proof (Zdigits2_pos p). lia.
    - apply Zdigits2_le; [pose proof (Zdigits2_pos p); lia|].
      rewrite Z.pow_add_r by (pose proof (Zdigits2_pos p); lia).
      change (2 ^ 1) with 2. lia. }
  pose proof (shr_fexp_spec m2 e1 loc_Exact) as H2. cbv zeta in H2.
  destruct (shr_fexp prec emax m2 e1 loc_Exact) as [mrs' e2].
  cbn [fst snd] in H2.
  destruct H2 as (P2 & M2 & E2 & _); [lia|lia|]. rewrite fexp_eq in E2.
  destruct (shr_m mrs') as [|m'|] eqn:Em'; try lia.
  exists m', e2.
  assert (Le : (e2 <=? emax - prec) = true).
  { apply Z.leb_le. change (emax - prec) with 971. lia. }
  rewrite Le. split; [reflexivity|]. lia.
Qed.

(** The quotient the division computes before it rounds. *)
Lemma SFdiv_core_spec m1 e1 m2 e2 :
  let D := Zdigits2 (Zpos m1) + e1 - (Zdigits2 (Zpos m2) + e2) in
  -1073 <= D ->
  let r := SFdiv_core_binary prec emax (Zpos m1) e1 (Zpos m2) e2 in
  0 < fst (fst r)
  /\ snd (fst r) <= fexp prec emax D
  /\ D <= Zdigits2 (fst (fst r)) + snd (fst r) <= D + 1.
Proof.
  cbv zeta. intros HD. unfold SFdiv_core_binary.
  pose proof (Zdigits2_bounds m1) as [L1 U1].
  pose proof (Zdigits2_bounds m2) as [L2 U2].
  pose proof (Zdigits2_pos m1) as P1. pose proof (Zdigits2_pos m2) as P2.
  set (d1 := Zdigits2 (Zpos m1)) in *. set (d2 := Zdigits2 (Zpos m2)) in *.
  rewrite fexp_eq.
  set (e' := Z.min (Z.max (d1 + e1 - (d2 + e2) - 53) (-1074)) (e1 - e2)).
  set (s := e1 - e2 - e').
  assert (Hs : 0 <= s) by (unfold s, e'; lia).
  set (m' := match s with
             | 0 => Zpos m1
             | Zpos _ => Z.shiftl (Zpos m1) s
             | Zneg _ => 0
             end).
  assert (Em : m' = Zpos m1 * 2 ^ s).
  { unfold m'. destruct s as [|p|p] eqn:Es; [simpl; lia| |lia].
    now rewrite Z.shiftl_mul_pow2 by lia. }
  pose proof (Z_div_mod m' (Zpos m2) eq_refl) as Hq.
  destruct (Z.div_eucl m' (Zpos m2)) as [q r]. cbn [fst snd].
  destruct Hq as [Eq Hr].
  set (k := d1 - 1 + s - d2).
  assert (Hk : 0 <= k) by (unfold k, s, e'; lia).
  assert (Ps : 0 < 2 ^ s) by (apply Z.pow_pos_nonneg; lia).
  assert (Pk : 0 < 2 ^ k) by (apply Z.pow_pos_nonneg; lia).
  assert (Lm : 2 ^ k * 2 ^ d2 <= m').
  { rewrite <- Z.pow_add_r by lia. replace (k + d2) with (d1 - 1 + s)
      by (unfold k; lia).
    rewrite Z.pow_add_r by lia. rewrite Em. nia. }
  assert (Um : m' < 2 ^ (k + 2) * 2 ^ (d2 - 1)).
  { rewrite <- Z.pow_add_r by lia. replace (k + 2 + (d2 - 1)) with (d1 + s)
      by (unfold k; lia).
    rewrite Z.pow_add_r by lia. rewrite Em. nia. }
  assert (Pk2 : 0 < 2 ^ (k + 2)) by (apply Z.pow_pos_nonneg; lia).
  assert (Lq : 2 ^ k <= q) by nia.
  assert (Uq : q < 2 ^ (k + 2)) by nia.
  split; [lia|]. split; [apply Z.le_min_l|].
  pose proof (Zdigits2_gt q k Hk Lq).
  pose proof (Zdigits2_le q (k + 2)).
  unfold k, s in *. lia.
Qed.

(** The quotient of two positive floats whose magnitudes are not too
    far apart is a positive float. *)
Lemma SFdiv_finite mx ex my ey :
  let D := Zdigits2 (Zpos mx) + ex - (Zdigits2 (Zpos my) + ey) in
  -1073 <= D <= 1022 ->
  exists m e,
    SFdiv prec emax (S754_finite false mx ex) (S754_finite false my ey)
    = S754_finite false m e
    /\ D <= Zdigits2 (Zpos m) + e <= D + 2.
Proof.
  cbv zeta. intros HD. cbn [SFdiv xorb].
  pose proof (SFdiv_core_spec mx ex my ey (proj1 HD)) as H.
  cbv zeta in H.
  destruct (SFdiv_core_binary prec emax (Zpos mx) ex (Zpos my) ey)
    as [[q e'] l]. cbn [fst snd] in H. destruct H as (Hq & He & Hm).
  rewrite fexp_eq in He.
  destruct (binary_round_aux_finite false q e' l) as (m & e & -> & Hb);
    [assumption|lia|lia|].
  exists m, e. split; [reflexivity|lia].
Qed.

Lemma digits2_pos_iter_xO p d :
  Zpos (digits2_pos (Pos.iter xO p d)) = Zpos (digits2_pos p) + Zpos d.
Proof.
  induction d as [|d IH] using Pos.peano_ind.
  - simpl. lia.
  - rewrite Pos.iter_succ. cbn [digits2_pos]. lia.
Qed.

Lemma shl_align_spec mx ex ex' :
  Zdigits2 (Zpos (fst (shl_align mx ex ex'))) + snd (shl_align mx ex ex')
  = Zdigits2 (Zpos mx) + ex
  /\ snd (shl_align mx ex ex') <= ex.
Proof.
  unfold shl_align. destruct (ex' - ex) as [|d|d] eqn:E; cbn [fst snd].
  - split; lia.
  - split; lia.
  - cbn [Zdigits2]. rewrite digits2_pos_iter_xO. split; lia.
Qed.

(** An [int] below 2^63 converts to a float of its magnitude. *)
Lemma float_of_int_finite q :
  0 < q < 2 ^ 63 ->
  exists m e,
    float_of_int q = Ok (S754_finite false m e)
    /\ 1 <= Zdigits2 (Zpos m) + e <= 64.
Proof.
  intros [H0 H]. destruct q as [|p|p]; try lia.
  unfold float_of_int. cbn [binary_normalize]. unfold binary_round.
  pose proof (shl_align_spec p 0
                (fexp prec emax (Zpos (digits2_pos p) + 0))) as [Hm He].
  destruct (shl_align p 0 _) as [mz ez]. cbn [fst snd] in Hm, He.
  pose proof (Zdigits2_le (Zpos p) 63). pose proof (Zdigits2_pos p).
  destruct (binary_round_aux_finite false (Zpos mz) ez loc_Exact)
    as (m & e & -> & Hb); [lia|lia|lia|].
  exists m, e. split; [reflexivity|lia].
Qed.

(** The average of a positive total over a positive number of days, both
    in range, is a positive float. *)
Lemma int_truediv_finite t d :
  0 < t < 2 ^ 63 -> 0 < d < 2 ^ 30 ->
  exists m e,
    int_truediv t d = Ok (S754_finite false m e)
    /\ -30 <= Zdigits2 (Zpos m) + e <= 65.
Proof.
  intros [Ht0 Ht] [Hd0 Hd]. unfold int_truediv.
  destruct (d =? 0) eqn:Z; [apply Z.eqb_eq in Z; lia|].
  destruct t as [|p|p]; try lia. destruct d as [|p'|p']; try lia.
  cbn [exact_of_int].
  pose proof (Zdigits2_le (Zpos p) 63). pose proof (Zdigits2_pos p).
  pose proof (Zdigits2_le (Zpos p') 30). pose proof (Zdigits2_pos p').
  destruct (SFdiv_finite p 0 p' 0) as (m & e & -> & Hb); [lia|].
  exists m, e. split; [reflexivity|lia].
Qed.

(** With a stock, a total and a number of days in range, the
    projection is computed. *)
Lemma stockout_present q t d :
  0 <= q < 2 ^ 63 -> 0 < t < 2 ^ 63 -> 0 < d < 2 ^ 30 ->
  exists a z, int_truediv t d = Ok a
              /\ stockout q (Some a) = Ok (Some z).
Proof.
  intros [Hq0 Hq] Ht Hd.
  destruct (int_truediv_finite t d Ht Hd) as (m & e & Ea & Ha).
  exists (S754_finite false m e). unfold stockout.
  change (float_gt0 (S754_finite false m e)) with true. cbn iota.
  unfold int_div_float, float_truediv.
  change (float_is_zero (S754_finite false m e)) with false. cbn iota.
  destruct (Z.eq_dec q 0) as [->|Nq].
  - exists 0. split; [assumption|]. reflexivity.
  - destruct (float_of_int_finite q) as (mq & eq & -> & Hmq); [lia|].
    cbn [bind].
    destruct (SFdiv_finite mq eq m e) as (mx & ex & -> & Hx); [lia|].
    cbn [int_of_float bind]. eexists. split; [assumption|reflexivity].
Qed.

(** ** The projection, in full *)



(** ** When the alerts are computed *)

Lemma total_quantity_filter (f : Sale.t -> bool) (l : list Sale.t) :
  Forall (fun s => 0 < Sale.quantity s) l ->
  Spec.total_quantity (filter f l) <= Spec.total_quantity l
  /\ (filter f l <> [] -> 0 < Spec.total_quantity (filter f l)).
Proof.
  unfold Spec.total_quantity. intros H.
  induction H as [|x l Hx Hl [IH1 IH2]]; simpl.
  - split; [lia|congruence].
  - assert (N : 0 <= fold_right Z.add 0 (map Sale.quantity (filter f l))).
    { destruct (filter f l) eqn:E; [simpl; lia|].
      assert (0 < fold_right Z.add 0 (map Sale.quantity (t :: l0)))
        by (apply IH2; discriminate).
      lia. }
    destruct (f x); simpl; (split; [lia|]); [intros _; lia|exact IH2].
Qed.

Lemma build_alerts_total (f : Item -> res (option Alert)) items :
  (forall it, In it items -> exists o, f it = Ok o) ->
  exists l, build_alerts f items = Ok l.
Proof.
  induction items as [|it items IH]; intros H; cbn [build_alerts].
  - now exists [].
  - destruct (H it (or_introl eq_refl)) as (o & ->).
    destruct IH as (l & ->); [intros it' Hi; apply H; now right|].
    cbn [bind]. eexists. reflexivity.
Qed.

(** The loop body on a low-stock row, in a store whose quantities are in
    range: a projection exactly when the pair has sales in the window. *)
Lemma alert_of_computed (db : DB) (since days cid : Z) (incl : bool)
  inv p w pt s :
  0 < days < 2 ^ 30 ->
  Schema.check_quantity_non_negative db ->
  Schema.check_sale_quantity_positive db ->
  SpecAlerts.fits_int64 db ->
  In (inv, p, w, pt, s) (Spec.company_items db cid) ->
  exists o,
    alert_of days incl
      (sales_subquery db since
         (product_ids_of (Spec.company_items db cid)))
      (inv, p, w, pt, s) = Ok o
    /\ forall a, o = Some a ->
         (days_until_stockout a = None
          <-> Spec.window_sales db since (Product.id p) (Warehouse.id w)
              = []).
Proof.
  intros Hd Hq Hs [Fq Ft] Hit. unfold alert_of.
  rewrite recent_sales_of_subquery
    by (eapply in_product_ids_of; eassumption).
  destruct (Spec.window_sales db since (Product.id p) (Warehouse.id w))
    as [|x g] eqn:W.
  - cbn [Sql.is_none andb average_daily_sales stockout bind].
    destruct (negb incl); eexists; (split; [reflexivity|]).
    + discriminate.
    + intros a E. injection E as <-. cbn [days_until_stockout]. tauto.
  - cbn [Sql.is_none andb average_daily_sales total_sold days_with_sales].
    assert (Pd : (0 <? count_distinct (map sale_day (x :: g))) = true).
    { apply Z.ltb_lt, count_distinct_pos. discriminate. }
    rewrite Pd.
    assert (Hin : In inv (inventory db))
      by now apply (joined_inv db inv p w pt s
                      (low_stock_items_joined db _ _ Hit)).
    unfold Schema.check_quantity_non_negative in Hq.
    rewrite Forall_forall in Hq, Fq.
    destruct (total_quantity_filter
                (fun s => (since <=? Sale.sale_date s)
                          && (Sale.product_id s =? Product.id p)
                          && (Sale.warehouse_id s =? Warehouse.id w))
                (sales db) Hs) as [T1 T2].
    fold (Spec.window_sales db since (Product.id p) (Warehouse.id w))
      in T1, T2.
    rewrite W in T1, T2.
    destruct (stockout_present (Inventory.quantity inv)
                (Spec.total_quantity (x :: g)) days)
      as (a & z & -> & Ez).
    { split; [now apply Hq|now apply Fq]. }
    { split; [apply T2; discriminate|lia]. }
    { assumption. }
    cbn [bind]. rewrite Ez. cbn [bind]. eexists. split; [reflexivity|].
    intros a' E. injection E as <-. cbn [days_until_stockout].
    split; discriminate.
Qed.

(** The first handler answers. For a company that exists, a positive
    number of days and a window that can be represented, in a store
    that keeps the CHECK constraints of [models.py] and whose
    quantities fit 64-bit integers, the response is 200 with the alert
    list and its length, never an error; and an alert is without
    [days_until_stockout] exactly when its product has no sale at its
    warehouse in the window. *)
Theorem alerts_are_computed :
  forall (db : DB) (now : Z) (args : Args) (company_id : Z),
    Spec.company_exists db company_id ->
    0 < arg_days args ->
    Spec.window_representable now (arg_days args) ->
    Schema.check_quantity_non_negative db ->
    Schema.check_sale_quantity_positive db ->
    SpecAlerts.fits_int64 db ->
    exists alerts msg,
      get_low_stock_alerts db now args company_id
      = (AlertsBody alerts (Z.of_nat (List.length alerts)) msg, 200)
      /\ forall a, In a alerts ->
           (days_until_stockout a = None
            <-> Spec.window_sales db
                  (now - arg_days args * MICROSECONDS_PER_DAY)
                  (product_id a) (warehouse_id a) = []).
Proof.
  intros db now args cid Hc Hd Hw Hq Hs Hf.
  set (since := now - arg_days args * MICROSECONDS_PER_DAY).
  assert (Hd30 : 0 < arg_days args < 2 ^ 30).
  { destruct Hw as [[_ U] _]. split; [assumption|].
    change (2 ^ 30) with 1073741824. lia. }
  pose proof (fun inv p w pt s =>
                alert_of_computed db since (arg_days args) cid
                  (arg_include_no_sales args) inv p w pt s
                  Hd30 Hq Hs Hf) as Hbody.
  destruct (build_alerts_total
              (alert_of (arg_days args) (arg_include_no_sales args)
                 (sales_subquery db since
                    (product_ids_of (Spec.company_items db cid))))
              (Spec.company_items db cid)) as (fetched & F).
  { intros [[[[inv p] w] pt] s] Hit.
    destruct (Hbody inv p w pt s Hit) as (o & E & _). now exists o. }
  assert (Hnone : forall a, In a (sort fetched) ->
            (days_until_stockout a = None
             <-> Spec.window_sales db since (product_id a) (warehouse_id a)
                 = [])).
  { intros a Ha.
    apply (Permutation_in _ (Permutation_sym (sort_perm fetched))) in Ha.
    apply (build_alerts_in _ _ _ a F) in Ha.
    destruct Ha as ([[[[inv p] w] pt] s] & Hit & Ha).
    destruct (Hbody inv p w pt s Hit) as (o & E & Ho).
    rewrite E in Ha. injection Ha as ->.
    specialize (Ho a eq_refl).
    apply alert_of_inv in E. destruct E as (? & ? & _ & _ & _ & Ea).
    rewrite Ea at 2 3. cbn [product_id warehouse_id]. exact Ho. }
  unfold get_low_stock_alerts, get_low_stock_alerts_try.
  destruct (get_company_some db cid Hc) as (c & ->).
  assert (E0 : (arg_days args <=? 0) = false) by (apply Z.leb_gt; lia).
  rewrite E0, (sales_threshold_date_ok now (arg_days args) Hw).
  cbn [bind]. fold since.
  unfold Spec.company_items, Spec.company_warehouse_ids in F.
  destruct (filter (fun w => Warehouse.company_id w =? cid)
              (warehouses db)) as [|w0 ws].
  { exists [], (Some "No warehouses found for this company"%string).
    split; [reflexivity|]. intros a []. }
  destruct (low_stock_items db (map Warehouse.id (w0 :: ws)))
    as [|it its].
  { exists [], None. split; [reflexivity|]. intros a []. }
  rewrite F. cbn [bind]. exists (sort fetched), None.
  split; [reflexivity|exact Hnone].
Qed.

Lemma alerts_are_computed_witness :
  exists alerts msg,
    get_low_stock_alerts Examples.db Examples.now Examples.no_args 1
    = (AlertsBody alerts (Z.of_nat (List.length alerts)) msg, 200).
Proof.
  destruct (alerts_are_computed Examples.db Examples.now Examples.no_args 1)
    as (alerts & msg & E & _).
  - exists Examples.acme. split; [now left|reflexivity].
  - reflexivity.
  - unfold Spec.window_representable. vm_compute.
    repeat split; discriminate.
  - unfold Schema.check_quantity_non_negative. simpl.
    repeat (constructor; [discriminate|]). constructor.
  - unfold Schema.check_sale_quantity_positive. simpl.
    repeat (constructor; [reflexivity|]). constructor.
  - unfold SpecAlerts.fits_int64. simpl. split.
    + repeat (constructor; [reflexivity|]). constructor.
    + reflexivity.
  - now exists alerts, msg.
Defined.

(** ** The status codes *)

Lemma company_exists_get (db : DB) (cid : Z) :
  Spec.company_exists db cid
  <-> exists c, Sql.get Company.id (companies db) cid = Some c.
Proof.
  split; [apply get_company_some|].
  intros (c & G). unfold Sql.get in G. apply find_some in G.
  destruct G as [Hc E]. apply Z.eqb_eq in E. now exists c.
Qed.

(** The status codes of both handlers. The status is 404 exactly when
    the company does not exist, 400 exactly when it exists and [days]
    is not positive, and otherwise 200 or 500; and the response carries
    alerts exactly when the status is 200. *)
Theorem alert_status_codes :
  forall (db : DB) (now : Z) (args : Args) (company_id : Z) (r : Response),
    (r = get_low_stock_alerts db now args company_id
     \/ exists sql_div,
          r = get_low_stock_alerts_optimized sql_div db now args
                company_id) ->
    (snd r = 404 <-> ~ Spec.company_exists db company_id)
    /\ (snd r = 400
        <-> Spec.company_exists db company_id /\ arg_days args <= 0)
    /\ (snd r = 200 \/ snd r = 400 \/ snd r = 404 \/ snd r = 500)
    /\ (snd r = 200 <-> exists alerts n msg, fst r = AlertsBody alerts n msg).
Proof.
  intros db now args cid r H.
  assert (Hcases :
            (~ Spec.company_exists db cid
             /\ snd r = 404 /\ exists e d, fst r = ErrorBody e d)
            \/ (Spec.company_exists db cid /\ arg_days args <= 0
                /\ snd r = 400 /\ exists e d, fst r = ErrorBody e d)
            \/ (Spec.company_exists db cid /\ 0 < arg_days args
                /\ ((snd r = 200
                     /\ exists alerts n msg, fst r = AlertsBody alerts n msg)
                    \/ (snd r = 500 /\ exists e d, fst r = ErrorBody e d)))).
  { destruct H as [->|(sql_div & ->)].
    - unfold get_low_stock_alerts. rewrite get_low_stock_alerts_try_eq.
      destruct (Sql.get Company.id (companies db) cid) as [c|] eqn:G.
      2:{ left. split; [|split; [reflexivity|now eexists; eexists]].
          intros Hc. apply company_exists_get in Hc.
          destruct Hc as (c & Hc). congruence. }
      assert (Hc : Spec.company_exists db cid)
        by (apply company_exists_get; now exists c).
      right. destruct (arg_days args <=? 0) eqn:D.
      { left. apply Z.leb_le in D. split; [assumption|].
        split; [assumption|]. split; [reflexivity|now eexists; eexists]. }
      right. apply Z.leb_gt in D. split; [assumption|].
      split; [assumption|].
      destruct (sales_threshold_date now (arg_days args)) as [since|e]
        eqn:S; cbn [bind].
      2:{ apply sales_threshold_date_raises in S. subst e. right.
          split; [reflexivity|now eexists; eexists]. }
      destruct (Spec.fetched_alerts db since args cid) as [fetched|e]
        eqn:F; cbn [bind].
      { left. split; [reflexivity|]. now eexists; eexists; eexists. }
      unfold Spec.fetched_alerts in F.
      apply build_alerts_raises in F; [|intros it e'; apply alert_of_raises].
      right. destruct F as [-> | ->];
        (split; [reflexivity|now eexists; eexists]).
    - unfold get_low_stock_alerts_optimized,
        get_low_stock_alerts_optimized_try.
      destruct (Sql.get Company.id (companies db) cid) as [c|] eqn:G.
      2:{ left. split; [|split; [reflexivity|now eexists; eexists]].
          intros Hc. apply company_exists_get in Hc.
          destruct Hc as (c & Hc). congruence. }
      assert (Hc : Spec.company_exists db cid)
        by (apply company_exists_get; now exists c).
      right. destruct (arg_days args <=? 0) eqn:D.
      { left. apply Z.leb_le in D. split; [assumption|].
        split; [assumption|]. split; [reflexivity|now eexists; eexists]. }
      right. apply Z.leb_gt in D. split; [assumption|].
      split; [assumption|].
      destruct (sales_threshold_date now (arg_days args)) as [since|e];
        cbn [bind].
      2:{ right. split; [reflexivity|now eexists; eexists]. }
      destruct (build_alerts_rows _) as [fetched|e]; cbn [bind].
      + left. split; [reflexivity|]. now eexists; eexists; eexists.
      + right. split; [reflexivity|now eexists; eexists]. }
  destruct Hcases
    as [(N & S & e & d & B)
       |[(Hc & D & S & e & d & B)
        |(Hc & D & [(S & a & n & m & B)|(S & e & d & B)])]];
    rewrite S, B.
  - split; [tauto|]. split; [split; [discriminate|tauto]|].
    split; [tauto|]. split; [discriminate|].
    intros (? & ? & ? & E). discriminate.
  - split; [split; [discriminate|tauto]|]. split; [tauto|].
    split; [tauto|]. split; [discriminate|].
    intros (? & ? & ? & E). discriminate.
  - split; [split; [discriminate|tauto]|].
    split; [split; [discriminate|lia]|]. split; [tauto|].
    split; [intros _; now exists a, n, m|reflexivity].
  - split; [split; [discriminate|tauto]|].
    split; [split; [discriminate|lia]|]. split; [tauto|].
    split; [discriminate|]. intros (? & ? & ? & E). discriminate.
Qed.

Lemma alert_status_codes_witness :
  snd (get_low_stock_alerts Examples.db_no_warehouses Examples.now
         Examples.no_args 2) = 404
  <-> ~ Spec.company_exists Examples.db_no_warehouses 2.
Proof.
  apply (alert_status_codes Examples.db_no_warehouses Examples.now
           Examples.no_args 2). now left.
Defined.
End Alerts.

(** ** Product creation *)

Section Creation.
Import Py CreateProduct.

Lemma early_returns {A : Type} (P : Response -> Prop) (r : Response) :
  P r -> SpecCreate.early P (@returns A r).
Proof. intros H r' E. injection E as <-. exact H. Qed.

Lemma early_pure {A : Type} (P : Response -> Prop) (a : A) :
  SpecCreate.early P (pure a).
Proof. intros r E. discriminate. Qed.

Lemma early_lift {A : Type} (P : Response -> Prop) (m : res A) :
  SpecCreate.early P (lift m).
Proof. intros r E. destruct m; discriminate. Qed.

Lemma early_return_if (P : Response -> Prop) (c : bool) (r : Response) :
  P r -> SpecCreate.early P (return_if c r).
Proof.
  intros H. unfold return_if. destruct c;
    [now apply early_returns|apply early_pure].
Qed.

Lemma early_andthen {A B : Type} (P : Response -> Prop) (m : V A)
  (k : A -> V B) :
  SpecCreate.early P m -> (forall a, SpecCreate.early P (k a)) ->
  SpecCreate.early P (andthen m k).
Proof.
  intros Hm Hk r. unfold andthen. destruct m as [[r'|a]|e].
  - intros E. injection E as <-. now apply Hm.
  - apply Hk.
  - discriminate.
Qed.

Lemma early_except {A : Type} (P : Response -> Prop) (m : V A)
  (r : Response) :
  SpecCreate.early P m -> P r ->
  SpecCreate.early P (except_value_type m r).
Proof.
  intros Hm Hr r'. unfold except_value_type.
  destruct m as [[r''|a]|e].
  - apply Hm.
  - discriminate.
  - destruct e; try discriminate; intros E; injection E as <-; exact Hr.
Qed.

Ltac early_step :=
  first
    [ apply early_andthen; [|intros ?]
    | apply early_return_if
    | apply early_lift
    | apply early_pure
    | apply early_returns
    | apply early_except
    | match goal with
      | |- SpecCreate.early _ (match ?x with _ => _ end) => destruct x
      end ].

(** The validation returns no response with status 201. *)
Lemma validate_early (py : Json.Builtins) (db : DB) (request : Request) :
  SpecCreate.early (fun r => snd r <> 201) (validate py db request).
Proof.
  unfold validate. repeat early_step; simpl; discriminate.
Qed.

Lemma start_observed (db : DB) :
  Forall (fun d => d = db \/ d = db) (observed (start db)).
Proof. repeat constructor. Qed.

(** How the unit of work ends: with the three rows committed, or with an
    exception and nothing committed. *)
Lemma unit_of_work_cases (store : Store) (v : Valid) (db : DB) :
  (exists summary product inventory_row transaction s,
     unit_of_work store v (start db)
     = (Ok (CreatedBody "Product created successfully" summary, 201), s)
     /\ committed s
        = SpecCreate.with_product db product inventory_row transaction
     /\ in_tx s = [] /\ added s = []
     /\ Forall (fun d => d = db \/ d = committed s) (observed s)
     /\ SpecCreate.rows_of summary product inventory_row transaction)
  \/ (exists e s,
        unit_of_work store v (start db) = (Raise e, s)
        /\ committed s = db
        /\ Forall (fun d => d = db) (observed s)).
Proof.
  unfold unit_of_work, seq, session_add, session_flush, session_commit.
  destruct (bound_product_type_id store (v_product_type_id v)) as [t|e].
  2:{ right. exists e, (start db). repeat split. repeat constructor. }
  simpl. destruct (flush_raises store) as [e|].
  { right. eexists. eexists. split; [reflexivity|].
    split; [reflexivity|]. simpl. repeat constructor. }
  simpl. destruct (commit_raises store) as [e|].
  { right. eexists. eexists. split; [reflexivity|].
    split; [reflexivity|]. simpl. repeat constructor. }
  left. do 5 eexists. split; [reflexivity|]. simpl.
  split; [reflexivity|]. split; [reflexivity|]. split; [reflexivity|].
  split.
  - repeat (constructor; [left; reflexivity|]).
    constructor; [right; reflexivity|constructor].
  - unfold SpecCreate.rows_of. simpl. repeat split.
Qed.

(** C7. Whatever the request and whatever the store answers, when the
    handler is done nothing is left in flight, and either the response
    is 201 and the product, its inventory row with the initial quantity
    and the audit record have been committed together, or the response
    is another one and the committed state is unchanged. Every state
    that was visible on the way is the state before the request or the
    final one, so no part of the three writes is ever seen alone. *)
Theorem C7_all_or_nothing :
  forall (py : Json.Builtins) (store : Store) (request : Request) (db : DB),
    let result := create_product py store request db in
    let response := fst result in
    let s := snd result in
    in_tx s = [] /\ added s = []
    /\ ((exists summary product inventory_row transaction,
           response = (CreatedBody "Product created successfully" summary,
                       201)
           /\ committed s
              = SpecCreate.with_product db product inventory_row transaction
           /\ SpecCreate.rows_of summary product inventory_row transaction)
        \/ (snd response <> 201 /\ committed s = db))
    /\ Forall (fun d => d = db \/ d = committed s) (observed s).
Proof.
  intros py store request db. cbv zeta. unfold create_product.
  pose proof (validate_early py db request) as Hv.
  destruct (validate py db request) as [[r|v]|e].
  - simpl. split; [reflexivity|]. split; [reflexivity|]. split.
    + right. split; [now apply Hv|reflexivity].
    + apply start_observed.
  - destruct (unit_of_work_cases store v db)
      as [(summary & product & inv & tx & s & -> & Hc & Hi & Ha & Ho & Hr)
         |(e & s & -> & Hc & Ho)].
    + simpl. split; [assumption|]. split; [assumption|]. split.
      * left. now exists summary, product, inv, tx.
      * assumption.
    + assert (Hobs : Forall (fun d => d = db \/ d = db)
                       (observed s ++ [db])).
      { apply Forall_app. split.
        - eapply Forall_impl; [|exact Ho]. intros d ->. now left.
        - repeat constructor. }
      destruct e; simpl; rewrite ?Hc;
        (split; [reflexivity|]; split; [reflexivity|]; split;
         [right; split; [|reflexivity]|exact Hobs]);
        try (simpl; discriminate).
      unfold integrity_response.
      destruct (contains "sku" (lower msg) || contains "unique" (lower msg));
        simpl; discriminate.
  - simpl. split; [reflexivity|]. split; [reflexivity|]. split.
    + right. split; [discriminate|reflexivity].
    + repeat constructor.
Qed.

(** *** The checks of the validation, one by one *)

Lemma missing_absent (items : list (string * Json.t)) :
  missing (Json.Obj items) required_fields = Ok (SpecCreate.absent items).
Proof.
  unfold SpecCreate.absent.
  induction required_fields as [|f fields IH]; simpl; [reflexivity|].
  rewrite IH. simpl. now destruct (Json.lookup f items).
Qed.

Lemma truthy_obj (items : list (string * Json.t)) :
  items <> [] -> Json.truthy (Json.Obj items) = true.
Proof. destruct items; [congruence|reflexivity]. Qed.

Lemma absent_nil_items (items : list (string * Json.t)) :
  SpecCreate.absent items = [] -> items <> [].
Proof. intros H ->. discriminate. Qed.

Lemma absent_nil_lookup (items : list (string * Json.t)) (f : string) :
  SpecCreate.absent items = [] -> In f required_fields ->
  exists v, Json.lookup f items = Some v.
Proof.
  unfold SpecCreate.absent. intros H Hf.
  rewrite filter_nil_iff in H. specialize (H f Hf).
  destruct (Json.lookup f items) as [v|]; [now exists v|discriminate].
Qed.

Lemma sku_of_inv (py : Json.Builtins) items sku :
  SpecCreate.sku_of py items = Some sku ->
  exists v, Json.lookup "sku" items = Some v
            /\ strip (Json.str py v) = sku.
Proof.
  unfold SpecCreate.sku_of.
  destruct (Json.lookup "sku" items) as [v|]; [|discriminate].
  intros H. injection H as <-. now exists v.
Qed.

Lemma find_sku_none (db : DB) (sku : string) :
  ~ SpecCreate.sku_taken db sku ->
  find (fun p => (Product.sku p =? sku)%string) (products db) = None.
Proof.
  intros H. destruct (find _ (products db)) as [p|] eqn:E; [|reflexivity].
  apply find_some in E. destruct E as [Hp E]. apply String.eqb_eq in E.
  exfalso. apply H. now exists p.
Qed.

Lemma find_sku_some (db : DB) (sku : string) :
  SpecCreate.sku_taken db sku ->
  exists p, find (fun p => (Product.sku p =? sku)%string) (products db)
            = Some p
            /\ In p (products db) /\ Product.sku p = sku.
Proof.
  intros (p & Hp & E).
  destruct (find _ (products db)) as [p'|] eqn:F.
  - exists p'. split; [reflexivity|]. apply find_some in F.
    destruct F as [Hp' E']. apply String.eqb_eq in E'. now split.
  - apply (find_none _ _ F) in Hp. apply String.eqb_neq in Hp.
    contradiction.
Qed.

(** One step of the validation's evaluation. *)
Ltac vstep :=
  cbn [andthen return_if lift pure returns negb is_json json
       SpecCreate.json_request Sql.is_none hd_error except_value_type
       bind Json.getitem].

(** The evaluation up to the SKU, for a body with every required field
    and a SKU that is not empty. *)
Ltac validate_to_sku Habsent Hlookup Hsku Hne :=
  unfold validate; vstep;
  rewrite (truthy_obj _ (absent_nil_items _ Habsent)); vstep;
  rewrite missing_absent; vstep; rewrite Habsent; vstep;
  rewrite Hlookup; vstep; rewrite Hsku;
  rewrite (proj2 (String.eqb_neq _ _) Hne); vstep.

(** C8, as the handler has it. For a request with a JSON object body
    that carries the five required fields and whose SKU is not empty: if
    a product of the store has the SKU, the response is 409 with the
    message that the SKU exists and the id of such a product, before any
    session operation; and if the validation passes but the unit of work
    raises an integrity error whose text mentions the SKU or uniqueness,
    the response is 409 with the same message, and after the rollback
    nothing is committed or left in flight. *)
Theorem C8_duplicate_sku_conflict :
  forall (py : Json.Builtins) (store : Store) (db : DB)
         (items : list (string * Json.t)) (sku : string),
    SpecCreate.has_sku py items sku ->
    let request := SpecCreate.json_request items in
    let conflict := ("Product with SKU '" ++ sku ++ "' already exists")%string in
    (SpecCreate.sku_taken db sku ->
     exists existing,
       In existing (products db) /\ Product.sku existing = sku
       /\ create_product py store request db
          = ((ErrorBody conflict None (Some (Product.id existing)), 409),
             start db))
    /\ (forall v msg,
          validate py db request = Ok (inr v) ->
          fst (unit_of_work store v (start db))
          = Raise (IntegrityError msg) ->
          contains "sku" (lower msg) || contains "unique" (lower msg)
          = true ->
          let result := create_product py store request db in
          fst result = (ErrorBody conflict None None, 409)
          /\ committed (snd result) = db
          /\ in_tx (snd result) = [] /\ added (snd result) = []).
Proof.
  intros py store db items sku (Habsent & Hsku & Hne). cbv zeta.
  destruct (sku_of_inv py items sku Hsku) as (sv & Hlookup & Hstrip).
  split.
  - intros Htaken.
    destruct (find_sku_some db sku Htaken) as (p & Hfind & Hp & Ep).
    exists p. split; [assumption|]. split; [assumption|].
    unfold create_product.
    assert (E : validate py db (SpecCreate.json_request items)
                = returns (ErrorBody ("Product with SKU '" ++ sku
                                      ++ "' already exists")
                                     None (Some (Product.id p)), 409)).
    { validate_to_sku Habsent Hlookup Hstrip Hne.
      rewrite Hfind. vstep. reflexivity. }
    rewrite E. reflexivity.
  - intros v msg Hv Hu Hm. unfold create_product. rewrite Hv.
    assert (Ev : v_sku v = sku).
    { revert Hv. validate_to_sku Habsent Hlookup Hstrip Hne.
      destruct (find _ (products db)); vstep; [discriminate|].
      repeat match goal with
             | |- context [andthen ?m _] =>
                 destruct m as [[?|?]|?]; vstep; try discriminate
             | |- context [match ?x with Some _ => _ | None => _ end] =>
                 destruct x; vstep
             end.
      all: intros H; injection H as <-; reflexivity. }
    destruct (unit_of_work_cases store v db)
      as [(? & ? & ? & ? & s & E & _)|(e & s & E & Hc & _)];
      rewrite E in Hu |- *; simpl in Hu; [discriminate|].
    injection Hu as ->. simpl. unfold integrity_response.
    rewrite Hm, Ev, Hc. repeat split.
Qed.

(** The widget's SKU is taken: the pre-write check answers 409 with the
    widget's id, and so does the store when the check passed and the
    insert met the constraint. *)
Lemma C8_witness :
  (exists existing,
     In existing (products Examples.db)
     /\ Product.sku existing = "W-1"
     /\ create_product ExamplesCreate.py ExamplesCreate.store
          (SpecCreate.json_request
             (ExamplesCreate.body (Json.Str "W-1") (Json.Int 5) (Json.Int 1)
                (Json.Int 0)))
          Examples.db
        = ((ErrorBody "Product with SKU 'W-1' already exists" None
                      (Some (Product.id existing)), 409),
           start Examples.db))
  /\ fst (create_product ExamplesCreate.py ExamplesCreate.store_conflict
            (SpecCreate.json_request
               (ExamplesCreate.body (Json.Str "S-1") (Json.Int 5)
                  (Json.Int 1) (Json.Int 0)))
            Examples.db)
     = (ErrorBody "Product with SKU 'S-1' already exists" None None, 409).
Proof.
  split.
  - apply (C8_duplicate_sku_conflict ExamplesCreate.py ExamplesCreate.store
             Examples.db
             (ExamplesCreate.body (Json.Str "W-1") (Json.Int 5) (Json.Int 1)
                (Json.Int 0)) "W-1").
    + repeat split. discriminate.
    + exists Examples.widget. split; [now left|reflexivity].
  - eapply (C8_duplicate_sku_conflict ExamplesCreate.py
              ExamplesCreate.store_conflict Examples.db
              (ExamplesCreate.body (Json.Str "S-1") (Json.Int 5) (Json.Int 1)
                 (Json.Int 0)) "S-1").
    + repeat split. discriminate.
    + vm_compute. reflexivity.
    + vm_compute. reflexivity.
    + vm_compute. reflexivity.
Defined.

(** The widget's SKU is taken, and the response is 400, not 409: the
    body lacks the other required fields, or the request does not say it
    is JSON. *)
Lemma C8_counterexample :
  find (fun p => (Product.sku p =? "W-1")%string) (products Examples.db)
  = Some Examples.widget
  /\ fst (create_product ExamplesCreate.py ExamplesCreate.store
            (SpecCreate.json_request [("sku", Json.Str "W-1")])
            Examples.db)
     = (ErrorBody
          "Missing required fields: name, price, warehouse_id, initial_quantity"
          None None, 400)
  /\ fst (create_product ExamplesCreate.py ExamplesCreate.store
            {| is_json := false;
               json := Some (Json.Obj
                               (ExamplesCreate.body (Json.Str "W-1")
                                  (Json.Int 5) (Json.Int 1) (Json.Int 0))) |}
            Examples.db)
     = (ErrorBody "Request must be JSON" None None, 400).
Proof. vm_compute. repeat split; reflexivity. Qed.

Lemma get_warehouse_some (db : DB) (id : Z) (w : Warehouse.t) :
  In w (warehouses db) -> Warehouse.id w = id ->
  Sql.is_none (Sql.get Warehouse.id (warehouses db) id) = false.
Proof.
  intros Hw E. unfold Sql.get.
  destruct (find _ (warehouses db)) eqn:F; [reflexivity|].
  apply (find_none _ _ F) in Hw. apply Z.eqb_neq in Hw. contradiction.
Qed.

(** The evaluation up to the price, for a body whose SKU is new. *)
Ltac validate_to_price Hnew :=
  let sku := fresh "sku" in
  let sv := fresh "sv" in
  let Habsent := fresh "Habsent" in
  let Hsku := fresh "Hsku" in
  let Hne := fresh "Hne" in
  let Hfree := fresh "Hfree" in
  let Hlookup := fresh "Hlookup" in
  let Hstrip := fresh "Hstrip" in
  destruct Hnew as (sku & (Habsent & Hsku & Hne) & Hfree);
  destruct (sku_of_inv _ _ _ Hsku) as (sv & Hlookup & Hstrip);
  validate_to_sku Habsent Hlookup Hstrip Hne;
  rewrite (find_sku_none _ _ Hfree); vstep.

(** The evaluation of the price check, for a valid price. *)
Ltac validate_price Hprice :=
  let v := fresh "v" in
  let f := fresh "f" in
  let Hl := fresh "Hl" in
  let Hf := fresh "Hf" in
  let Hp := fresh "Hp" in
  destruct Hprice as (v & f & Hl & Hf & Hp);
  rewrite Hl; vstep; rewrite Hf; vstep; rewrite Hp; vstep.

(** The evaluation of the quantity check, for a valid quantity. *)
Ltac validate_quantity Hquantity :=
  let v := fresh "v" in
  let q := fresh "q" in
  let Hl := fresh "Hl" in
  let Hq := fresh "Hq" in
  let Hp := fresh "Hp" in
  destruct Hquantity as (v & q & Hl & Hq & Hp);
  rewrite Hl; vstep; rewrite Hq; vstep;
  rewrite (proj2 (Z.ltb_ge _ _) Hp); vstep.

(** C10, as the handler has it. For a request with a JSON object body,
    each validation failure that the checks before it do not pre-empt is
    answered with 400 and the message that names the field, and no
    session operation has run: a missing required field; an empty SKU;
    then, for a SKU no product has, a price [float] does not accept or a
    negative price; then an initial quantity [int] does not accept or a
    negative one; then, for a warehouse that exists, an empty name. *)
Theorem C10_validation_errors :
  forall (py : Json.Builtins) (store : Store) (db : DB)
         (items : list (string * Json.t)) (msg : string),
    SpecCreate.rejects py db items msg ->
    create_product py store (SpecCreate.json_request items) db
    = ((ErrorBody msg None None, 400), start db).
Proof.
  intros py store db items msg H. unfold create_product.
  assert (E : validate py db (SpecCreate.json_request items)
              = returns (error msg 400)); [|now rewrite E].
  destruct H as [Hne Habs|Habs Hsku|v Hnew Hl Hbad|v f Hnew Hl Hf Hneg
                |v Hnew Hprice Hl Hbad|v q Hnew Hprice Hl Hq Hneg
                |v Hnew Hprice Hquantity Hwarehouse Hl Hempty].
  - unfold validate. vstep. rewrite (truthy_obj _ Hne). vstep.
    rewrite missing_absent. vstep.
    destruct (SpecCreate.absent items); [congruence|reflexivity].
  - destruct (sku_of_inv _ _ _ Hsku) as (sv & Hlookup & Hstrip).
    unfold validate. vstep.
    rewrite (truthy_obj _ (absent_nil_items _ Habs)). vstep.
    rewrite missing_absent. vstep. rewrite Habs. vstep.
    rewrite Hlookup. vstep. rewrite Hstrip. reflexivity.
  - validate_to_price Hnew. rewrite Hl. vstep.
    destruct Hbad as [[m ->]| ->]; reflexivity.
  - validate_to_price Hnew. rewrite Hl. vstep. rewrite Hf. vstep.
    rewrite Hneg. reflexivity.
  - validate_to_price Hnew. validate_price Hprice. rewrite Hl. vstep.
    destruct Hbad as [[m ->]| ->]; reflexivity.
  - validate_to_price Hnew. validate_price Hprice. rewrite Hl. vstep.
    rewrite Hq. vstep. rewrite (proj2 (Z.ltb_lt _ _) Hneg). reflexivity.
  - validate_to_price Hnew. validate_price Hprice.
    validate_quantity Hquantity.
    destruct Hwarehouse as (wv & id & w & Hlw & Hid & Hw & Ew).
    rewrite Hlw. vstep. rewrite Hid. vstep.
    rewrite (get_warehouse_some db id w Hw Ew). vstep.
    rewrite Hl. vstep. rewrite Hempty. reflexivity.
Qed.

(** A new SKU with a price of -1. *)
Lemma C10_witness :
  create_product ExamplesCreate.py ExamplesCreate.store
    (SpecCreate.json_request
       (ExamplesCreate.body (Json.Str "S-1") (Json.Int (-1)) (Json.Int 1)
          (Json.Int 0)))
    Examples.db
  = ((ErrorBody "Price must be non-negative" None None, 400),
     start Examples.db).
Proof.
  apply (C10_validation_errors ExamplesCreate.py ExamplesCreate.store
           Examples.db).
  apply (SpecCreate.rejects_negative_price _ _ _ (Json.Int (-1))
           (S754_finite true 4503599627370496 (-52))).
  - exists "S-1". split.
    + repeat split. discriminate.
    + intros (p & [<-|[<-|[]]] & E); discriminate.
  - reflexivity.
  - vm_compute. reflexivity.
  - vm_compute. reflexivity.
Defined.

(** Four bodies with a malformed or out-of-range value, none answered
    with 400: a negative price with a SKU that is taken gives 409; a
    warehouse id that is no integer gives 500; an initial quantity of
    3.5 is taken as 3 and the product is created; an empty name with an
    unknown warehouse gives 404. *)
Lemma C10_counterexample :
  fst (create_product ExamplesCreate.py ExamplesCreate.store
         (SpecCreate.json_request
            (ExamplesCreate.body (Json.Str "W-1") (Json.Int (-1))
               (Json.Int 1) (Json.Int 0)))
         Examples.db)
  = (ErrorBody "Product with SKU 'W-1' already exists" None (Some 1), 409)
  /\ fst (create_product ExamplesCreate.py ExamplesCreate.store
            (SpecCreate.json_request
               (ExamplesCreate.body (Json.Str "S-1") (Json.Int 5)
                  (Json.Str "abc") (Json.Int 0)))
            Examples.db)
     = (ErrorBody "An unexpected error occurred"
                  (Some "Internal server error") None, 500)
  /\ fst (create_product ExamplesCreate.py ExamplesCreate.store
            (SpecCreate.json_request
               (ExamplesCreate.body (Json.Str "S-1") (Json.Int 5)
                  (Json.Int 1)
                  (Json.Float ExamplesCreate.three_and_a_half)))
            Examples.db)
     = (CreatedBody "Product created successfully"
          {| id := 3; name := "Sprocket"; sku := "S-1";
             price := S754_finite false 5629499534213120 (-50);
             warehouse_id := 1; initial_quantity := 3;
             created_at := Examples.now |}, 201)
  /\ fst (create_product ExamplesCreate.py ExamplesCreate.store
            (SpecCreate.json_request
               [("name", Json.Str " "); ("sku", Json.Str "S-1");
                ("price", Json.Int 5); ("warehouse_id", Json.Int 9);
                ("initial_quantity", Json.Int 0)])
            Examples.db)
     = (ErrorBody "Warehouse with ID 9 does not exist" None None, 404).
Proof. vm_compute. repeat split; reflexivity. Qed.

(** ** Further properties of product creation *)

Lemma return_if_inr c r u : return_if c r = Ok (inr u) -> c = false.
Proof. unfold return_if. destruct c; [discriminate|reflexivity]. Qed.

Lemma except_inr {A : Type} (m : V A) r a :
  except_value_type m r = Ok (inr a) -> m = Ok (inr a).
Proof.
  unfold except_value_type. destruct m as [[?|?]|[]]; try discriminate; auto.
Qed.

Ltac vinv H :=
  match type of H with
  | andthen ?m ?k = Ok (inr _) =>
      let E := fresh "E" in
      destruct m as [[?|?]|?] eqn:E; cbn [andthen] in H;
      [discriminate H| |discriminate H]
  end.

Lemma validate_inv (py : Json.Builtins) (db : DB) (request : Request) v :
  validate py db request = Ok (inr v) ->
  v_sku v <> ""%string
  /\ find (fun p => (Product.sku p =? v_sku v)%string) (products db) = None
  /\ v_name v <> ""%string
  /\ float_lt0 (v_price v) = false
  /\ 0 <= v_initial_quantity v
  /\ Sql.is_none (Sql.get Warehouse.id (warehouses db) (v_warehouse_id v))
     = false.
Proof.
  unfold validate. intros H.
  vinv H. vinv H. vinv H. vinv H. vinv H. vinv H.
  cbv zeta in H. vinv H. vinv H. vinv H. vinv H. vinv H. vinv H. vinv H.
  vinv H. vinv H. vinv H. vinv H. vinv H.
  vinv H. injection H as <-. cbn [v_sku v_name v_price v_initial_quantity
                                   v_warehouse_id].
  apply return_if_inr in E5, E10, E12.
  apply except_inr in E7, E8. vinv E7. vinv E7. vinv E8. vinv E8.
  injection E7 as <-. injection E8 as <-.
  match goal with
  | H : return_if (float_lt0 _) _ = _ |- _ => apply return_if_inr in H
  end.
  match goal with
  | H : return_if (_ <? 0) _ = _ |- _ =>
      apply return_if_inr, Z.ltb_ge in H
  end.
  apply String.eqb_neq in E5, E12.
  destruct (find _ (products db)); [discriminate|].
  repeat split; assumption.
Qed.

(** The column keeps the sign: a price that is not negative is not
    negative in the store, however the store rounds. *)
Lemma stored_price_not_negative (store : Store) (x : float) :
  float_lt0 x = false -> float_lt0 (stored_price store x) = false.
Proof.
  destruct x as [s|s| |[|] m e]; try (intros H; exact H);
    [intros H; discriminate H|].
  intros _. unfold stored_price, float_of_hundredths.
  destruct (numeric_10_2 store _) as [|p]; [reflexivity|].
  pose proof (SFdiv_signed (S754_finite false p 0)
                (S754_finite false 100 0) eq_refl eq_refl) as S.
  destruct (SFdiv prec emax _ _) as [z|z| |z mz ez]; simpl in S;
    try subst z; reflexivity.
Qed.

(** The committed state after a request, with the rows named. *)
Lemma create_product_committed (py : Json.Builtins) (store : Store)
  (request : Request) (db : DB) :
  (committed (snd (create_product py store request db)) = db
   /\ snd (fst (create_product py store request db)) <> 201)
  \/ exists v t,
       validate py db request = Ok (inr v)
       /\ committed (snd (create_product py store request db))
          = SpecCreate.with_product db (new_product store v t)
              (new_inventory store v (new_product store v t))
              (new_transaction store v (new_product store v t))
       /\ fst (create_product py store request db)
          = (CreatedBody "Product created successfully"
               {| id := product_pk store;
                  name := v_name v;
                  sku := v_sku v;
                  price := stored_price store (v_price v);
                  warehouse_id := v_warehouse_id v;
                  initial_quantity := v_initial_quantity v;
                  created_at := utcnow store 0 |}, 201).
Proof.
  unfold create_product.
  pose proof (validate_early py db request) as Hv.
  destruct (validate py db request) as [[r|v]|e].
  - left. split; [reflexivity|now apply Hv].
  - unfold unit_of_work, seq, session_add, session_flush, session_commit.
    destruct (bound_product_type_id store (v_product_type_id v)) as [t|e].
    2:{ left. destruct e; simpl; split; try reflexivity; try discriminate.
        unfold integrity_response. destruct (_ || _); discriminate. }
    simpl. destruct (flush_raises store) as [e|].
    { left. destruct e; simpl; split; try reflexivity; try discriminate.
      unfold integrity_response. destruct (_ || _); discriminate. }
    simpl. destruct (commit_raises store) as [e|].
    { left. destruct e; simpl; split; try reflexivity; try discriminate.
      unfold integrity_response. destruct (_ || _); discriminate. }
    right. exists v, t. split; [reflexivity|]. split; reflexivity.
  - left. split; [reflexivity|discriminate].
Qed.

(** A product is created only from a valid request: the SKU and the
    name are not empty, no product had the SKU, the price is not
    negative, the initial quantity is not negative, and the warehouse
    exists. *)
Theorem created_product_is_valid :
  forall (py : Json.Builtins) (store : Store) (request : Request) (db : DB)
         (message : string) (summary : ProductSummary),
    fst (create_product py store request db)
    = (CreatedBody message summary, 201) ->
    sku summary <> ""%string
    /\ ~ SpecCreate.sku_taken db (sku summary)
    /\ name summary <> ""%string
    /\ float_lt0 (price summary) = false
    /\ 0 <= initial_quantity summary
    /\ exists w, In w (warehouses db)
                 /\ Warehouse.id w = warehouse_id summary.
Proof.
  intros py store request db message summary H.
  destruct (create_product_committed py store request db)
    as [[_ N]|(v & t & Hv & _ & E)].
  { rewrite H in N. now elim N. }
  rewrite H in E. injection E as -> ->.
  apply validate_inv in Hv.
  destruct Hv as (Hs & Hf & Hn & Hp & Hq & Hw).
  cbn [sku name price initial_quantity warehouse_id].
  split; [assumption|]. split.
  { intros (p & Hin & Ep). apply (find_none _ _ Hf) in Hin.
    apply String.eqb_neq in Hin. contradiction. }
  split; [assumption|].
  split; [now apply stored_price_not_negative|]. split; [assumption|].
  unfold Sql.get in Hw.
  destruct (find _ (warehouses db)) as [w|] eqn:F; [|discriminate].
  apply find_some in F. destruct F as [Hin Ew]. apply Z.eqb_eq in Ew.
  now exists w.
Qed.

Lemma created_product_is_valid_witness :
  ~ SpecCreate.sku_taken Examples.db "S-1" /\ 0 <= 0.
Proof.
  destruct (created_product_is_valid ExamplesCreate.py ExamplesCreate.store
              (SpecCreate.json_request
                 (ExamplesCreate.body (Json.Str "S-1") (Json.Int 5)
                    (Json.Int 1) (Json.Int 0)))
              Examples.db "Product created successfully"
              {| id := 3; name := "Sprocket"; sku := "S-1";
                 price := S754_finite false 5629499534213120 (-50);
                 warehouse_id := 1; initial_quantity := 0;
                 created_at := Examples.now |})
    as (_ & H1 & _ & _ & H2 & _).
  - vm_compute. reflexivity.
  - exact (conj H1 H2).
Defined.

(** The handler keeps what the schema constrains: if the SKUs of the
    store are pairwise distinct, no quantity is negative and no price is
    negative, the same holds of the committed state after any request. *)
Theorem create_product_preserves_constraints :
  forall (py : Json.Builtins) (store : Store) (request : Request) (db : DB),
    NoDup (map Product.sku (products db)) ->
    Forall (fun i => 0 <= Inventory.quantity i) (inventory db) ->
    Forall (fun p => float_lt0 (Product.price p) = false) (products db) ->
    let db' := committed (snd (create_product py store request db)) in
    NoDup (map Product.sku (products db'))
    /\ Forall (fun i => 0 <= Inventory.quantity i) (inventory db')
    /\ Forall (fun p => float_lt0 (Product.price p) = false) (products db').
Proof.
  intros py store request db Hsku Hq Hp. cbv zeta.
  destruct (create_product_committed py store request db)
    as [[-> _]|(v & t & Hv & -> & _)].
  { now repeat split. }
  apply validate_inv in Hv.
  destruct Hv as (_ & Hf & _ & Hprice & Hquantity & _).
  cbn [SpecCreate.with_product products inventory]. split; [|split].
  - rewrite map_app. cbn [map new_product Product.sku].
    apply Permutation_NoDup with (l := v_sku v :: map Product.sku (products db)).
    { apply Permutation_cons_append. }
    constructor; [|assumption].
    intros Hin. apply in_map_iff in Hin. destruct Hin as (p & Ep & Hin).
    apply (find_none _ _ Hf) in Hin. apply String.eqb_neq in Hin.
    contradiction.
  - apply Forall_app. split; [assumption|]. now repeat constructor.
  - apply Forall_app. split; [assumption|]. repeat constructor.
    cbn [new_product Product.price]. now apply stored_price_not_negative.
Qed.

Lemma create_product_preserves_constraints_witness :
  NoDup (map Product.sku
           (products
              (committed
                 (snd (create_product ExamplesCreate.py ExamplesCreate.store
                         (SpecCreate.json_request
                            (ExamplesCreate.body (Json.Str "S-1")
                               (Json.Int 5) (Json.Int 1) (Json.Int 0)))
                         Examples.db))))).
Proof.
  apply (create_product_preserves_constraints ExamplesCreate.py
           ExamplesCreate.store _ Examples.db).
  - simpl. constructor; [intros [E|[]]; discriminate|].
    constructor; [intros []|constructor].
  - simpl. repeat constructor; discriminate.
  - simpl. repeat constructor.
Defined.


(** ** What a created product is made of *)

Lemma getitem_obj data field v :
  Json.getitem data field = Ok v ->
  exists items, data = Json.Obj items /\ Json.lookup field items = Some v.
Proof.
  destruct data; simpl; try discriminate.
  destruct (Json.lookup field items) eqn:E; [|discriminate].
  intros H. injection H as ->. now exists items.
Qed.

Lemma lift_inr {A : Type} (m : res A) a : lift m = Ok (inr a) -> m = Ok a.
Proof. destruct m; simpl; [|discriminate]. intros H. now injection H as ->. Qed.

Lemma bind_ok {A B : Type} (m : res A) (k : A -> res B) b :
  (x <- m ;; k x) = Ok b -> exists a, m = Ok a /\ k a = Ok b.
Proof. destruct m; simpl; [|discriminate]. intros H. now exists a. Qed.

(** Where the values of a validated request come from. *)
Lemma validate_reads (py : Json.Builtins) (db : DB) (request : Request) v :
  validate py db request = Ok (inr v) ->
  exists items sv nv pv qv wv,
    is_json request = true /\ json request = Some (Json.Obj items)
    /\ Json.lookup "sku" items = Some sv
    /\ v_sku v = strip (Json.str py sv)
    /\ Json.lookup "name" items = Some nv
    /\ v_name v = strip (Json.str py nv)
    /\ Json.lookup "price" items = Some pv
    /\ Json.to_float py pv = Ok (v_price v)
    /\ Json.lookup "initial_quantity" items = Some qv
    /\ Json.to_int py qv = Ok (v_initial_quantity v)
    /\ Json.lookup "warehouse_id" items = Some wv
    /\ Json.to_int py wv = Ok (v_warehouse_id v)
    /\ v_description v = SpecRows.description_of items
    /\ option_map Ok (v_supplier_id v) = SpecRows.supplier_of py items
    /\ (forall n, v_supplier_id v = Some n ->
        Sql.is_none (Sql.get Supplier.id (suppliers db) n) = false).
Proof.
  unfold validate. intros H.
  vinv H. vinv H. vinv H. vinv H. vinv H. vinv H.
  cbv zeta in H. vinv H. vinv H. vinv H. vinv H. vinv H. vinv H. vinv H.
  vinv H. vinv H. vinv H. vinv H. vinv H.
  vinv H. injection H as <-.
  cbn [v_sku v_name v_price v_initial_quantity v_warehouse_id
       v_description v_supplier_id].
  apply return_if_inr, negb_false_iff in E.
  apply lift_inr in E0, E4, E9, E11, E13, E14, E15.
  apply getitem_obj in E4. destruct E4 as (items & -> & Hsku).
  apply getitem_obj in E11. destruct E11 as (items' & Ei & Hname).
  injection Ei as <-.
  destruct (json request) as [d|]; [|discriminate].
  injection E0 as ->.
  apply except_inr in E7, E8. vinv E7. vinv E7. vinv E8. vinv E8.
  injection E7 as <-. injection E8 as <-.
  match goal with
  | H : lift (v <- Json.getitem _ "price" ;; _) = _ |- _ =>
      apply lift_inr, bind_ok in H; destruct H as (pv & Hp & Hpf);
      apply getitem_obj in Hp; destruct Hp as (? & Ep & Hprice);
      injection Ep as <-
  end.
  match goal with
  | H : lift (v <- Json.getitem _ "initial_quantity" ;; _) = _ |- _ =>
      apply lift_inr, bind_ok in H; destruct H as (qv & Hq & Hqf);
      apply getitem_obj in Hq; destruct Hq as (? & Eq & Hquantity);
      injection Eq as <-
  end.
  apply bind_ok in E9. destruct E9 as (wv & Hw & Hwf).
  apply getitem_obj in Hw. destruct Hw as (? & Ew & Hwarehouse).
  injection Ew as <-.
  exists items, t0, t1, pv, qv, wv.
  do 12 (split; [first [assumption|reflexivity]|]).
  simpl in E13, E15. split; [|split].
  - unfold SpecRows.description_of.
    destruct (Json.lookup "description" items) as [d|].
    + assert (Ho : o = match d with Json.Null => None | _ => Some d end)
        by (destruct d; now injection E13 as <-).
      subst o. destruct d; simpl in E14; try (now injection E14 as <-);
        try match goal with
            | |- context [(?s =? "")%string] =>
                revert E14; destruct (s =? "")%string; intros E14;
                simpl in E14
            end;
        repeat match type of E14 with
               | (if ?c then _ else _) = _ => destruct c; simpl in E14
               end;
        try discriminate; try (now injection E14 as <-).
    + injection E13 as <-. now injection E14 as <-.
  - unfold SpecRows.supplier_of.
    destruct (Json.lookup "supplier_id" items) as [d|].
    + assert (Ho : o1 = match d with Json.Null => None | _ => Some d end)
        by (destruct d; now injection E15 as <-).
      subst o1.
      destruct d; try (now injection E17 as <-);
        apply except_inr in E17; vinv E17; vinv E17;
        injection E17 as <-;
        match goal with
        | H : lift (Json.to_int py _) = _ |- _ =>
            apply lift_inr in H; cbn [option_map]; rewrite <- H;
            reflexivity
        end.
    + injection E15 as <-. now injection E17 as <-.
  - intros n ->.
    destruct o1 as [d|]; [|discriminate].
    apply except_inr in E17. vinv E17. vinv E17. injection E17 as <-.
    match goal with
    | H : return_if (Sql.is_none (Sql.get Supplier.id _ _)) _ = _ |- _ =>
        now apply return_if_inr in H
    end.
Qed.

(** A created product carries what the request said. Whenever the
    response is 201, the body is a JSON object; the SKU and the name of
    the summary are its members [sku] and [name] as text, stripped; the
    initial quantity and the warehouse are what [int] makes of the
    members; the price is what the column [Decimal(10, 2)] of the store
    keeps of [float] of the member, not that float itself; and the
    product row that was added to the store has the id, the SKU, the
    name, the price and the creation time of the summary, the stripped
    description (none for a missing or falsy one) and the supplier the
    body names. *)
Theorem created_product_reflects_request :
  forall (py : Json.Builtins) (store : Store) (request : Request) (db : DB)
         (message : string) (summary : ProductSummary),
    fst (create_product py store request db)
    = (CreatedBody message summary, 201) ->
    exists items sv nv pv f qv wv product,
      json request = Some (Json.Obj items)
      /\ Json.lookup "sku" items = Some sv
      /\ sku summary = strip (Json.str py sv)
      /\ Json.lookup "name" items = Some nv
      /\ name summary = strip (Json.str py nv)
      /\ Json.lookup "price" items = Some pv
      /\ Json.to_float py pv = Ok f
      /\ price summary = stored_price store f
      /\ Json.lookup "initial_quantity" items = Some qv
      /\ Json.to_int py qv = Ok (initial_quantity summary)
      /\ Json.lookup "warehouse_id" items = Some wv
      /\ Json.to_int py wv = Ok (warehouse_id summary)
      /\ products (committed (snd (create_product py store request db)))
         = products db ++ [product]
      /\ Product.id product = id summary
      /\ Product.sku product = sku summary
      /\ Product.name product = name summary
      /\ Product.price product = price summary
      /\ Product.created_at product = created_at summary
      /\ Product.description product = SpecRows.description_of items
      /\ option_map Ok (Product.supplier_id product)
         = SpecRows.supplier_of py items.
Proof.
  intros py store request db message summary H.
  destruct (create_product_committed py store request db)
    as [[_ N]|(v & t & Hv & Hc & E)].
  { rewrite H in N. now elim N. }
  rewrite H in E. injection E as -> ->. rewrite Hc.
  destruct (validate_reads py db request v Hv)
    as (items & sv & nv & pv & qv & wv & _ & Hj & Hs & Es & Hn & En & Hp
        & Ep & Hq & Eq & Hw & Ew & Ed & Esup & _).
  exists items, sv, nv, pv, (v_price v), qv, wv, (new_product store v t).
  cbn [sku name price initial_quantity warehouse_id id created_at
       SpecCreate.with_product products new_product Product.id
       Product.sku Product.name Product.price Product.created_at
       Product.description Product.supplier_id].
  repeat (split; [first [assumption|reflexivity]|]). assumption.
Qed.

(** A price of 9.999 is created, and reported, as 10.0 by a store that
    rounds to the nearest hundredth. *)
Lemma created_product_reflects_request_witness :
  exists product,
    products
      (committed
         (snd (create_product ExamplesCreate.py ExamplesCreate.store
                 (SpecCreate.json_request ExamplesRows.priced_body)
                 Examples.db)))
    = products Examples.db ++ [product]
    /\ Product.sku product = "S-1"
    /\ Product.price product = ExamplesCreate.ten
    /\ Product.description product = Some "A toothed wheel"
    /\ Product.supplier_id product = Some 7.
Proof.
  destruct (created_product_reflects_request ExamplesCreate.py
              ExamplesCreate.store
              (SpecCreate.json_request ExamplesRows.priced_body)
              Examples.db "Product created successfully"
              {| id := 3; name := "Sprocket"; sku := "S-1";
                 price := ExamplesCreate.ten;
                 warehouse_id := 1; initial_quantity := 0;
                 created_at := Examples.now |})
    as (items & sv & nv & pv & f & qv & wv & product & Hj & _ & _ & _ & _
        & _ & _ & _ & _ & _ & _ & _ & Hc & _ & Es & _ & Ep & _ & Ed
        & Esup).
  - vm_compute. reflexivity.
  - exists product. split; [exact Hc|]. split; [exact Es|].
    split; [exact Ep|].
    injection Hj as <-. split; [exact Ed|].
    destruct (Product.supplier_id product) as [n|]; [|discriminate Esup].
    vm_compute in Esup. injection Esup as ->. reflexivity.
Defined.

(** ** Asking twice *)

Lemma find_app_none {A : Type} (f : A -> bool) (l1 l2 : list A) :
  find f l1 = None -> find f (l1 ++ l2) = find f l2.
Proof.
  induction l1 as [|x l1 IH]; simpl; [reflexivity|].
  destruct (f x); [discriminate|exact IH].
Qed.

(** A request that passes the validation in one state of the store is
    answered with 409 in any state in which a product has its SKU. *)
Lemma validate_conflict (py : Json.Builtins) (db db' : DB)
  (request : Request) v p :
  validate py db request = Ok (inr v) ->
  find (fun p => (Product.sku p =? v_sku v)%string) (products db') = Some p ->
  validate py db' request
  = returns (ErrorBody ("Product with SKU '" ++ v_sku v
                        ++ "' already exists")
                       None (Some (Product.id p)), 409).
Proof.
  intros Hv Hfind.
  destruct (validate_reads py db request v Hv)
    as (items & sv & nv & pv & qv & wv & Hi & Hj & Hs & Es & Hn & _ & Hp
        & _ & Hq & _ & Hw & _).
  apply validate_inv in Hv. destruct Hv as (Hne & _).
  assert (Habsent : SpecCreate.absent items = []).
  { unfold SpecCreate.absent, required_fields. simpl.
    now rewrite Hs, Hn, Hp, Hq, Hw. }
  destruct request as [is_json0 json0]. simpl in Hi, Hj. subst is_json0 json0.
  fold (SpecCreate.json_request items). symmetry in Es.
  validate_to_sku Habsent Hs Es Hne.
  rewrite Hfind. vstep. reflexivity.
Qed.

(** After a product was created, the same request is answered with 409
    and the id of that product, whatever the store answers then, and
    nothing is written. *)
Theorem repeated_request_conflicts :
  forall (py : Json.Builtins) (store store' : Store) (request : Request)
         (db : DB) (message : string) (summary : ProductSummary),
    fst (create_product py store request db)
    = (CreatedBody message summary, 201) ->
    let db' := committed (snd (create_product py store request db)) in
    create_product py store' request db'
    = ((ErrorBody ("Product with SKU '" ++ sku summary
                   ++ "' already exists")
                  None (Some (id summary)), 409),
       start db').
Proof.
  intros py store store' request db message summary H. cbv zeta.
  destruct (create_product_committed py store request db)
    as [[_ N]|(v & t & Hv & Hc & E)].
  { rewrite H in N. now elim N. }
  rewrite H in E. injection E as -> ->. rewrite Hc.
  cbn [sku id]. unfold create_product.
  rewrite (validate_conflict py db _ request v (new_product store v t) Hv).
  - reflexivity.
  - cbn [SpecCreate.with_product products].
    apply validate_inv in Hv. destruct Hv as (_ & Hnone & _).
    rewrite (find_app_none _ _ _ Hnone). simpl.
    now rewrite String.eqb_refl.
Qed.

Lemma repeated_request_conflicts_witness :
  snd (fst (create_product ExamplesCreate.py ExamplesCreate.store_conflict
              (SpecCreate.json_request ExamplesRows.full_body)
              (committed
                 (snd (create_product ExamplesCreate.py ExamplesCreate.store
                         (SpecCreate.json_request ExamplesRows.full_body)
                         Examples.db)))))
  = 409.
Proof.
  rewrite (repeated_request_conflicts ExamplesCreate.py ExamplesCreate.store
             ExamplesCreate.store_conflict
             (SpecCreate.json_request ExamplesRows.full_body)
             Examples.db "Product created successfully"
             {| id := 3; name := "Sprocket"; sku := "S-1";
                price := S754_finite false 5629499534213120 (-50);
                warehouse_id := 1; initial_quantity := 0;
                created_at := Examples.now |}).
  - reflexivity.
  - vm_compute. reflexivity.
Defined.

(** ** Keys and references *)

Lemma unique_snoc {A K : Type} (key : A -> K) (rows : list A) (x : A) :
  Schema.unique key rows -> ~ In (key x) (map key rows) ->
  Schema.unique key (rows ++ [x]).
Proof.
  unfold Schema.unique. intros Hn Hx. rewrite map_app. simpl.
  apply Permutation_NoDup with (l := key x :: map key rows).
  - apply Permutation_cons_append.
  - now constructor.
Qed.

Lemma references_snoc {A : Type} (pk : A -> Z) (rows : list A) (x : A) k :
  Schema.references pk rows k -> Schema.references pk (rows ++ [x]) k.
Proof.
  unfold Schema.references. rewrite map_app, in_app_iff. now left.
Qed.

Lemma references_last {A : Type} (pk : A -> Z) (rows : list A) (x : A) :
  Schema.references pk (rows ++ [x]) (pk x).
Proof.
  unfold Schema.references. rewrite map_app, in_app_iff. right. now left.
Qed.

Lemma get_references {A : Type} (pk : A -> Z) (rows : list A) (k : Z) :
  Sql.is_none (Sql.get pk rows k) = false -> Schema.references pk rows k.
Proof.
  unfold Sql.get, Schema.references.
  destruct (find _ rows) as [r|] eqn:F; [|discriminate]. intros _.
  apply find_some in F. destruct F as [Hin E]. apply Z.eqb_eq in E.
  apply in_map_iff. now exists r.
Qed.

(** The handler keeps the keys and the references of the schema. If the
    store assigns primary keys that are not in use, then unique primary
    keys of products, inventory rows and transactions, one inventory row
    per product and warehouse, and the references of inventory rows and
    transactions to products and warehouses and of products to
    suppliers, when they hold before a request, hold of the committed
    state after it. *)
Theorem create_product_preserves_keys :
  forall (py : Json.Builtins) (store : Store) (request : Request) (db : DB),
    SpecRows.assigns_fresh_keys store db ->
    Schema.primary_keys db ->
    Schema.uq_inventory_product_warehouse db ->
    Schema.foreign_keys db ->
    let db' := committed (snd (create_product py store request db)) in
    Schema.primary_keys db'
    /\ Schema.uq_inventory_product_warehouse db'
    /\ Schema.foreign_keys db'.
Proof.
  intros py store request db (Fp & Fi & Ft) (Pp & Pi & Pt) U (Ki & Kt & Kp).
  cbv zeta.
  destruct (create_product_committed py store request db)
    as [[-> _]|(v & t & Hv & -> & _)].
  { repeat split; assumption. }
  destruct (validate_reads py db request v Hv)
    as (_ & _ & _ & _ & _ & _ & _ & _ & _ & _ & _ & _ & _ & _ & _ & _ & _
        & _ & _ & _ & Hsup).
  apply validate_inv in Hv. destruct Hv as (_ & _ & _ & _ & _ & Hw).
  apply get_references in Hw.
  unfold Schema.primary_keys, Schema.uq_inventory_product_warehouse,
    Schema.foreign_keys.
  cbn [SpecCreate.with_product products inventory inventory_transactions
       warehouses suppliers].
  split; [|split].
  - split; [|split]; apply unique_snoc; assumption.
  - apply unique_snoc; [assumption|].
    cbn [new_inventory new_product Inventory.product_id
         Inventory.warehouse_id Product.id].
    intros Hin. apply in_map_iff in Hin. destruct Hin as (i & E & Hin).
    injection E as E _. rewrite Forall_forall in Ki.
    destruct (Ki i Hin) as [R _]. rewrite E in R. contradiction.
  - split; [|split]; apply Forall_app; split.
    + eapply Forall_impl; [|exact Ki]. intros i [R1 R2].
      split; [now apply references_snoc|assumption].
    + constructor; [|constructor]. split.
      * apply (references_last Product.id).
      * exact Hw.
    + eapply Forall_impl; [|exact Kt]. intros i [R1 R2].
      split; [now apply references_snoc|assumption].
    + constructor; [|constructor]. split.
      * apply (references_last Product.id).
      * exact Hw.
    + assumption.
    + constructor; [|constructor]. intros n E.
      apply get_references, Hsup. exact E.
Qed.

Lemma create_product_preserves_keys_witness :
  Schema.primary_keys
    (committed
       (snd (create_product ExamplesCreate.py ExamplesCreate.store
               (SpecCreate.json_request ExamplesRows.full_body)
               Examples.db))).
Proof.
  apply (create_product_preserves_keys ExamplesCreate.py
           ExamplesCreate.store
           (SpecCreate.json_request ExamplesRows.full_body) Examples.db).
  - unfold SpecRows.assigns_fresh_keys, Schema.references. simpl.
    split; [|split]; intros H; repeat destruct H as [H|H];
      try discriminate H; exact H.
  - unfold Schema.primary_keys, Schema.unique. simpl.
    split; [|split]; repeat (constructor; [simpl; intros H|]);
      try constructor;
      repeat destruct H as [H|H]; try discriminate H; exact H.
  - unfold Schema.uq_inventory_product_warehouse, Schema.unique. simpl.
    repeat (constructor; [simpl; intros H|]); try constructor;
      repeat destruct H as [H|H]; try discriminate H; exact H.
  - unfold Schema.foreign_keys, Schema.references. simpl.
    split; [|split].
    + repeat (constructor; [split; simpl; auto|]). constructor.
    + constructor.
    + constructor; [|constructor; [|constructor]].
      * intros n E. injection E as <-. now left.
      * intros n E. discriminate E.
Defined.

(** ** Bodies that are not objects *)

Lemma missing_of_text_or_list (d : Json.t) (fields : list string) :
  (exists s, d = Json.Str s) \/ (exists l, d = Json.Arr l) ->
  exists l', missing d fields = Ok l'.
Proof.
  intros Hd. induction fields as [|f fields (l' & IH)]; simpl.
  - now exists [].
  - rewrite IH.
    destruct Hd as [(s & ->)|(l & ->)]; simpl; eexists; reflexivity.
Qed.

(** Only a JSON object creates a product: a request whose body is
    anything else (not JSON, unparsable, [null], a number, a string, a
    list) is answered with 400 or 500, and nothing is written. *)
Theorem body_must_be_an_object :
  forall (py : Json.Builtins) (store : Store) (request : Request) (db : DB),
    (forall items, json request <> Some (Json.Obj items)) ->
    let result := create_product py store request db in
    (snd (fst result) = 400 \/ snd (fst result) = 500)
    /\ committed (snd result) = db.
Proof.
  intros py store [j d] db Hd. cbv zeta. simpl in Hd.
  unfold create_product, validate. vstep.
  destruct j; vstep; [|now split; [left|]].
  destruct d as [d|]; vstep; [|now split; [right|]].
  destruct (Json.truthy d) eqn:T; vstep; [|now split; [left|]].
  destruct d as [| | | |s|l|items]; try (now split; [right|]).
  - destruct (missing_of_text_or_list (Json.Str s) required_fields)
      as (l' & ->); [left; now exists s|].
    vstep. destruct l'; vstep; (split; [|reflexivity]);
      [right; reflexivity|left; reflexivity].
  - destruct (missing_of_text_or_list (Json.Arr l) required_fields)
      as (l' & ->); [right; now exists l|].
    vstep. destruct l'; vstep; (split; [|reflexivity]);
      [right; reflexivity|left; reflexivity].
  - now elim (Hd items).
Qed.

Lemma body_must_be_an_object_witness :
  snd (fst (create_product ExamplesCreate.py ExamplesCreate.store
              {| is_json := true;
                 json := Some (Json.Arr (map Json.Str required_fields)) |}
              Examples.db))
  = 400
  \/ snd (fst (create_product ExamplesCreate.py ExamplesCreate.store
                 {| is_json := true;
                    json := Some (Json.Arr (map Json.Str required_fields)) |}
                 Examples.db))
     = 500.
Proof.
  apply (body_must_be_an_object ExamplesCreate.py ExamplesCreate.store
           {| is_json := true;
              json := Some (Json.Arr (map Json.Str required_fields)) |}
           Examples.db).
  intros items. discriminate.
Defined.

(** ** Failures of the store *)

Lemma prefix_app (p s : string) :
  prefix p s = true <-> exists b, s = (p ++ b)%string.
Proof.
  revert s. induction p as [|c p IH]; intros s; simpl.
  - split; [intros _; now exists s|destruct s; reflexivity].
  - destruct s as [|c' s].
    + split; [discriminate|intros (b & E); discriminate].
    + simpl. destruct (Ascii.ascii_dec c c') as [<-|N].
      * rewrite IH. split; intros (b & E); exists b.
        -- now rewrite E.
        -- now injection E.
      * split; [discriminate|]. intros (b & E). injection E as E _.
        congruence.
Qed.

(** [sub in s] holds exactly when [s] has [sub] inside. *)
Lemma contains_app (sub s : string) :
  contains sub s = true <-> exists a b, s = (a ++ sub ++ b)%string.
Proof.
  induction s as [|c s IH]; cbn [contains].
  - destruct (prefix sub "") eqn:P.
    + apply prefix_app in P. destruct P as (b & E).
      split; [intros _; now exists "", b|reflexivity].
    + split; [discriminate|]. intros (a & b & E).
      destruct a; simpl in E.
      * assert (prefix sub "" = true) by (apply prefix_app; now exists b).
        congruence.
      * discriminate.
  - destruct (prefix sub (String c s)) eqn:P.
    + apply prefix_app in P. destruct P as (b & E).
      split; [intros _; now exists "", b|reflexivity].
    + rewrite IH. split.
      * intros (a & b & ->). now exists (String c a), b.
      * intros (a & b & E). destruct a as [|c' a]; simpl in E.
        -- assert (prefix sub (String c s) = true)
             by (apply prefix_app; now exists b).
           congruence.
        -- injection E as _ ->. now exists a, b.
Qed.

Lemma lower_app (a b : string) :
  lower (a ++ b) = (lower a ++ lower b)%string.
Proof. induction a as [|c a IH]; simpl; [reflexivity|now rewrite IH]. Qed.

Lemma lower_split (s x y : string) :
  lower s = (x ++ y)%string ->
  exists a b, s = (a ++ b)%string /\ lower a = x /\ lower b = y.
Proof.
  revert s. induction x as [|c x IH]; intros s E; simpl in E.
  - now exists "", s.
  - destruct s as [|c' s]; [discriminate|]. simpl in E.
    injection E as <- E. destruct (IH s E) as (a & b & -> & <- & <-).
    now exists (String c' a), b.
Qed.

(** The test of the handler on the text of an integrity error. *)
Lemma contains_lower_mentions (word msg : string) :
  contains word (lower msg) = true <-> SpecRows.mentions word msg.
Proof.
  rewrite contains_app. unfold SpecRows.mentions. split.
  - intros (x & y & E). apply lower_split in E.
    destruct E as (a & r & -> & _ & E). apply lower_split in E.
    destruct E as (w & b & -> & E & _). now exists a, w, b.
  - intros (a & w & b & -> & <-). rewrite !lower_app.
    now exists (lower a), (lower b).
Qed.

(** What the handler answers when the validation passes and the store
    raises while the rows are written. An integrity error whose text
    contains "sku" or "unique" in any letter case gives 409; any other
    integrity error gives 400 with the text as details; every other
    exception gives 500 and reveals nothing of it. In each case the
    committed state is the one before the request. *)
Theorem store_failure_responses :
  forall (py : Json.Builtins) (store : Store) (request : Request) (db : DB)
         (v : Valid) (e : exn),
    validate py db request = Ok (inr v) ->
    fst (unit_of_work store v (start db)) = Raise e ->
    let result := create_product py store request db in
    committed (snd result) = db
    /\ match e with
       | IntegrityError msg =>
           (SpecRows.mentions "sku" msg \/ SpecRows.mentions "unique" msg ->
            fst result
            = (ErrorBody ("Product with SKU '" ++ v_sku v
                          ++ "' already exists") None None, 409))
           /\ (~ SpecRows.mentions "sku" msg ->
               ~ SpecRows.mentions "unique" msg ->
               fst result
               = (ErrorBody "Database integrity error" (Some msg) None,
                  400))
       | _ =>
           fst result
           = (ErrorBody "Failed to create product"
                        (Some "Internal server error") None, 500)
       end.
Proof.
  intros py store request db v e Hv Hu. cbv zeta.
  unfold create_product. rewrite Hv.
  destruct (unit_of_work_cases store v db)
    as [(summary & product & inv & tx & s & E & _)|(e' & s & E & Hc & _)];
    rewrite E in Hu |- *; simpl in Hu; [discriminate|].
  injection Hu as ->.
  destruct e; simpl; (split; [exact Hc|]); try reflexivity.
  unfold integrity_response. split.
  - intros Hm.
    assert (C : contains "sku" (lower msg) || contains "unique" (lower msg)
                = true).
    { apply orb_true_iff.
      destruct Hm as [Hm|Hm]; [left|right];
        now apply contains_lower_mentions. }
    now rewrite C.
  - intros N1 N2.
    assert (C : contains "sku" (lower msg) || contains "unique" (lower msg)
                = false).
    { apply orb_false_iff.
      split; apply not_true_is_false; intros C;
        apply contains_lower_mentions in C; contradiction. }
    now rewrite C.
Qed.

Lemma store_failure_responses_witness :
  fst (create_product ExamplesCreate.py ExamplesCreate.store_conflict
         (SpecCreate.json_request ExamplesRows.full_body) Examples.db)
  = (ErrorBody "Product with SKU 'S-1' already exists" None None, 409).
Proof.
  destruct (validate ExamplesCreate.py Examples.db
              (SpecCreate.json_request ExamplesRows.full_body))
    as [[r|v]|e] eqn:V; try (vm_compute in V; discriminate V).
  assert (Es : v_sku v = "S-1")
    by (vm_compute in V; injection V as <-; reflexivity).
  assert (U : fst (unit_of_work ExamplesCreate.store_conflict v
                     (start Examples.db))
              = Raise (IntegrityError
                         "UNIQUE constraint failed: products.sku"))
    by (vm_compute in V; injection V as <-; reflexivity).
  destruct (store_failure_responses ExamplesCreate.py
              ExamplesCreate.store_conflict
              (SpecCreate.json_request ExamplesRows.full_body) Examples.db
              v _ V U) as (_ & H & _).
  rewrite Es in H. apply H. right.
  exists "", "UNIQUE", " constraint failed: products.sku".
  split; reflexivity.
Defined.

(** ** The optional fields *)

Lemma get_supplier_none (db : DB) (n : Z) :
  ~ Schema.references Supplier.id (suppliers db) n ->
  Sql.is_none (Sql.get Supplier.id (suppliers db) n) = true.
Proof.
  intros H. destruct (Sql.is_none _) eqn:E; [reflexivity|].
  now apply get_references in E.
Qed.

(** The evaluation from the warehouse to the description, for a
    warehouse that exists and a name that is not empty. *)
Ltac validate_to_description Hwarehouse Hname :=
  let wv := fresh "wv" in
  let id := fresh "id" in
  let w := fresh "w" in
  let Hlw := fresh "Hlw" in
  let Hid := fresh "Hid" in
  let Hw := fresh "Hw" in
  let Ew := fresh "Ew" in
  let nv := fresh "nv" in
  let Hln := fresh "Hln" in
  let Hnn := fresh "Hnn" in
  destruct Hwarehouse as (wv & id & w & Hlw & Hid & Hw & Ew);
  destruct Hname as (nv & Hln & Hnn);
  rewrite Hlw; vstep; rewrite Hid; vstep;
  rewrite (get_warehouse_some _ id w Hw Ew); vstep;
  rewrite Hln; vstep; rewrite (proj2 (String.eqb_neq _ _) Hnn); vstep;
  unfold Json.get.

(** The evaluation of the description, when it raises nothing, and of
    the look-ups that follow it. *)
Ltac validate_description Hd :=
  unfold SpecRows.description_has_no_strip in Hd;
  destruct (Json.lookup "description" _) as [[]|];
  vstep; cbn [Json.truthy] in Hd |- *; rewrite ?Hd; vstep;
  try match goal with
      | |- context [negb (?s =? "")%string] =>
          destruct (s =? "")%string; cbn [negb Json.strip_method]; vstep
      end;
  destruct (Json.lookup "product_type_id" _) as [[]|]; vstep.

(** The checks that follow the required fields. For a JSON object body
    whose required fields pass every check: a description that is
    truthy and not a string makes the handler fail with 500; otherwise
    a supplier id [int] does not accept is answered with 400, and the id
    of no supplier with 404. In each case nothing is written. *)
Theorem optional_field_errors :
  forall (py : Json.Builtins) (store : Store) (db : DB)
         (items : list (string * Json.t)),
    SpecRows.required_fields_valid py db items ->
    let result :=
      create_product py store (SpecCreate.json_request items) db in
    (SpecRows.description_has_no_strip items = true ->
     fst result = (ErrorBody "An unexpected error occurred"
                             (Some "Internal server error") None, 500)
     /\ committed (snd result) = db)
    /\ (SpecRows.description_has_no_strip items = false ->
        forall r, SpecRows.supplier_of py items = Some r ->
        (SpecCreate.not_accepted r ->
         result = (error "Supplier ID must be a valid integer" 400,
                   start db))
        /\ (forall n, r = Ok n ->
            ~ Schema.references Supplier.id (suppliers db) n ->
            result = (error ("Supplier with ID " ++ str_of_int n
                             ++ " does not exist") 404, start db))).
Proof.
  intros py store db items (Hnew & Hprice & Hquantity & Hwarehouse & Hname).
  cbv zeta. unfold create_product. split.
  - intros Hd.
    assert (E : exists e, validate py db (SpecCreate.json_request items)
                          = Raise e).
    { validate_to_price Hnew. validate_price Hprice.
      validate_quantity Hquantity.
      validate_to_description Hwarehouse Hname.
      unfold SpecRows.description_has_no_strip in Hd.
      destruct (Json.lookup "description" items) as [d|]; [|discriminate].
      destruct d; try discriminate; vstep; rewrite Hd; vstep;
        eexists; reflexivity. }
    destruct E as (e & ->). now split.
  - intros Hd r Hr. unfold SpecRows.supplier_of in Hr. split.
    + intros Hbad.
      assert (E : validate py db (SpecCreate.json_request items)
                  = returns (error "Supplier ID must be a valid integer"
                                   400)); [|now rewrite E].
      validate_to_price Hnew. validate_price Hprice.
      validate_quantity Hquantity.
      validate_to_description Hwarehouse Hname.
      destruct (Json.lookup "supplier_id" items) as [d|]; [|discriminate].
      validate_description Hd.
      all: destruct d; try discriminate Hr; injection Hr as <-; vstep.
      all: destruct Hbad as [[m E]|E]; try discriminate E;
        cbn [Json.to_int] in E |- *; try rewrite E; reflexivity.
    + intros n -> Hnone.
      assert (E : validate py db (SpecCreate.json_request items)
                  = returns (error ("Supplier with ID " ++ str_of_int n
                                    ++ " does not exist") 404));
        [|now rewrite E].
      validate_to_price Hnew. validate_price Hprice.
      validate_quantity Hquantity.
      validate_to_description Hwarehouse Hname.
      destruct (Json.lookup "supplier_id" items) as [d|]; [|discriminate].
      validate_description Hd.
      all: destruct d; try discriminate Hr; injection Hr as Hr; vstep.
      all: cbn [Json.to_int] in Hr |- *; try rewrite Hr; vstep;
        rewrite (get_supplier_none db n Hnone); reflexivity.
Qed.

Lemma optional_field_errors_witness :
  create_product ExamplesCreate.py ExamplesCreate.store
    (SpecCreate.json_request ExamplesRows.unknown_supplier_body) Examples.db
  = (error "Supplier with ID 99 does not exist" 404, start Examples.db).
Proof.
  refine (proj2 (proj2 (optional_field_errors ExamplesCreate.py
                          ExamplesCreate.store Examples.db
                          ExamplesRows.unknown_supplier_body _)
                   eq_refl (Ok 99) eq_refl) 99 eq_refl _).
  - split; [|split; [|split; [|split]]].
    + exists "S-1". split.
      * repeat split. discriminate.
      * intros (p & [<-|[<-|[]]] & E); discriminate.
    + exists (Json.Int 5), (S754_finite false 5629499534213120 (-50)).
      repeat split.
    + exists (Json.Int 0), 0. repeat split. discriminate.
    + exists (Json.Int 1), 1, Examples.main. repeat split. now left.
    + exists (Json.Str "Sprocket"). split; [reflexivity|discriminate].
  - unfold Schema.references. simpl. intros [E|[]]. discriminate.
Defined.

(** ** The responses *)

Lemma validate_well_formed (py : Json.Builtins) (db : DB)
  (request : Request) :
  SpecCreate.early SpecRows.well_formed (validate py db request).
Proof.
  unfold validate. repeat early_step; simpl; auto.
Qed.

(** Every response of the handler is the summary of the created product
    with status 201 or an error with status 400, 404, 409 or 500, and
    only a 409 names an existing product. *)
Theorem responses_are_well_formed :
  forall (py : Json.Builtins) (store : Store) (request : Request) (db : DB),
    SpecRows.well_formed (fst (create_product py store request db)).
Proof.
  intros py store request db. unfold create_product.
  pose proof (validate_well_formed py db request) as Hv.
  destruct (validate py db request) as [[r|v]|e].
  - now apply Hv.
  - destruct (unit_of_work_cases store v db)
      as [(summary & product & inv & tx & s & -> & _)|(e & s & -> & _)].
    + reflexivity.
    + destruct e; simpl; auto. unfold integrity_response.
      destruct (_ || _); simpl; auto.
  - simpl. auto.
Qed.

(** ** White space *)

Lemma lstrip_head (s : string) :
  match lstrip s with
  | EmptyString => True
  | String c _ => isspace c = false
  end.
Proof.
  induction s as [|c s IH]; simpl; [exact I|].
  destruct (isspace c) eqn:E; [exact IH|exact E].
Qed.

Lemma rstrip_head (s : string) :
  match s with
  | EmptyString => True
  | String c _ => isspace c = false
  end ->
  match rstrip s with
  | EmptyString => True
  | String c _ => isspace c = false
  end.
Proof.
  destruct s as [|c s]; simpl; [trivial|]. intros E.
  destruct (rstrip s); [now rewrite E|exact E].
Qed.

Lemma rstrip_last (s r : string) (c : ascii) :
  rstrip s = (r ++ String c "")%string -> isspace c = false.
Proof.
  revert r. induction s as [|d s IH]; simpl; intros r E.
  - destruct r; discriminate.
  - destruct (rstrip s) as [|d' t] eqn:R.
    + destruct (isspace d) eqn:D; [destruct r; discriminate|].
      destruct r as [|x r]; simpl in E.
      * injection E as <-. exact D.
      * injection E as _ E. destruct r; discriminate.
    + destruct r as [|x r]; simpl in E; [discriminate|].
      injection E as _ E. now apply (IH r).
Qed.

Lemma lstrip_fixed (s : string) :
  match s with
  | EmptyString => True
  | String c _ => isspace c = false
  end ->
  lstrip s = s.
Proof. destruct s as [|c s]; simpl; [trivial|]. now intros ->. Qed.

Lemma rstrip_idempotent (s : string) : rstrip (rstrip s) = rstrip s.
Proof.
  induction s as [|c s IH]; simpl; [reflexivity|].
  destruct (rstrip s) as [|d t] eqn:R.
  - destruct (isspace c) eqn:C; simpl; [reflexivity|now rewrite C].
  - change (rstrip (String c (String d t)))
      with (match rstrip (String d t) with
            | EmptyString =>
                if isspace c then EmptyString else String c EmptyString
            | r => String c r
            end).
    now rewrite IH.
Qed.

(** [strip] leaves nothing to strip. *)
Lemma strip_trimmed (s : string) :
  SpecRows.trimmed (strip s) /\ SpecRows.no_space_at_ends (strip s).
Proof.
  unfold SpecRows.trimmed, SpecRows.no_space_at_ends, strip.
  pose proof (rstrip_head (lstrip s) (lstrip_head s)) as H.
  split; [|split].
  - rewrite (lstrip_fixed _ H). apply rstrip_idempotent.
  - exact H.
  - intros r c E. now apply (rstrip_last (lstrip s) r).
Qed.

(** The SKU and the name of a created product have no white space at
    either end: stripping them again changes nothing, and neither their
    first nor their last character is a white-space character. *)
Theorem created_product_is_trimmed :
  forall (py : Json.Builtins) (store : Store) (request : Request) (db : DB)
         (message : string) (summary : ProductSummary),
    fst (create_product py store request db)
    = (CreatedBody message summary, 201) ->
    SpecRows.trimmed (sku summary)
    /\ SpecRows.no_space_at_ends (sku summary)
    /\ SpecRows.trimmed (name summary)
    /\ SpecRows.no_space_at_ends (name summary).
Proof.
  intros py store request db message summary H.
  destruct (create_product_committed py store request db)
    as [[_ N]|(v & t & Hv & _ & E)].
  { rewrite H in N. now elim N. }
  rewrite H in E. injection E as -> ->. cbn [sku name].
  destruct (validate_reads py db request v Hv)
    as (items & sv & nv & _ & _ & _ & _ & _ & _ & -> & _ & -> & _).
  destruct (strip_trimmed (Json.str py sv)) as [T1 N1].
  destruct (strip_trimmed (Json.str py nv)) as [T2 N2].
  split; [|split; [|split]]; assumption.
Qed.

Lemma created_product_is_trimmed_witness :
  SpecRows.trimmed "S-1" /\ SpecRows.no_space_at_ends "S-1".
Proof.
  destruct (created_product_is_trimmed ExamplesCreate.py
              ExamplesCreate.store
              (SpecCreate.json_request ExamplesRows.full_body)
              Examples.db "Product created successfully"
              {| id := 3; name := "Sprocket"; sku := "S-1";
                 price := S754_finite false 5629499534213120 (-50);
                 warehouse_id := 1; initial_quantity := 0;
                 created_at := Examples.now |})
    as (T & N & _).
  - vm_compute. reflexivity.
  - exact (conj T N).
Defined.

(** ** Requests that are accepted *)

Lemma get_supplier_some (db : DB) (n : Z) :
  Schema.references Supplier.id (suppliers db) n ->
  Sql.is_none (Sql.get Supplier.id (suppliers db) n) = false.
Proof.
  unfold Schema.references, Sql.get. intros H. apply in_map_iff in H.
  destruct H as (s & E & Hs).
  destruct (find _ (suppliers db)) eqn:F; [reflexivity|].
  apply (find_none _ _ F) in Hs. apply Z.eqb_neq in Hs. contradiction.
Qed.

(** A body that passes every check is validated, and the product type
    it names is handed on as it is. *)
Lemma validate_accepts (py : Json.Builtins) (db : DB)
  (items : list (string * Json.t)) :
  SpecRows.required_fields_valid py db items ->
  SpecRows.description_has_no_strip items = false ->
  SpecRows.supplier_is_known py db items ->
  exists v,
    validate py db (SpecCreate.json_request items) = Ok (inr v)
    /\ v_product_type_id v = SpecRows.product_type_of items.
Proof.
  intros (Hnew & Hprice & Hquantity & Hwarehouse & Hname) Hd Hsup.
  unfold SpecRows.supplier_is_known, SpecRows.supplier_of in Hsup.
  unfold SpecRows.product_type_of.
  validate_to_price Hnew. validate_price Hprice.
  validate_quantity Hquantity.
  validate_to_description Hwarehouse Hname.
  destruct (Json.lookup "supplier_id" items) as [d|].
  - destruct d;
      try (destruct (Hsup _ eq_refl) as (n & En & Hn);
           cbn [Json.to_int] in En);
      validate_description Hd;
      try (cbn [Json.to_int]; rewrite En; vstep;
           rewrite (get_supplier_some db n Hn); vstep);
      eexists; split; reflexivity.
  - validate_description Hd; eexists; split; reflexivity.
Qed.

(** A request that passes every check is answered 201 when the store
    raises nothing. For a JSON object body whose required fields are
    valid, whose description is a string or falsy, and whose supplier,
    if it names one, exists: if the store binds the product type and the
    flush and the commit raise nothing, the response is the summary of
    the created product with status 201. *)
Theorem valid_request_is_created :
  forall (py : Json.Builtins) (store : Store) (db : DB)
         (items : list (string * Json.t)),
    SpecRows.required_fields_valid py db items ->
    SpecRows.description_has_no_strip items = false ->
    SpecRows.supplier_is_known py db items ->
    SpecRows.store_accepts store items ->
    exists summary,
      fst (create_product py store (SpecCreate.json_request items) db)
      = (CreatedBody "Product created successfully" summary, 201)
      /\ id summary = product_pk store.
Proof.
  intros py store db items Hreq Hd Hsup (Hf & Hc & t & Ht).
  destruct (validate_accepts py db items Hreq Hd Hsup) as (v & Hv & Et).
  unfold create_product. rewrite Hv.
  unfold unit_of_work, seq, session_add, session_flush, session_commit.
  rewrite Et, Ht, Hf. cbn [fst snd]. rewrite Hc.
  eexists. split; reflexivity.
Qed.

Lemma valid_request_is_created_witness :
  exists summary,
    fst (create_product ExamplesCreate.py ExamplesCreate.store
           (SpecCreate.json_request ExamplesRows.full_body) Examples.db)
    = (CreatedBody "Product created successfully" summary, 201)
    /\ id summary = 3.
Proof.
  apply (valid_request_is_created ExamplesCreate.py ExamplesCreate.store
           Examples.db ExamplesRows.full_body).
  - split; [|split; [|split; [|split]]].
    + exists "S-1". split.
      * repeat split. discriminate.
      * intros (p & [<-|[<-|[]]] & E); discriminate.
    + exists (Json.Int 5), (S754_finite false 5629499534213120 (-50)).
      repeat split.
    + exists (Json.Int 0), 0. repeat split. discriminate.
    + exists (Json.Int 1), 1, Examples.main. repeat split. now left.
    + exists (Json.Str "Sprocket"). split; [reflexivity|discriminate].
  - reflexivity.
  - intros r E. injection E as <-. exists 7. split; [reflexivity|].
    now left.
  - split; [reflexivity|]. split; [reflexivity|]. now exists None.
Defined.

(** ** The warehouse *)

(** The warehouse check, for a JSON object body that passes the checks
    up to the initial quantity. A [warehouse_id] that [int] does not
    convert makes the handler fail with 500, the conversion being
    outside any [try] of its own; one that is the id of no warehouse is
    answered with 404. Nothing is written in either case. *)
Theorem warehouse_errors :
  forall (py : Json.Builtins) (store : Store) (db : DB)
         (items : list (string * Json.t)) (wv : Json.t),
    SpecCreate.sku_is_new py db items ->
    SpecCreate.price_is_valid py items ->
    SpecCreate.quantity_is_valid py items ->
    Json.lookup "warehouse_id" items = Some wv ->
    let result :=
      create_product py store (SpecCreate.json_request items) db in
    (forall e, Json.to_int py wv = Raise e ->
       fst result = (ErrorBody "An unexpected error occurred"
                               (Some "Internal server error") None, 500)
       /\ committed (snd result) = db)
    /\ (forall n, Json.to_int py wv = Ok n ->
          ~ Schema.references Warehouse.id (warehouses db) n ->
          result = (error ("Warehouse with ID " ++ str_of_int n
                           ++ " does not exist") 404, start db)).
Proof.
  intros py store db items wv Hnew Hprice Hquantity Hlw. cbv zeta.
  unfold create_product. split.
  - intros e He.
    assert (E : validate py db (SpecCreate.json_request items) = Raise e).
    { validate_to_price Hnew. validate_price Hprice.
      validate_quantity Hquantity. rewrite Hlw. vstep. now rewrite He. }
    rewrite E. now split.
  - intros n Hn Hnone.
    assert (E : validate py db (SpecCreate.json_request items)
                = returns (error ("Warehouse with ID " ++ str_of_int n
                                  ++ " does not exist") 404));
      [|now rewrite E].
    validate_to_price Hnew. validate_price Hprice.
    validate_quantity Hquantity. rewrite Hlw. vstep. rewrite Hn. vstep.
    assert (G : Sql.is_none (Sql.get Warehouse.id (warehouses db) n) = true).
    { destruct (Sql.is_none _) eqn:G; [reflexivity|].
      now apply get_references in G. }
    now rewrite G.
Qed.

Lemma warehouse_errors_witness :
  fst (create_product ExamplesCreate.py ExamplesCreate.store
         (SpecCreate.json_request
            (ExamplesCreate.body (Json.Str "S-1") (Json.Int 5)
               (Json.Str "abc") (Json.Int 0)))
         Examples.db)
  = (ErrorBody "An unexpected error occurred"
               (Some "Internal server error") None, 500).
Proof.
  refine (proj1 (proj1 (warehouse_errors ExamplesCreate.py
                          ExamplesCreate.store Examples.db
                          (ExamplesCreate.body (Json.Str "S-1") (Json.Int 5)
                             (Json.Str "abc") (Json.Int 0))
                          (Json.Str "abc") _ _ _ eq_refl)
                   (ValueError "invalid literal for int() with base 10")
                   eq_refl)).
  - exists "S-1". split.
    + repeat split. discriminate.
    + intros (p & [<-|[<-|[]]] & E); discriminate.
  - exists (Json.Int 5), (S754_finite false 5629499534213120 (-50)).
    repeat split.
  - exists (Json.Int 0), 0. repeat split. discriminate.
Defined.
End Creation.

(** ** A created product in the alerts *)

Section CreationThenAlerts.
Import Py.

Lemma outerjoin_nonempty {A : Type} (on : A -> bool) (rows : list A) :
  exists o, In o (Sql.outerjoin on rows)
            /\ forall r, o = Some r -> In r rows.
Proof.
  unfold Sql.outerjoin. destruct (filter on rows) as [|r l] eqn:F.
  - exists None. split; [now left|discriminate].
  - exists (Some r). split; [now left|].
    intros r' E. injection E as <-.
    assert (H : In r (filter on rows)) by (rewrite F; now left).
    now apply filter_In in H.
Qed.

(** The rows of a created product join into a row of the low-stock
    query's FROM clause. *)
Lemma created_rows_joined (db : DB) (product : Product.t)
  (inv : Inventory.t) (tx : InventoryTransaction.t) (w : Warehouse.t) :
  Inventory.product_id inv = Product.id product ->
  In w (warehouses db) ->
  Inventory.warehouse_id inv = Warehouse.id w ->
  exists pt s,
    In (inv, product, w, pt, s)
       (LowStockAlerts.joined (SpecCreate.with_product db product inv tx))
    /\ forall t, pt = Some t -> In t (product_types db).
Proof.
  intros Ep Hw Ew.
  destruct (outerjoin_nonempty
              (fun t => Sql.fk_eq (Product.product_type_id product)
                          (ProductType.id t)) (product_types db))
    as (pt & Hpt & Ht).
  destruct (outerjoin_nonempty
              (fun s => Sql.fk_eq (Product.supplier_id product)
                          (Supplier.id s)) (suppliers db))
    as (s & Hs & _).
  exists pt, s. split; [|exact Ht].
  unfold LowStockAlerts.joined.
  cbn [SpecCreate.with_product inventory products warehouses product_types
       suppliers].
  apply in_flat_map. exists inv. split; [apply in_or_app; right; now left|].
  apply in_flat_map. exists product. split.
  { unfold Sql.join. apply filter_In. split.
    - apply in_or_app. right. now left.
    - now apply Z.eqb_eq. }
  apply in_flat_map. exists w. split.
  { unfold Sql.join. apply filter_In. split; [assumption|].
    now apply Z.eqb_eq. }
  apply in_flat_map. exists pt. split; [assumption|].
  apply in_map_iff. now exists s.
Qed.

(** A product created with little stock is reported. After a request
    was answered 201 with an initial quantity under the fallback
    threshold of 10 and under the default of every product type, both
    alert handlers, asked with [include_no_sales] for the company that
    owns the warehouse, report the new product at that warehouse
    whenever they return alerts. *)
Theorem created_product_is_reported :
  forall (py : Json.Builtins) (store : CreateProduct.Store)
         (request : CreateProduct.Request) (db : DB) (message : string)
         (summary : CreateProduct.ProductSummary)
         (w : Warehouse.t) (now : Z) (args : LowStockAlerts.Args)
         alerts n msg status,
    fst (CreateProduct.create_product py store request db)
    = (CreateProduct.CreatedBody message summary, 201) ->
    In w (warehouses db) ->
    Warehouse.id w = CreateProduct.warehouse_id summary ->
    CreateProduct.initial_quantity summary < 10 ->
    (forall t d, In t (product_types db) ->
                 ProductType.default_low_stock_threshold t = Some d ->
                 CreateProduct.initial_quantity summary < d) ->
    LowStockAlerts.arg_include_no_sales args = true ->
    let db' :=
      CreateProduct.committed
        (snd (CreateProduct.create_product py store request db)) in
    (LowStockAlerts.get_low_stock_alerts db' now args
       (Warehouse.company_id w)
     = (LowStockAlerts.AlertsBody alerts n msg, status)
     \/ exists sql_div,
          LowStockAlerts.get_low_stock_alerts_optimized sql_div db' now args
            (Warehouse.company_id w)
          = (LowStockAlerts.AlertsBody alerts n msg, status)) ->
    Spec.appears (CreateProduct.id summary)
      (CreateProduct.warehouse_id summary) alerts.
Proof.
  intros py store request db message summary w now args alerts n msg status
    H Hw Ew Hq Ht Hincl. cbv zeta.
  destruct (create_product_committed py store request db)
    as [[_ N]|(v & t & Hv & -> & E)].
  { rewrite H in N. now elim N. }
  rewrite H in E. injection E as -> ->.
  cbn [CreateProduct.id CreateProduct.warehouse_id
       CreateProduct.initial_quantity] in *.
  set (product := CreateProduct.new_product store v t).
  set (inv := CreateProduct.new_inventory store v product).
  set (tx := CreateProduct.new_transaction store v product).
  destruct (created_rows_joined db product inv tx w eq_refl Hw
              (eq_sym Ew)) as (pt & s & Hj & Hpt).
  assert (Hit : In (inv, product, w, pt, s)
                  (Spec.company_items
                     (SpecCreate.with_product db product inv tx)
                     (Warehouse.company_id w))).
  { unfold Spec.company_items, LowStockAlerts.low_stock_items.
    apply filter_In. split; [assumption|].
    unfold LowStockAlerts.is_low_stock. apply andb_true_iff. split.
    - apply in_sql_in. unfold Spec.company_warehouse_ids.
      cbn [SpecCreate.with_product warehouses inv
           CreateProduct.new_inventory Inventory.warehouse_id].
      rewrite <- Ew. apply in_map, filter_In.
      split; [assumption|apply Z.eqb_refl].
    - rewrite low_stock_condition_holds. apply Z.ltb_lt.
      cbn [inv CreateProduct.new_inventory Inventory.quantity
           Inventory.low_stock_threshold].
      unfold Spec.effective_threshold. destruct pt as [ty|]; [|assumption].
      destruct (ProductType.default_low_stock_threshold ty) as [d|] eqn:D;
        [|assumption].
      apply (Ht ty d); [now apply Hpt|assumption]. }
  intros [R|[sql_div R]].
  - apply get_low_stock_alerts_inv in R.
    destruct R as (since & fetched & _ & F & -> & _ & _).
    apply (reported_pairs _ _ _ _ _ _ _ F).
    exists inv, product, w, pt, s. split; [assumption|].
    split; [reflexivity|]. split; [now symmetry|]. now right.
  - apply get_low_stock_alerts_optimized_inv in R.
    destruct R as (since & fetched & _ & F & -> & _ & _).
    apply (reported_pairs_optimized _ _ _ _ _ _ _ _ F).
    exists inv, product, w, pt, s. split; [assumption|].
    split; [reflexivity|]. split; [now symmetry|]. now right.
Qed.

Lemma created_product_is_reported_witness :
  Spec.appears 3 1
    [Examples.widget_alert; Examples.gadget_alert;
     ExamplesAlerts.sprocket_alert].
Proof.
  apply (created_product_is_reported ExamplesCreate.py ExamplesCreate.store
           (SpecCreate.json_request ExamplesRows.full_body) Examples.db
           "Product created successfully"
           {| CreateProduct.id := 3; CreateProduct.name := "Sprocket";
              CreateProduct.sku := "S-1";
              CreateProduct.price :=
                S754_finite false 5629499534213120 (-50);
              CreateProduct.warehouse_id := 1;
              CreateProduct.initial_quantity := 0;
              CreateProduct.created_at := Examples.now |}
           Examples.main Examples.now Examples.with_no_sales
           _ 3 None 200).
  - vm_compute. reflexivity.
  - now left.
  - reflexivity.
  - reflexivity.
  - intros t d [<-|[]] E. injection E as <-. reflexivity.
  - reflexivity.
  - left. vm_compute. reflexivity.
Defined.

End CreationThenAlerts.
